(** * export_powerbi_noedge.py: Power BI tabs -> screenshots -> single PDF

    A shallow embedding of the export script and the properties of its
    pipeline: URL building, the sign-in confirmation, the per-tab capture with its
    element-capture and crop fallback paths, and the assembly of the PDF.

    The browser (Playwright), the image library (Pillow) and the PDF writer
    (reportlab) are external to the script.  The browser is an oracle whose
    answers are threaded through an explicit world state; images, the file
    system and the PDF canvas are small functional models that keep what the
    script observes of them (sizes, DPI metadata, pixels, page lists). *)

From Stdlib Require Import ZArith String Ascii List Bool Lia.
From Stdlib Require Import Floats Uint63.
From Stdlib Require Import DecimalString DecimalNat DecimalFacts.
From stdpp Require Import gmap strings list.

Local Open Scope string_scope.
Local Open Scope Z_scope.

(** ** Python run-time pieces the script relies on *)

Module Py.

(** Characters that cannot be written inside a string literal. *)
Definition nl : string := String (ascii_of_nat 10) EmptyString.
Definition dq : string := String (ascii_of_nat 34) EmptyString.

(** Text is held as its UTF-8 bytes.  [str.strip] removes the characters
    Python counts as white space; their encodings take one, two or three
    bytes.

    One byte: TAB, LF, VT, FF, CR, FS, GS, RS, US and the space. *)
Definition isspace (c : ascii) : bool :=
  let n := nat_of_ascii c in
  ((9 <=? n)%nat && (n <=? 13)%nat) || ((28 <=? n)%nat && (n <=? 32)%nat).

(** Two bytes: U+0085 (C2 85) and U+00A0 (C2 A0). *)
Definition isspace2 (c1 c2 : ascii) : bool :=
  let n1 := nat_of_ascii c1 in
  let n2 := nat_of_ascii c2 in
  (n1 =? 194)%nat && ((n2 =? 133)%nat || (n2 =? 160)%nat).

(** Three bytes: U+1680 (E1 9A 80), U+2000..U+200A (E2 80 80..8A),
    U+2028 and U+2029 (E2 80 A8, E2 80 A9), U+202F (E2 80 AF),
    U+205F (E2 81 9F) and U+3000 (E3 80 80). *)
Definition isspace3 (c1 c2 c3 : ascii) : bool :=
  let n1 := nat_of_ascii c1 in
  let n2 := nat_of_ascii c2 in
  let n3 := nat_of_ascii c3 in
  ((n1 =? 225)%nat && (n2 =? 154)%nat && (n3 =? 128)%nat)
  || ((n1 =? 226)%nat && (n2 =? 128)%nat &&
      (((128 <=? n3)%nat && (n3 <=? 138)%nat)
       || (n3 =? 168)%nat || (n3 =? 169)%nat || (n3 =? 175)%nat))
  || ((n1 =? 226)%nat && (n2 =? 129)%nat && (n3 =? 159)%nat)
  || ((n1 =? 227)%nat && (n2 =? 128)%nat && (n3 =? 128)%nat).

(** [lstrip] drops white-space characters, whatever their width, from the
    left end. *)
Fixpoint lstrip (s : string) : string :=
  match s with
  | EmptyString => EmptyString
  | String c1 r1 =>
      if isspace c1 then lstrip r1
      else
        match r1 with
        | String c2 r2 =>
            if isspace2 c1 c2 then lstrip r2
            else
              match r2 with
              | String c3 r3 => if isspace3 c1 c2 c3 then lstrip r3 else s
              | EmptyString => s
              end
        | EmptyString => s
        end
  end.

(** [rstrip] keeps a byte unless it starts a white-space character to the
    right of which nothing survives. *)
Fixpoint rstrip (s : string) : string :=
  match s with
  | EmptyString => EmptyString
  | String c1 r1 =>
      let keep := String c1 (rstrip r1) in
      let unless_last (rest : string) :=
        match rstrip rest with
        | EmptyString => EmptyString
        | _ => keep
        end in
      if isspace c1 then unless_last r1
      else
        match r1 with
        | String c2 r2 =>
            if isspace2 c1 c2 then unless_last r2
            else
              match r2 with
              | String c3 r3 =>
                  if isspace3 c1 c2 c3 then unless_last r3 else keep
              | EmptyString => keep
              end
        | EmptyString => keep
        end
  end.

Definition strip (s : string) : string := rstrip (lstrip s).

(** [str.lower] on the ASCII range: 'A'..'Z' move down by 32.  Bytes of
    longer encodings are left as they are: [str.lower] does change letters
    outside ASCII, but it maps no character other than 'Y' and 'y' to 'y' and
    never shortens a text, so the comparison with the one-letter answer that
    [main] makes comes out the same. *)
Definition lower_char (c : ascii) : ascii :=
  let n := nat_of_ascii c in
  if ((65 <=? n)%nat && (n <=? 90)%nat)%bool then ascii_of_nat (n + 32) else c.

Fixpoint lower (s : string) : string :=
  match s with
  | EmptyString => EmptyString
  | String c rest => String (lower_char c) (lower rest)
  end.

(** [str(n)] for a non-negative integer. *)
Definition str_of_nat (n : nat) : string :=
  NilEmpty.string_of_uint (Nat.to_uint n).

Fixpoint zeros (k : nat) : string :=
  match k with
  | O => EmptyString
  | S k' => String "0"%char (zeros k')
  end.

(** The format specification [{n:0<width>d}]: decimal digits, padded with
    zeros on the left up to [width] characters, never truncated. *)
Definition format_0d (width n : nat) : string :=
  let s := str_of_nat n in
  zeros (width - String.length s) ++ s.

(** Truth value of an integer: anything but zero. *)
Definition truthy (z : Z) : bool := negb (z =? 0).

(** Truth value of a float: anything that does not compare equal to zero
    (both signed zeros are false, a NaN is true). *)
Definition truthy_float (x : float) : bool := negb (PrimFloat.eqb x 0%float).

(** [float(n)] for an integer.  Exact below 2^53 in magnitude; the
    conversion goes through a 63-bit machine integer, which covers every
    pixel dimension an image file can carry. *)
Definition float_of_int (z : Z) : float :=
  if z <? 0
  then PrimFloat.opp (PrimFloat.of_uint63 (Uint63.of_Z (- z)))
  else PrimFloat.of_uint63 (Uint63.of_Z z).

End Py.

(** ** pathlib on POSIX path strings *)

Module Pathlib.

(** Splits the reversed string at its first occurrence of [sep]: the part
    before it and, when [sep] occurs, the part from [sep] on. *)
Fixpoint break_at (sep : ascii) (s : list ascii) : list ascii * option (list ascii) :=
  match s with
  | [] => ([], None)
  | c :: rest =>
      if Ascii.eqb c sep then ([], Some s)
      else let '(before, after) := break_at sep rest in (c :: before, after)
  end.

Definition chars (s : string) : list ascii := list_ascii_of_string s.
Definition unchars (l : list ascii) : string := string_of_list_ascii l.

(** [Path.name]: the final component. *)
Definition name (p : string) : string :=
  unchars (rev (fst (break_at "/"%char (rev (chars p))))).

(** Everything up to and including the last separator. *)
Definition parent_prefix (p : string) : string :=
  match snd (break_at "/"%char (rev (chars p))) with
  | Some tail => unchars (rev tail)
  | None => EmptyString
  end.

(** [Path.suffix]: from the last dot of the name on, unless that dot is the
    first or the last character of the name. *)
Definition suffix (p : string) : string :=
  let rname := rev (chars (name p)) in
  match break_at "."%char rname with
  | (ext, Some (_ :: _ :: _)) =>
      match ext with
      | [] => EmptyString
      | _ => unchars ("."%char :: rev ext)
      end
  | _ => EmptyString
  end.

Definition stem (p : string) : string :=
  let n := name p in
  substring 0 (String.length n - String.length (suffix p)) n.

(** [Path.with_suffix]: the name loses its suffix (if any) and gains the new one. *)
Definition with_suffix (p : string) (new_suffix : string) : string :=
  parent_prefix p ++ stem p ++ new_suffix.

(** The pieces of a path text between its separators. *)
Fixpoint split_slash (s : string) : list string :=
  match s with
  | EmptyString => [EmptyString]
  | String c rest =>
      if Ascii.eqb c "/" then EmptyString :: split_slash rest
      else
        match split_slash rest with
        | p :: ps => String c p :: ps
        | [] => [String c EmptyString]
        end
  end.

(** A path keeps the pieces that are neither empty nor a single dot: a
    doubled separator, a separator at the end and a [/./] leave no trace. *)
Definition kept (piece : string) : bool :=
  negb (String.eqb piece "") && negb (String.eqb piece ".").

Definition parts (s : string) : list string :=
  List.filter kept (split_slash s).

(** [dir / name] for a directory of one component and a relative [name]:
    the components of [name] follow the directory, [/] between them. *)
Definition joinpath (dir name : string) : string :=
  String.concat "/" (dir :: parts name).

End Pathlib.

(** ** Exceptions and results *)

Inductive Exception :=
| PWTimeout               (* playwright.sync_api.TimeoutError *)
| PWError                 (* any other playwright Error *)
| IndexError
| ValueError
| FileExistsError
| FileNotFoundError
| UnidentifiedImageError.

Inductive Result (A : Type) :=
| Ok (a : A)
| Raise (e : Exception).
Arguments Ok {A} a.
Arguments Raise {A} e.

(** ** Pillow: what the script reads of an image *)

Module PIL.

(** An image as decoded from a file: its pixel size, the [dpi] entry of its
    [info] dictionary when the file carries density metadata, and its
    pixels. *)
Record Image := {
  size : Z * Z;
  info_dpi : option (float * float);
  getpixel : Z -> Z -> Z;
}.

Definition Box : Type := Z * Z * Z * Z.

(** [Image.crop(box)]: refuses a box whose right edge is left of its left
    edge or whose lower edge is above its upper edge; otherwise the region
    has the size of the box, and reads zero outside the source image. *)
Definition crop (im : Image) (box : Box) : Result Image :=
  let '(x0, y0, x1, y1) := box in
  if x1 <? x0 then Raise ValueError
  else if y1 <? y0 then Raise ValueError
  else
    let '(w, h) := size im in
    Ok {| size := (x1 - x0, y1 - y0);
          info_dpi := info_dpi im;
          getpixel := fun x y =>
            let sx := x + x0 in
            let sy := y + y0 in
            if (0 <=? sx) && (sx <? w) && (0 <=? sy) && (sy <? h)
            then getpixel im sx sy else 0 |}.

(** What [Image.save(path)] leaves in a PNG file when no [dpi] argument is
    given: the pixels, without density metadata. *)
Definition saved_png (im : Image) : Image :=
  {| size := size im; info_dpi := None; getpixel := getpixel im |}.

(** An image without pixels: [Image.save] refuses it. *)
Definition is_empty (im : Image) : bool :=
  (fst (size im) <=? 0) || (snd (size im) <=? 0).

End PIL.

(** ** reportlab: the canvas and the document it writes *)

Module Reportlab.

Inductive DrawOp :=
| DrawImage (im : PIL.Image) (x y : Z) (width height : float).

Record Page := {
  pagesize : float * float;
  content : list DrawOp;
}.

(** [reportlab.lib.units] and the default page size (A4); the decimal
    constants are rounded to the nearest double, as Python rounds them. *)
#[local] Set Warnings "-inexact-float".
Definition inch : float := 72%float.
Definition cm : float := (inch / 2.54)%float.
Definition mm : float := (cm * 0.1)%float.
Definition A4 : float * float := ((210 * mm)%float, (297 * mm)%float).

(** The state of a [Canvas]: the file it will write, the page size in
    force, the drawing code of the page under construction, and the pages
    already finished. *)
Record Canvas := {
  filename : string;
  cur_pagesize : float * float;
  code : list DrawOp;
  pages : list Page;
}.

Definition new_canvas (out : string) : Canvas :=
  {| filename := out; cur_pagesize := A4; code := []; pages := [] |}.

Definition setPageSize (sz : float * float) (c : Canvas) : Canvas :=
  {| filename := filename c; cur_pagesize := sz; code := code c; pages := pages c |}.

Definition drawImage (im : PIL.Image) (x y : Z) (width height : float) (c : Canvas) : Canvas :=
  {| filename := filename c; cur_pagesize := cur_pagesize c;
     code := code c ++ [DrawImage im x y width height]; pages := pages c |}.

Definition showPage (c : Canvas) : Canvas :=
  {| filename := filename c; cur_pagesize := cur_pagesize c; code := [];
     pages := pages c ++ [{| pagesize := cur_pagesize c; content := code c |}] |}.

(** The pages [Canvas.save] writes: a page under construction is finished first. *)
Definition saved_pages (c : Canvas) : list Page :=
  match code c with
  | [] => pages c
  | _ => pages (showPage c)
  end.

End Reportlab.

(** ** The file system, the browser and the run state *)

(** A file is what it holds.  A file that is moved or left alone keeps its
    value; an image that is decoded, cropped and saved again is a new one; a
    file that was opened for writing and not completed holds nothing that
    can be read back. *)
Inductive File :=
| FImage (im : PIL.Image)
| FPdf (doc : list Reportlab.Page)
| FPartial.

(** A locator is lazy: it is the selector it was built from, narrowed to the
    first match. *)
Inductive Locator :=
| LocatorFirst (selector : string).

Inductive Event :=
| EvMkdir (path : string)
| EvPlaywrightStart
| EvPlaywrightStop
| EvLaunch (user_data_dir : string) (viewport : Z * Z) (device_scale_factor : Z)
| EvNewPage
| EvPrint (text : string)
| EvGoto (url : string)
| EvInput (prompt response : string)
| EvSleep (seconds : float)
| EvWaitFor (loc : Locator) (timeout_ms : Z)
| EvLocatorScreenshot (loc : Locator) (path : string)
| EvPageScreenshot (path : string)
| EvImageOpen (path : string)
| EvCrop (box : PIL.Box)
| EvImageSave (path : string)
| EvRename (src dst : string)
| EvBrowserClose
| EvPdfSave (path : string).

Definition is_input (e : Event) : bool :=
  match e with
  | EvInput _ _ => true
  | _ => false
  end.

Inductive Session := NotStarted | Opened | Closed.

(** The browser and the terminal, as an oracle over a world state [W]: every
    call answers from the current world and moves it on.  Navigation, waits
    and screenshots can fail; reading a line, sleeping and closing cannot. *)
Record Browser (W : Type) := {
  home : string;
  cwd : string;
  launch_persistent_context : string -> Z * Z -> Z -> W -> Result unit * W;
  new_page : W -> Result unit * W;
  goto : string -> W -> Result unit * W;
  wait_for_visible : Locator -> Z -> W -> Result unit * W;
  locator_screenshot : Locator -> W -> Result PIL.Image * W;
  page_screenshot : W -> Result PIL.Image * W;
  input : string -> W -> string * W;
  sleep : float -> W -> W;
  close : W -> W;
}.
Arguments home {W} _.
Arguments cwd {W} _.
Arguments launch_persistent_context {W} _ _ _ _ _.
Arguments new_page {W} _ _.
Arguments goto {W} _ _ _.
Arguments wait_for_visible {W} _ _ _ _.
Arguments locator_screenshot {W} _ _ _.
Arguments page_screenshot {W} _ _.
Arguments input {W} _ _ _.
Arguments sleep {W} _ _ _.
Arguments close {W} _ _.

(** The state of a run.  [files] holds every file of the disk except the
    profile store of the browser, keyed by its path as the script writes it
    (relative to the working directory); [dirs] holds the directories that
    were made.  The profile directory, which the browser engine creates and
    updates under the operator's home whenever it is launched, is the
    browser's own and belongs to the [world].  A directory exists when it
    is in [dirs] or when some file lies in it. *)
Record State (W : Type) := {
  world : W;
  files : gmap string File;
  dirs : gset string;
  session : Session;
  log : list Event;
}.
Arguments world {W} _.
Arguments files {W} _.
Arguments dirs {W} _.
Arguments session {W} _.
Arguments log {W} _.

(** ** The state-and-exception monad of the script *)

Definition M (W A : Type) : Type := State W -> Result A * State W.

Definition ret {W A} (a : A) : M W A := fun st => (Ok a, st).

Definition raise {W A} (e : Exception) : M W A := fun st => (Raise e, st).

Definition bind {W A B} (m : M W A) (k : A -> M W B) : M W B :=
  fun st =>
    match m st with
    | (Ok a, st') => k a st'
    | (Raise e, st') => (Raise e, st')
    end.

(** [try: m  except Exception: h] *)
Definition try_except {W A} (m : M W A) (h : Exception -> M W A) : M W A :=
  fun st =>
    match m st with
    | (Ok a, st') => (Ok a, st')
    | (Raise e, st') => h e st'
    end.

(** [with ... : body]: the exit action runs however [body] ends. *)
Definition finally {W A} (body : M W A) (exit : State W -> State W) : M W A :=
  fun st => let '(r, st') := body st in (r, exit st').

Notation "x <-- m ;; k" := (bind m (fun x => k))
  (at level 100, m at next level, right associativity).
Notation "m ;;; k" := (bind m (fun _ => k))
  (at level 100, right associativity).

(** ** Primitive actions: the file system, the terminal and the browser *)

Section Actions.
Context {W : Type} (env : Browser W).

Definition emit (e : Event) : M W unit :=
  fun st =>
    (Ok tt, {| world := world st; files := files st; dirs := dirs st;
               session := session st; log := log st ++ [e] |}).

Definition set_world (w : W) (st : State W) : State W :=
  {| world := w; files := files st; dirs := dirs st;
     session := session st; log := log st |}.

Definition set_files (fs : gmap string File) (st : State W) : State W :=
  {| world := world st; files := fs; dirs := dirs st;
     session := session st; log := log st |}.

Definition set_session (s : Session) (st : State W) : State W :=
  {| world := world st; files := files st; dirs := dirs st;
     session := s; log := log st |}.

(** Lifts an oracle call that can fail. *)
Definition ask {A} (call : W -> Result A * W) : M W A :=
  fun st => let '(r, w') := call (world st) in (r, set_world w' st).

(** Lifts an oracle call that cannot fail. *)
Definition tell (call : W -> W) : M W unit :=
  fun st => (Ok tt, set_world (call (world st)) st).

(** The write itself, once the file could be opened for writing. *)
Definition write_file (path : string) (f : File) : M W unit :=
  fun st => (Ok tt, set_files (<[path := f]> (files st)) st).

(** A file can be created at [path] when the directory part of [path]
    exists: it is empty (the working directory), a directory that was made,
    or the directory of a file that is there. *)
Definition can_create (st : State W) (path : string) : bool :=
  let d := Pathlib.parent_prefix path in
  String.eqb d ""
  || existsb (fun dir => String.eqb (dir ++ "/") d) (elements (dirs st))
  || existsb (fun entry => String.prefix d (fst entry)) (map_to_list (files st)).

Definition print (text : string) : M W unit := emit (EvPrint text).

(** [Path.mkdir(parents=True, exist_ok=True)]: an existing directory is
    accepted, a file in its place is not. *)
Definition mkdir (path : string) : M W unit :=
  emit (EvMkdir path) ;;;
  fun st =>
    match files st !! path with
    | Some _ => (Raise FileExistsError, st)
    | None =>
        (Ok tt, {| world := world st; files := files st;
                   dirs := {[ path ]} ∪ dirs st;
                   session := session st; log := log st |})
    end.

(** [Path.rename(target)], POSIX: the target is replaced silently; a
    missing source or a missing target directory is a [FileNotFoundError]. *)
Definition rename (src dst : string) : M W unit :=
  emit (EvRename src dst) ;;;
  fun st =>
    match files st !! src with
    | Some f =>
        if can_create st dst
        then (Ok tt, set_files (<[dst := f]> (delete src (files st))) st)
        else (Raise FileNotFoundError, st)
    | None => (Raise FileNotFoundError, st)
    end.

(** [Image.open(path)] *)
Definition image_open (path : string) : M W PIL.Image :=
  emit (EvImageOpen path) ;;;
  fun st =>
    match files st !! path with
    | Some (FImage im) => (Ok im, st)
    | Some _ => (Raise UnidentifiedImageError, st)
    | None => (Raise FileNotFoundError, st)
    end.

(** [im.crop(box)] *)
Definition image_crop (im : PIL.Image) (box : PIL.Box) : M W PIL.Image :=
  emit (EvCrop box) ;;;
  fun st => (PIL.crop im box, st).

(** What an abandoned write leaves at [path]: a file that was there before
    has been truncated, a file that was created for the write is removed
    again. *)
Definition cut_short (path : string) (fs : gmap string File) : gmap string File :=
  match fs !! path with
  | Some _ => <[path := FPartial]> fs
  | None => fs
  end.

(** [im.save(path)]: the file is opened for writing, which takes an
    existing directory; then the encoder refuses an image without pixels
    with a [ValueError], and the write is abandoned. *)
Definition image_save (im : PIL.Image) (path : string) : M W unit :=
  emit (EvImageSave path) ;;;
  fun st =>
    if can_create st path then
      if PIL.is_empty im
      then (Raise ValueError, set_files (cut_short path (files st)) st)
      else write_file path (FImage (PIL.saved_png im)) st
    else (Raise FileNotFoundError, st).

(** [Canvas.save()]: the document is written to the file the canvas was
    made for, whose directory must exist. *)
Definition canvas_save (c : Reportlab.Canvas) : M W unit :=
  fun st =>
    if can_create st (Reportlab.filename c)
    then write_file (Reportlab.filename c) (FPdf (Reportlab.saved_pages c)) st
    else (Raise FileNotFoundError, st).

(** [time.sleep(seconds)] *)
Definition time_sleep (seconds : float) : M W unit :=
  emit (EvSleep seconds) ;;; tell (sleep env seconds).

(** [input(prompt)] *)
Definition py_input (prompt : string) : M W string :=
  fun st =>
    let '(resp, w') := input env prompt (world st) in
    (emit (EvInput prompt resp) ;;; ret resp) (set_world w' st).

(** [pw.chromium.launch_persistent_context(...)].  The browser creates and
    updates its profile under [user_data_dir]: that store is part of the
    world the oracle moves on, not of [files]. *)
Definition pw_launch (user_data_dir : string) (viewport : Z * Z) (scale : Z) : M W unit :=
  emit (EvLaunch user_data_dir viewport scale) ;;;
  ask (launch_persistent_context env user_data_dir viewport scale) ;;;
  fun st => (Ok tt, set_session Opened st).

(** [browser.new_page()] *)
Definition pw_new_page : M W unit :=
  emit EvNewPage ;;; ask (new_page env).

(** [page.goto(url, wait_until="domcontentloaded")] *)
Definition page_goto (url : string) : M W unit :=
  emit (EvGoto url) ;;; ask (goto env url).

(** [loc.wait_for(state="visible", timeout=...)] *)
Definition locator_wait_for (loc : Locator) (timeout_ms : Z) : M W unit :=
  emit (EvWaitFor loc timeout_ms) ;;; ask (wait_for_visible env loc timeout_ms).

(** [loc.screenshot(path=...)]: the element's bounding region, written to
    [path]; the browser driver makes the directory of [path] when needed. *)
Definition pw_locator_screenshot (loc : Locator) (path : string) : M W unit :=
  emit (EvLocatorScreenshot loc path) ;;;
  im <-- ask (locator_screenshot env loc) ;;
  write_file path (FImage im).

(** [page.screenshot(path=..., full_page=True)] *)
Definition pw_page_screenshot (path : string) : M W unit :=
  emit (EvPageScreenshot path) ;;;
  im <-- ask (page_screenshot env) ;;
  write_file path (FImage im).

(** [browser.close()] *)
Definition browser_close : M W unit :=
  emit EvBrowserClose ;;;
  tell (close env) ;;;
  fun st => (Ok tt, set_session Closed st).

(** [with sync_playwright() as pw: body] *)
Definition with_sync_playwright {A} (body : M W A) : M W A :=
  emit EvPlaywrightStart ;;;
  finally body (fun st => snd (emit EvPlaywrightStop st)).

End Actions.

(** ** USER CONFIG *)

Record Margins := {
  left : Z;
  right : Z;
  top : Z;
  bottom : Z;
}.

Record Config := {
  WORKSPACE_ID : string;
  REPORT_ID : string;
  SECTIONS : list string;
  CHROMELESS : bool;
  AFTER_NAV_WAIT_SEC : float;
  RENDER_BUFFER_SEC : float;
  NOW : string;               (* datetime.now(), formatted %Y%m%d_%H%M *)
  VIEWPORT_W : Z;
  VIEWPORT_H : Z;
  DEVICE_SCALE_FACTOR : Z;
  USE_ELEMENT_CAPTURE : bool;
  CANVAS_SELECTORS : list string;
  CROP_MARGINS : Margins;
}.

Definition OUTPUT_DIR : string := "powerbi_tab_exports".

Definition OUTPUT_PDF (cfg : Config) : string :=
  "PowerBI_Report_Tabs_" ++ NOW cfg ++ ".pdf".

(** The constants as the script sets them, for a run started at [now]. *)
Definition configured (now : string) : Config := {|
  WORKSPACE_ID := "34206745-f731-4cf0-abb3-60f8c6063a17";
  REPORT_ID := "9b1ef4dc-67e0-4fb0-b7c0-a60b13d56d9b";
  SECTIONS := [
    "aee1ca53a294adcd19d6";
    "f3068a3490443d692480";
    "bcef587a2687c468c590";
    "1d8509acae2a7c233b94";
    "cf3c2bc02309c11cf0d6";
    "a295e311cdc72150e15e";
    "fa92017d1ee22557b834";
    "7f44c7593fdc0788af2b";
    "c5b8d2e47f0c7ddcbb53";
    "5df08783c0b6d7388b5f" ];
  CHROMELESS := true;
  AFTER_NAV_WAIT_SEC := 4%float;
  RENDER_BUFFER_SEC := 3%float;
  NOW := now;
  VIEWPORT_W := 1920;
  VIEWPORT_H := 1200;
  DEVICE_SCALE_FACTOR := 2;
  USE_ELEMENT_CAPTURE := true;
  CANVAS_SELECTORS := [
    "div.reportCanvas";
    "div[aria-label=" ++ Py.dq ++ "Report canvas" ++ Py.dq ++ "]";
    "[data-testid=" ++ Py.dq ++ "report-view-container" ++ Py.dq ++ "]";
    "div.visual-container-host" ];
  CROP_MARGINS := {| left := 140; right := 0; top := 0; bottom := 145 |};
|}.

(** ** The script *)

Section Script.
Context {W : Type} (cfg : Config) (env : Browser W).

Definition tab_url (section_id : string) : string :=
  let base := "https://app.powerbi.com/groups/" ++ WORKSPACE_ID cfg
              ++ "/reports/" ++ REPORT_ID cfg ++ "/" ++ section_id in
  let qs := "experience=power-bi&clientSideAuth=0" in
  let qs := if CHROMELESS cfg
            then qs ++ "&chromeless=1&filterPaneEnabled=false&navContentPaneEnabled=false"
            else qs in
  base ++ "?" ++ qs.

(** Simple fixed waits; no DOM probing. *)
Definition wait_fixed : M W unit :=
  time_sleep env (AFTER_NAV_WAIT_SEC cfg) ;;;
  time_sleep env (RENDER_BUFFER_SEC cfg).

(** The [for sel in ...] loop of [find_report_canvas]: the first selector
    whose locator becomes visible within 2000 ms is returned; a timeout or
    any other exception moves on to the next one. *)
Fixpoint find_among (selectors : list string) : M W (option Locator) :=
  match selectors with
  | [] => ret None
  | sel :: rest =>
      let loc := LocatorFirst sel in
      try_except
        (locator_wait_for env loc 2000 ;;; ret (Some loc))
        (fun _ => find_among rest)
  end.

Definition find_report_canvas : M W (option Locator) :=
  find_among (CANVAS_SELECTORS cfg).

(** The probes of [selectors], run in turn from world [w], all fail (by
    timeout or otherwise): the world they leave behind, if so. *)
Fixpoint none_visible (selectors : list string) (w : W) : option W :=
  match selectors with
  | [] => Some w
  | sel :: rest =>
      match wait_for_visible env (LocatorFirst sel) 2000 w with
      | (Ok _, _) => None
      | (Raise _, w') => none_visible rest w'
      end
  end.

Definition probe_events (selectors : list string) : list Event :=
  map (fun sel => EvWaitFor (LocatorFirst sel) 2000) selectors.

(** [any(CROP_MARGINS.values())] *)
Definition any_margin (m : Margins) : bool :=
  Py.truthy (left m) || Py.truthy (right m) || Py.truthy (top m) || Py.truthy (bottom m).

(** The crop box computed from the margins and the size of the full capture. *)
Definition crop_box (m : Margins) (sz : Z * Z) : PIL.Box :=
  let '(w, h) := sz in
  let left := Z.max 0 (left m) in
  let right := Z.max 0 (right m) in
  let top := Z.max 0 (top m) in
  let bottom := Z.max 0 (bottom m) in
  (left, top, Z.max left (w - right), Z.max top (h - bottom)).

(** The fallback of [screenshot_clean]: full page, then crop. *)
Definition full_page_then_crop (path : string) : M W unit :=
  let tmp_full := Pathlib.with_suffix path ".full.png" in
  pw_page_screenshot env tmp_full ;;;
  if any_margin (CROP_MARGINS cfg) then
    im <-- image_open tmp_full ;;
    let box := crop_box (CROP_MARGINS cfg) (PIL.size im) in
    cropped <-- image_crop im box ;;
    image_save cropped path
  else
    rename tmp_full path.

(** Try to capture only the report canvas.  If not found, capture the full
    page and crop margins. *)
Definition screenshot_clean (path : string) : M W unit :=
  if USE_ELEMENT_CAPTURE cfg then
    canvas_loc <-- find_report_canvas ;;
    match canvas_loc with
    | Some loc => pw_locator_screenshot env loc path
    | None => full_page_then_crop path
    end
  else full_page_then_crop path.

Definition dpi_hint : Z := 96.

(** [im.info.get("dpi", (dpi_hint, dpi_hint))[0] or dpi_hint], as a float. *)
Definition img_dpi (im : PIL.Image) : float :=
  match PIL.info_dpi im with
  | Some (xdpi, _) =>
      if Py.truthy_float xdpi then xdpi else Py.float_of_int dpi_hint
  | None => Py.float_of_int dpi_hint
  end.

Definition px_to_pt (im : PIL.Image) : float := (72 / img_dpi im)%float.

Definition page_w (im : PIL.Image) : float :=
  (Py.float_of_int (fst (PIL.size im)) * px_to_pt im)%float.

Definition page_h (im : PIL.Image) : float :=
  (Py.float_of_int (snd (PIL.size im)) * px_to_pt im)%float.

(** The page one pass of the loop of [merge_pngs_to_pdf] appends for [im]. *)
Definition page_for (im : PIL.Image) : Reportlab.Page :=
  Reportlab.Build_Page (page_w im, page_h im)
    [Reportlab.DrawImage im 0 0 (page_w im) (page_h im)].

(** The [for img_path in images] loop of [merge_pngs_to_pdf]. *)
Fixpoint merge_pages (images : list string) (c : Reportlab.Canvas) : M W Reportlab.Canvas :=
  match images with
  | [] => ret c
  | img_path :: rest =>
      im <-- image_open img_path ;;
      let c := Reportlab.setPageSize (page_w im, page_h im) c in
      let c := Reportlab.drawImage im 0 0 (page_w im) (page_h im) c in
      merge_pages rest (Reportlab.showPage c)
  end.

(** Create a PDF where each page is the same size as the image placed on it. *)
Definition merge_pngs_to_pdf (images : list string) (out_pdf : string) : M W unit :=
  c <-- merge_pages images (Reportlab.new_canvas out_pdf) ;;
  emit (EvPdfSave out_pdf) ;;;
  canvas_save c.

(** [OUTPUT_DIR / f"tab_{i:02d}_{sec}.png"].  The configured section
    identifiers are plain tokens; one with separators in it would be parsed
    into further components by the join. *)
Definition img_path_of (i : nat) (sec : string) : string :=
  Pathlib.joinpath OUTPUT_DIR ("tab_" ++ Py.format_0d 2 i ++ "_" ++ sec ++ ".png").

(** The [for i, sec in enumerate(SECTIONS, 1)] loop of [main]; [i] is the
    ordinal of the first remaining section, [shots] the paths saved so far. *)
Fixpoint capture_tabs (total : nat) (i : nat) (secs : list string) (shots : list string)
  : M W (list string) :=
  match secs with
  | [] => ret shots
  | sec :: rest =>
      let url := tab_url sec in
      print (Py.nl ++ "→ Loading tab " ++ Py.str_of_nat i ++ "/"
             ++ Py.str_of_nat total ++ ": " ++ url) ;;;
      page_goto env url ;;;
      wait_fixed ;;;
      let img_path := img_path_of i sec in
      screenshot_clean img_path ;;;
      print ("  Saved " ++ Pathlib.name img_path) ;;;
      capture_tabs total (S i) rest (shots ++ [img_path])
  end.

Definition sign_in_prompt : string :=
  Py.nl ++ "🔐 If Power BI prompts for login/MFA, complete it in the browser." ++ Py.nl
  ++ "When the report looks loaded, type Y then ENTER to begin export: ".

(** [SECTIONS[0]] *)
Definition first_section : M W string :=
  match SECTIONS cfg with
  | sec :: _ => ret sec
  | [] => raise IndexError
  end.

(** The first half of the body of [with sync_playwright() as pw:]: open the
    browser, load the first tab and ask the operator; the value is the line
    typed at the prompt. *)
Definition sign_in : M W string :=
  let user_dir := home env ++ "/.pbi_auth_powerbi" in
  pw_launch env user_dir (VIEWPORT_W cfg, VIEWPORT_H cfg) (DEVICE_SCALE_FACTOR cfg) ;;;
  pw_new_page env ;;;
  print "Opening first tab to let you sign in (if prompted)…" ;;;
  sec0 <-- first_section ;;
  page_goto env (tab_url sec0) ;;;
  py_input env sign_in_prompt.

(** The second half: the confirmation test and the export loop.  [None] is
    the early [return] taken when the operator declines, [Some shots] the
    fall-through. *)
Definition export_or_cancel (answer : string) : M W (option (list string)) :=
  let resp := Py.lower (Py.strip answer) in
  if negb (String.eqb resp "y") then
    browser_close env ;;;
    print "Cancelled." ;;;
    ret None
  else
    shots <-- capture_tabs (List.length (SECTIONS cfg)) 1 (SECTIONS cfg) [] ;;
    browser_close env ;;;
    ret (Some shots).

Definition browser_session : M W (option (list string)) :=
  answer <-- sign_in ;;
  export_or_cancel answer.

(** The closing message; [OUTPUT_PDF.resolve()] is the path under the
    working directory. *)
Definition done_message : string :=
  Py.nl ++ "✅ Done. Combined PDF: " ++ cwd env ++ "/" ++ OUTPUT_PDF cfg.

Definition main : M W unit :=
  mkdir OUTPUT_DIR ;;;
  outcome <-- with_sync_playwright browser_session ;;
  match outcome with
  | None => ret tt
  | Some shots =>
      merge_pngs_to_pdf shots (OUTPUT_PDF cfg) ;;;
      print done_message
  end.

End Script.

(** A run starts with no browser session and an empty log. *)
Definition initial {W} (w : W) (fs : gmap string File) (ds : gset string) : State W :=
  {| world := w; files := fs; dirs := ds; session := NotStarted; log := [] |}.

(** ** A scripted browser, for running the model on concrete inputs *)

Module Demo.

Definition blank (w h : Z) (dpi : option (float * float)) : PIL.Image :=
  {| PIL.size := (w, h); PIL.info_dpi := dpi; PIL.getpixel := fun x y => x + y |}.

(** A page that does not change over time: the selectors in [visible] match
    at once, every other probe times out; the operator types [answer]. *)
Record Scenario := {
  visible : list string;
  answer : string;
  element_capture : PIL.Image;
  full_capture : PIL.Image;
}.

Definition is_visible (sc : Scenario) (loc : Locator) : bool :=
  match loc with
  | LocatorFirst sel => existsb (String.eqb sel) (visible sc)
  end.

Definition browser (sc : Scenario) : Browser unit := {|
  home := "/home/operator";
  cwd := "/home/operator/reports";
  launch_persistent_context := fun _ _ _ w => (Ok tt, w);
  new_page := fun w => (Ok tt, w);
  goto := fun _ w => (Ok tt, w);
  wait_for_visible := fun loc _ w =>
    (if is_visible sc loc then Ok tt else Raise PWTimeout, w);
  locator_screenshot := fun _ w => (Ok (element_capture sc), w);
  page_screenshot := fun w => (Ok (full_capture sc), w);
  input := fun _ w => (answer sc, w);
  sleep := fun _ w => w;
  close := fun w => w;
|}.

(** Nothing matches, the operator confirms. *)
Definition no_canvas : Scenario := {|
  visible := [];
  answer := "Y";
  element_capture := blank 1600 900 None;
  full_capture := blank 1920 1200 None;
|}.

(** Only the third candidate matches, the operator confirms. *)
Definition third_matches : Scenario := {|
  visible := ["[data-testid=" ++ Py.dq ++ "report-view-container" ++ Py.dq ++ "]";
              "div.visual-container-host"];
  answer := " y ";
  element_capture := blank 1600 900 None;
  full_capture := blank 1920 1200 None;
|}.

(** The operator answers something else than Y. *)
Definition declined : Scenario := {|
  visible := [];
  answer := "yes";
  element_capture := blank 1600 900 None;
  full_capture := blank 1920 1200 None;
|}.

Definition cfg : Config := configured "20240131_0930".

(** The same configuration with other crop margins. *)
Definition with_margins (m : Margins) : Config := {|
  WORKSPACE_ID := WORKSPACE_ID cfg;
  REPORT_ID := REPORT_ID cfg;
  SECTIONS := SECTIONS cfg;
  CHROMELESS := CHROMELESS cfg;
  AFTER_NAV_WAIT_SEC := AFTER_NAV_WAIT_SEC cfg;
  RENDER_BUFFER_SEC := RENDER_BUFFER_SEC cfg;
  NOW := NOW cfg;
  VIEWPORT_W := VIEWPORT_W cfg;
  VIEWPORT_H := VIEWPORT_H cfg;
  DEVICE_SCALE_FACTOR := DEVICE_SCALE_FACTOR cfg;
  USE_ELEMENT_CAPTURE := USE_ELEMENT_CAPTURE cfg;
  CANVAS_SELECTORS := CANVAS_SELECTORS cfg;
  CROP_MARGINS := m;
|}.

(** Nothing matches and the full page is captured as [full]. *)
Definition page_of (full : PIL.Image) : Scenario := {|
  visible := [];
  answer := "Y";
  element_capture := full;
  full_capture := full;
|}.

Definition no_margins : Margins := {| left := 0; right := 0; top := 0; bottom := 0 |}.

(** A capture that carries a density of 96, alone on disk. *)
Definition shot_96 : PIL.Image := blank 1920 1200 (Some (96%float, 96%float)).

Definition one_shot_on_disk : State unit :=
  initial tt {[ "shot.png" := FImage shot_96 ]} ∅.

Definition aria_selector : string :=
  "div[aria-label=" ++ Py.dq ++ "Report canvas" ++ Py.dq ++ "]".

Definition testid_selector : string :=
  "[data-testid=" ++ Py.dq ++ "report-view-container" ++ Py.dq ++ "]".

Definition first_shot : string := "powerbi_tab_exports/tab_01_aee1ca53a294adcd19d6.png".
Definition first_full : string := "powerbi_tab_exports/tab_01_aee1ca53a294adcd19d6.full.png".

Definition start : State unit := initial tt ∅ ∅.

End Demo.

(** ** Vocabulary for statements about whole runs *)

(** Events other than the operator's answer at the prompt. *)
Definition quiet (e : Event) : bool := negb (is_input e).

Definition any_event (e : Event) : bool := true.

(** [st'] continues [st]: the directories are the same and the log of [st]
    has grown by events that all satisfy [P]. *)
Definition continues {W} (P : Event -> bool) (st st' : State W) : Prop :=
  dirs st' = dirs st /\
  exists delta, log st' = (log st ++ delta)%list /\ forallb P delta = true.

(** Every run of [m] continues the state it starts from. *)
Definition keeps {W A} (P : Event -> bool) (m : M W A) : Prop :=
  forall st, continues P st (snd (m st)).

(** Events that do not decline the confirmation: everything but an answer
    that, stripped and lower-cased, differs from "y". *)
Definition confirms (e : Event) : bool :=
  match e with
  | EvInput _ answer => String.eqb (Py.lower (Py.strip answer)) "y"
  | _ => true
  end.

(** ** Vocabulary for statements about strings and paths *)

(** Only white space, in the sense of [str.isspace]: a sequence of the
    one-, two- and three-byte encodings that [Py.strip] removes. *)
Fixpoint all_space (s : string) : bool :=
  match s with
  | EmptyString => true
  | String c1 r1 =>
      if Py.isspace c1 then all_space r1
      else
        match r1 with
        | String c2 r2 =>
            if Py.isspace2 c1 c2 then all_space r2
            else
              match r2 with
              | String c3 r3 => Py.isspace3 c1 c2 c3 && all_space r3
              | EmptyString => false
              end
        | EmptyString => false
        end
  end.

(** A byte that is no white space and starts no longer white-space
    character. *)
Definition starts_no_space (c : ascii) : Prop :=
  Py.isspace c = false /\
  (forall d, Py.isspace2 c d = false) /\
  (forall d e, Py.isspace3 c d e = false).

(** The margins leave no pixel of the capture. *)
Definition no_room (m : Margins) (full : PIL.Image) : Prop :=
  fst (PIL.size full) <= Z.max 0 (left m) + Z.max 0 (right m) \/
  snd (PIL.size full) <= Z.max 0 (top m) + Z.max 0 (bottom m).

(** The paths that hold an image. *)
Definition is_image (f : File) : bool :=
  match f with
  | FImage _ => true
  | _ => false
  end.

Definition image_files (fs : gmap string File) : list string :=
  map fst (List.filter (fun entry => is_image (snd entry)) (map_to_list fs)).

(** No path separator occurs in the string. *)
Definition no_slash (s : string) : bool :=
  forallb (fun c => negb (Ascii.eqb c "/")) (list_ascii_of_string s).

(** The steps of a run that decide what a capture shows: loading an
    address, waiting, taking a screenshot (of an element or of the page). *)
Inductive Step :=
| Visit (url : string)
| Wait (seconds : float)
| Shot.

Definition step_of (e : Event) : option Step :=
  match e with
  | EvGoto url => Some (Visit url)
  | EvSleep seconds => Some (Wait seconds)
  | EvLocatorScreenshot _ _ => Some Shot
  | EvPageScreenshot _ => Some Shot
  | _ => None
  end.

Definition timeline (l : list Event) : list Step := omap step_of l.

(** ** More scripted inputs *)

Module Cases.

(** The configuration with an empty list of sections. *)
Definition no_sections : Config := {|
  WORKSPACE_ID := WORKSPACE_ID Demo.cfg;
  REPORT_ID := REPORT_ID Demo.cfg;
  SECTIONS := [];
  CHROMELESS := CHROMELESS Demo.cfg;
  AFTER_NAV_WAIT_SEC := AFTER_NAV_WAIT_SEC Demo.cfg;
  RENDER_BUFFER_SEC := RENDER_BUFFER_SEC Demo.cfg;
  NOW := NOW Demo.cfg;
  VIEWPORT_W := VIEWPORT_W Demo.cfg;
  VIEWPORT_H := VIEWPORT_H Demo.cfg;
  DEVICE_SCALE_FACTOR := DEVICE_SCALE_FACTOR Demo.cfg;
  USE_ELEMENT_CAPTURE := USE_ELEMENT_CAPTURE Demo.cfg;
  CANVAS_SELECTORS := CANVAS_SELECTORS Demo.cfg;
  CROP_MARGINS := CROP_MARGINS Demo.cfg;
|}.

(** A browser in which nothing matches, the operator confirms, and the
    full-page screenshot fails. *)
Definition broken_capture : Browser unit := {|
  home := "/home/operator";
  cwd := "/home/operator/reports";
  launch_persistent_context := fun _ _ _ w => (Ok tt, w);
  new_page := fun w => (Ok tt, w);
  goto := fun _ w => (Ok tt, w);
  wait_for_visible := fun _ _ w => (Raise PWTimeout, w);
  locator_screenshot := fun _ w => (Raise PWError, w);
  page_screenshot := fun w => (Raise PWError, w);
  input := fun _ w => ("y", w);
  sleep := fun _ w => w;
  close := fun w => w;
|}.


End Cases.

(** * Properties *)

Local Open Scope list_scope.

(** ** The crop box *)

Lemma crop_box_eq (m : Margins) (w h : Z) :
  crop_box m (w, h)
  = (Z.max 0 (left m), Z.max 0 (top m),
     Z.max (Z.max 0 (left m)) (w - Z.max 0 (right m)),
     Z.max (Z.max 0 (top m)) (h - Z.max 0 (bottom m))).
Proof. reflexivity. Qed.

Lemma crop_at_box (im : PIL.Image) (m : Margins) :
  exists region,
    PIL.crop im (crop_box m (PIL.size im)) = Ok region /\
    PIL.size region
    = (Z.max (Z.max 0 (left m)) (fst (PIL.size im) - Z.max 0 (right m)) - Z.max 0 (left m),
       Z.max (Z.max 0 (top m)) (snd (PIL.size im) - Z.max 0 (bottom m)) - Z.max 0 (top m)).
Proof.
  destruct im as [[w h] dpi px]. cbn [PIL.size fst snd].
  rewrite crop_box_eq. unfold PIL.crop. cbn [PIL.size].
  destruct (Z.ltb_spec (Z.max (Z.max 0 (left m)) (w - Z.max 0 (right m))) (Z.max 0 (left m)))
    as [Hx|_]; [lia|].
  destruct (Z.ltb_spec (Z.max (Z.max 0 (top m)) (h - Z.max 0 (bottom m))) (Z.max 0 (top m)))
    as [Hy|_]; [lia|].
  eexists; split; reflexivity.
Qed.

(** C9. Whatever the image size and the margins (negative ones and ones
    larger than the image included), the crop box is built from margins
    clamped below at 0, none of its coordinates is negative, its right edge
    is not left of its left edge, its lower edge is not above its upper
    edge, and [crop] accepts it. *)
Theorem crop_box_always_valid (m : Margins) (im : PIL.Image) :
  let '(x0, y0, x1, y1) := crop_box m (PIL.size im) in
  x0 = Z.max 0 (left m) /\
  y0 = Z.max 0 (top m) /\
  x1 = Z.max x0 (fst (PIL.size im) - Z.max 0 (right m)) /\
  y1 = Z.max y0 (snd (PIL.size im) - Z.max 0 (bottom m)) /\
  0 <= x0 <= x1 /\
  0 <= y0 <= y1 /\
  exists region, PIL.crop im (x0, y0, x1, y1) = Ok region.
Proof.
  destruct (crop_at_box im m) as (region & Hcrop & _).
  destruct im as [[w h] dpi px]; cbn [PIL.size fst snd] in *.
  rewrite crop_box_eq in *.
  repeat split; try lia.
  exists region; exact Hcrop.
Qed.

(** ** Running the capture of one tab *)

Ltac monad_unfold :=
  unfold pw_page_screenshot, pw_locator_screenshot, image_open, image_crop,
    image_save, canvas_save, rename, locator_wait_for, page_goto, time_sleep, print,
    write_file, emit, ask, tell, bind, ret, raise, try_except,
    set_world, set_files, set_session;
  cbn [world files dirs session log fst snd].

Ltac log_assoc := repeat rewrite <- app_assoc; cbn [app].

Lemma prefix_app (a b : string) : String.prefix a (a ++ b) = true.
Proof.
  induction a as [|c a IH]; [destruct b; reflexivity|].
  change (String.prefix (String c a) (String c (a ++ b)) = true).
  cbn [String.prefix]. destruct (ascii_dec c c); [exact IH|congruence].
Qed.

Section CaptureRuns.
Context {W : Type} (cfg : Config) (env : Browser W).

(** A directory that holds a file exists. *)
Lemma can_create_beside (st : State W) (path other : string) (f : File) :
  files st !! other = Some f ->
  String.prefix (Pathlib.parent_prefix path) other = true ->
  can_create st path = true.
Proof.
  intros Hfile Hprefix. unfold can_create. apply orb_true_iff. right.
  apply existsb_exists. exists (other, f). split; [|exact Hprefix].
  apply list_elem_of_In, elem_of_map_to_list. exact Hfile.
Qed.

(** The intermediate capture lies in the directory of the named file. *)
Lemma can_create_after_capture (st : State W) (path sfx : string) (f : File) :
  files st !! Pathlib.with_suffix path sfx = Some f ->
  can_create st path = true.
Proof.
  intros Hfile. apply (can_create_beside st path _ f Hfile).
  unfold Pathlib.with_suffix. apply prefix_app.
Qed.

Ltac beside_capture full :=
  match goal with
  | |- context [can_create ?s ?path] =>
      rewrite (can_create_after_capture s path ".full.png" (FImage full))
        by (cbn [files]; first [apply lookup_insert_eq | assumption])
  end.

(** With a margin set: the capture is written, read back and cropped; the
    crop is saved under the given name unless it has no pixels. *)
Lemma full_page_then_crop_cropping (path : string) (st : State W) full w' :
  page_screenshot env (world st) = (Ok full, w') ->
  any_margin (CROP_MARGINS cfg) = true ->
  exists region,
    PIL.crop full (crop_box (CROP_MARGINS cfg) (PIL.size full)) = Ok region /\
    let captured := <[Pathlib.with_suffix path ".full.png" := FImage full]> (files st) in
    let events := [EvPageScreenshot (Pathlib.with_suffix path ".full.png");
                   EvImageOpen (Pathlib.with_suffix path ".full.png");
                   EvCrop (crop_box (CROP_MARGINS cfg) (PIL.size full));
                   EvImageSave path] in
    full_page_then_crop cfg env path st
    = if PIL.is_empty region
      then (Raise ValueError,
            {| world := w'; files := cut_short path captured; dirs := dirs st;
               session := session st; log := log st ++ events |})
      else (Ok tt,
            {| world := w';
               files := <[path := FImage (PIL.saved_png region)]> captured;
               dirs := dirs st; session := session st; log := log st ++ events |}).
Proof.
  intros Hshot Hany.
  destruct (crop_at_box full (CROP_MARGINS cfg)) as (region & Hcrop & _).
  exists region; split; [exact Hcrop|]. cbv zeta.
  unfold full_page_then_crop. rewrite Hany.
  monad_unfold. rewrite Hshot. cbn [world files dirs session log].
  rewrite lookup_insert_eq. cbn [world files dirs session log].
  rewrite Hcrop. beside_capture full. log_assoc.
  destruct (PIL.is_empty region); reflexivity.
Qed.

Lemma full_page_then_crop_renaming (path : string) (st : State W) full w' :
  page_screenshot env (world st) = (Ok full, w') ->
  any_margin (CROP_MARGINS cfg) = false ->
  full_page_then_crop cfg env path st
  = (Ok tt,
     {| world := w';
        files := <[path := FImage full]>
                   (delete (Pathlib.with_suffix path ".full.png")
                      (<[Pathlib.with_suffix path ".full.png" := FImage full]> (files st)));
        dirs := dirs st;
        session := session st;
        log := log st ++ [EvPageScreenshot (Pathlib.with_suffix path ".full.png");
                          EvRename (Pathlib.with_suffix path ".full.png") path] |}).
Proof.
  intros Hshot Hany.
  unfold full_page_then_crop. rewrite Hany.
  monad_unfold. rewrite Hshot. cbn [world files dirs session log].
  rewrite lookup_insert_eq. beside_capture full. log_assoc. reflexivity.
Qed.

(** A crop of positive width and height has pixels. *)
Lemma crop_not_empty (full region : PIL.Image) (m : Margins) :
  PIL.crop full (crop_box m (PIL.size full)) = Ok region ->
  Z.max 0 (left m) + Z.max 0 (right m) < fst (PIL.size full) ->
  Z.max 0 (top m) + Z.max 0 (bottom m) < snd (PIL.size full) ->
  PIL.is_empty region = false.
Proof.
  intros Hcrop Hw Hh.
  destruct (crop_at_box full m) as (region' & Hcrop' & Hsize).
  assert (region' = region) as -> by congruence.
  unfold PIL.is_empty. rewrite Hsize. cbn [fst snd].
  apply orb_false_iff. split; apply Z.leb_gt; lia.
Qed.

(** A crop that the margins leave no room for has none. *)
Lemma crop_empty (full region : PIL.Image) (m : Margins) :
  PIL.crop full (crop_box m (PIL.size full)) = Ok region ->
  fst (PIL.size full) <= Z.max 0 (left m) + Z.max 0 (right m) \/
  snd (PIL.size full) <= Z.max 0 (top m) + Z.max 0 (bottom m) ->
  PIL.is_empty region = true.
Proof.
  intros Hcrop Hsmall.
  destruct (crop_at_box full m) as (region' & Hcrop' & Hsize).
  assert (region' = region) as -> by congruence.
  unfold PIL.is_empty. rewrite Hsize. cbn [fst snd].
  apply orb_true_iff. destruct Hsmall; [left|right]; apply Z.leb_le; lia.
Qed.

End CaptureRuns.

(** ** Probing the locator candidates *)

Section Capture.
Context {W : Type} (cfg : Config) (env : Browser W).

Lemma find_among_none (selectors : list string) (st : State W) (w1 : W) :
  none_visible env selectors (world st) = Some w1 ->
  find_among env selectors st
  = (Ok None,
     {| world := w1; files := files st; dirs := dirs st; session := session st;
        log := log st ++ probe_events selectors |}).
Proof.
  revert st. induction selectors as [|sel rest IH]; intros st Hnone.
  - cbn in Hnone. injection Hnone as <-. cbn. unfold ret.
    rewrite app_nil_r. destruct st; reflexivity.
  - cbn [none_visible] in Hnone. cbn [find_among].
    destruct (wait_for_visible env (LocatorFirst sel) 2000 (world st))
      as [[[]|e] w'] eqn:Hprobe; [discriminate|].
    monad_unfold. rewrite Hprobe. cbn [world files dirs session log].
    rewrite IH by exact Hnone.
    cbn [world files dirs session log probe_events map]. log_assoc. reflexivity.
Qed.

Lemma find_among_first (pre : list string) (sel : string) (post : list string)
      (st : State W) (w1 w2 : W) :
  none_visible env pre (world st) = Some w1 ->
  wait_for_visible env (LocatorFirst sel) 2000 w1 = (Ok tt, w2) ->
  find_among env (pre ++ sel :: post) st
  = (Ok (Some (LocatorFirst sel)),
     {| world := w2; files := files st; dirs := dirs st; session := session st;
        log := log st ++ probe_events (pre ++ [sel]) |}).
Proof.
  revert st. induction pre as [|p pre IH]; intros st Hnone Hhit.
  - cbn in Hnone. injection Hnone as <-.
    cbn [app find_among]. monad_unfold. rewrite Hhit. reflexivity.
  - cbn [none_visible] in Hnone. cbn [app find_among].
    destruct (wait_for_visible env (LocatorFirst p) 2000 (world st))
      as [[[]|e] w'] eqn:Hprobe; [discriminate|].
    monad_unfold. rewrite Hprobe. cbn [world files dirs session log].
    rewrite IH; [|exact Hnone|exact Hhit].
    cbn [world files dirs session log probe_events map app]. log_assoc. reflexivity.
Qed.

(** The search itself never raises, whatever the probes answer. *)
Lemma find_among_total (selectors : list string) (st : State W) :
  exists found st', find_among env selectors st = (Ok found, st').
Proof.
  revert st. induction selectors as [|sel rest IH]; intros st.
  - cbn. unfold ret. eauto.
  - cbn [find_among]. monad_unfold.
    destruct (wait_for_visible env (LocatorFirst sel) 2000 (world st))
      as [[[]|e] w']; cbn [world files dirs session log]; eauto.
Qed.

Lemma any_margin_false (m : Margins) :
  any_margin m = false <-> left m = 0 /\ right m = 0 /\ top m = 0 /\ bottom m = 0.
Proof.
  unfold any_margin, Py.truthy.
  rewrite !orb_false_iff, !negb_false_iff, !Z.eqb_eq. tauto.
Qed.

(** C3, as amended. With element capture enabled, when every candidate in
    turn fails to become visible, the search returns no locator without
    raising and the capture goes on with the full page.  Provided the
    full-page screenshot succeeds and is wider and higher than the clamped
    margins take away, the capture returns normally with the named file
    written.  With some margin different from zero the steps are: capture
    to the intermediate file, read it back, crop to the box (left, top,
    width - right, height - bottom) of the clamped margins, save under the
    given name, and the named file holds that crop, of size (width - left -
    right, height - top - bottom).  With four zero margins the capture file
    is renamed and the named file holds the capture itself. *)
Theorem no_visible_candidate_falls_back
        (path : string) (st : State W) (w1 w2 : W) (full : PIL.Image)
        (width height : Z) :
  USE_ELEMENT_CAPTURE cfg = true ->
  none_visible env (CANVAS_SELECTORS cfg) (world st) = Some w1 ->
  page_screenshot env w1 = (Ok full, w2) ->
  PIL.size full = (width, height) ->
  Z.max 0 (left (CROP_MARGINS cfg)) + Z.max 0 (right (CROP_MARGINS cfg)) < width ->
  Z.max 0 (top (CROP_MARGINS cfg)) + Z.max 0 (bottom (CROP_MARGINS cfg)) < height ->
  let m := CROP_MARGINS cfg in
  let x0 := Z.max 0 (left m) in
  let y0 := Z.max 0 (top m) in
  let x1 := width - Z.max 0 (right m) in
  let y1 := height - Z.max 0 (bottom m) in
  let tmp := Pathlib.with_suffix path ".full.png" in
  let probes := probe_events (CANVAS_SELECTORS cfg) in
  find_report_canvas cfg env st
  = (Ok None,
     {| world := w1; files := files st; dirs := dirs st; session := session st;
        log := log st ++ probes |}) /\
  exists st' saved,
    screenshot_clean cfg env path st = (Ok tt, st') /\
    files st' !! path = Some (FImage saved) /\
    (left m = 0 /\ right m = 0 /\ top m = 0 /\ bottom m = 0 ->
     saved = full /\
     log st' = log st ++ probes ++ [EvPageScreenshot tmp; EvRename tmp path]) /\
    (left m <> 0 \/ right m <> 0 \/ top m <> 0 \/ bottom m <> 0 ->
     (exists region,
         PIL.crop full (x0, y0, x1, y1) = Ok region /\
         saved = PIL.saved_png region) /\
     PIL.size saved = (x1 - x0, y1 - y0) /\
     log st' = log st ++ probes ++ [EvPageScreenshot tmp; EvImageOpen tmp;
                                    EvCrop (x0, y0, x1, y1); EvImageSave path]).
Proof.
  intros Hmode Hnone Hshot Hsize Hx Hy m x0 y0 x1 y1 tmp probes.
  set (probed := {| world := w1; files := files st; dirs := dirs st;
                    session := session st; log := log st ++ probes |}).
  assert (Hfind : find_report_canvas cfg env st = (Ok None, probed))
    by (apply find_among_none; exact Hnone).
  assert (Hclean : screenshot_clean cfg env path st
                   = full_page_then_crop cfg env path probed).
  { unfold screenshot_clean. rewrite Hmode. unfold bind at 1. rewrite Hfind. reflexivity. }
  split; [exact Hfind|]. rewrite Hclean.
  destruct (any_margin (CROP_MARGINS cfg)) eqn:Hany.
  - destruct (full_page_then_crop_cropping cfg env path probed full w2 Hshot Hany)
      as (region & Hcrop & Hrun).
    destruct (crop_at_box full (CROP_MARGINS cfg)) as (region' & Hcrop' & Hreg).
    assert (region' = region) as -> by congruence.
    rewrite (crop_not_empty full region _ Hcrop) in Hrun
      by (rewrite Hsize; cbn [fst snd]; lia).
    assert (Hbox : crop_box (CROP_MARGINS cfg) (PIL.size full) = (x0, y0, x1, y1)).
    { rewrite Hsize, crop_box_eq. subst m x0 y0 x1 y1.
      repeat f_equal; lia. }
    rewrite Hbox in Hrun, Hcrop.
    rewrite Hrun. eexists _, _. split; [reflexivity|].
    cbn [files log]. rewrite lookup_insert_eq. split; [reflexivity|]. split.
    + intros Hzero. apply (any_margin_false (CROP_MARGINS cfg)) in Hzero.
      rewrite Hzero in Hany. discriminate Hany.
    + intros _. split; [exists region; split; [exact Hcrop|reflexivity]|].
      split; [|subst probed; cbn [log]; log_assoc; reflexivity].
      cbn [PIL.saved_png PIL.size]. rewrite Hreg, Hsize. cbn [fst snd].
      subst m x0 y0 x1 y1. f_equal; lia.
  - rewrite (full_page_then_crop_renaming cfg env path probed full w2 Hshot Hany).
    eexists _, _. split; [reflexivity|].
    cbn [files log]. rewrite lookup_insert_eq. split; [reflexivity|]. split.
    + intros _. split; [reflexivity|]. subst probed. cbn [log]. log_assoc. reflexivity.
    + apply any_margin_false in Hany. subst m. intros Hsome. exfalso. tauto.
Qed.

(** C8. With element capture enabled, if the candidates before [sel] fail in
    turn and [sel] then becomes visible, the search returns the locator of
    [sel]; the probes made are exactly those of the candidates up to [sel],
    in their declared order and with a 2000 ms timeout each, so nothing after
    [sel] is tried; and the capture is the screenshot of that locator,
    written to the named file. *)
Theorem first_visible_candidate_wins
        (path : string) (st : State W)
        (pre : list string) (sel : string) (post : list string) (w1 w2 : W) :
  USE_ELEMENT_CAPTURE cfg = true ->
  CANVAS_SELECTORS cfg = (pre ++ sel :: post)%list ->
  none_visible env pre (world st) = Some w1 ->
  wait_for_visible env (LocatorFirst sel) 2000 w1 = (Ok tt, w2) ->
  let probed :=
    {| world := w2; files := files st; dirs := dirs st; session := session st;
       log := log st ++ probe_events (pre ++ [sel]) |} in
  find_report_canvas cfg env st = (Ok (Some (LocatorFirst sel)), probed) /\
  screenshot_clean cfg env path st
  = pw_locator_screenshot env (LocatorFirst sel) path probed /\
  forall shot w3,
    locator_screenshot env (LocatorFirst sel) w2 = (Ok shot, w3) ->
    screenshot_clean cfg env path st
    = (Ok tt,
       {| world := w3; files := <[path := FImage shot]> (files st);
          dirs := dirs st; session := session st;
          log := (log st ++ probe_events (pre ++ [sel])
                         ++ [EvLocatorScreenshot (LocatorFirst sel) path])%list |}).
Proof.
  intros Hmode Hsels Hnone Hhit probed.
  assert (Hfind : find_report_canvas cfg env st = (Ok (Some (LocatorFirst sel)), probed)).
  { unfold find_report_canvas. rewrite Hsels.
    apply (find_among_first pre sel post st w1 w2 Hnone Hhit). }
  assert (Hclean : screenshot_clean cfg env path st
                   = pw_locator_screenshot env (LocatorFirst sel) path probed).
  { unfold screenshot_clean. rewrite Hmode. unfold bind at 1. rewrite Hfind. reflexivity. }
  split; [exact Hfind|]. split; [exact Hclean|].
  intros shot w3 Hshot. rewrite Hclean.
  subst probed. monad_unfold. rewrite Hshot.
  cbn [world files dirs session log]. log_assoc. reflexivity.
Qed.

(** C7. When the four margins are zero, the fallback crops nothing: after
    the full-page capture its only further step is to rename the capture
    file to the named output, so no crop and no re-encoding takes place and
    the named file holds the capture itself. *)
Theorem zero_margins_keep_full_capture
        (path : string) (st : State W) (full : PIL.Image) (w1 : W) :
  CROP_MARGINS cfg = {| left := 0; right := 0; top := 0; bottom := 0 |} ->
  page_screenshot env (world st) = (Ok full, w1) ->
  exists st',
    full_page_then_crop cfg env path st = (Ok tt, st') /\
    files st' !! path = Some (FImage full) /\
    log st' = log st ++ [EvPageScreenshot (Pathlib.with_suffix path ".full.png");
                         EvRename (Pathlib.with_suffix path ".full.png") path].
Proof.
  intros Hzero Hshot.
  assert (Hany : any_margin (CROP_MARGINS cfg) = false) by (rewrite Hzero; reflexivity).
  rewrite (full_page_then_crop_renaming cfg env path st full w1 Hshot Hany).
  eexists. split; [reflexivity|]. cbn [files log].
  rewrite lookup_insert_eq. split; reflexivity.
Qed.

(** C6, as amended. A 1920 x 1200 full-page capture cropped with the margins
    left 140, right 0, top 0, bottom 145 is saved with size 1780 x 1055.  In
    general, for margins that are not negative and whose opposite pairs
    together do not exceed the width and the height, the crop has size
    (width - left - right, height - top - bottom); and when the pairs stay
    below the width and the height, so that the crop has pixels, the
    fallback saves it under the given name. *)
Theorem fallback_output_size
        (path : string) (st : State W) (full : PIL.Image) (w1 : W) (w h : Z) :
  page_screenshot env (world st) = (Ok full, w1) ->
  PIL.size full = (w, h) ->
  0 <= left (CROP_MARGINS cfg) ->
  0 <= right (CROP_MARGINS cfg) ->
  0 <= top (CROP_MARGINS cfg) ->
  0 <= bottom (CROP_MARGINS cfg) ->
  left (CROP_MARGINS cfg) + right (CROP_MARGINS cfg) <= w ->
  top (CROP_MARGINS cfg) + bottom (CROP_MARGINS cfg) <= h ->
  (exists region,
     PIL.crop full (crop_box (CROP_MARGINS cfg) (PIL.size full)) = Ok region /\
     PIL.size region = (w - left (CROP_MARGINS cfg) - right (CROP_MARGINS cfg),
                        h - top (CROP_MARGINS cfg) - bottom (CROP_MARGINS cfg))) /\
  (left (CROP_MARGINS cfg) + right (CROP_MARGINS cfg) < w ->
   top (CROP_MARGINS cfg) + bottom (CROP_MARGINS cfg) < h ->
   exists st' saved,
     full_page_then_crop cfg env path st = (Ok tt, st') /\
     files st' !! path = Some (FImage saved) /\
     PIL.size saved = (w - left (CROP_MARGINS cfg) - right (CROP_MARGINS cfg),
                       h - top (CROP_MARGINS cfg) - bottom (CROP_MARGINS cfg))) /\
  (CROP_MARGINS cfg = {| left := 140; right := 0; top := 0; bottom := 145 |} ->
   (w, h) = (1920, 1200) ->
   exists st' saved,
     full_page_then_crop cfg env path st = (Ok tt, st') /\
     files st' !! path = Some (FImage saved) /\
     PIL.size saved = (1780, 1055)).
Proof.
  intros Hshot Hsize Hl Hr Ht Hb Hw Hh.
  destruct (crop_at_box full (CROP_MARGINS cfg)) as (region & Hcrop & Hreg).
  assert (Hregion : PIL.size region
                    = (w - left (CROP_MARGINS cfg) - right (CROP_MARGINS cfg),
                       h - top (CROP_MARGINS cfg) - bottom (CROP_MARGINS cfg))).
  { rewrite Hreg, Hsize. cbn [fst snd]. f_equal; lia. }
  assert (Hgen : left (CROP_MARGINS cfg) + right (CROP_MARGINS cfg) < w ->
                 top (CROP_MARGINS cfg) + bottom (CROP_MARGINS cfg) < h ->
     exists st' saved,
     full_page_then_crop cfg env path st = (Ok tt, st') /\
     files st' !! path = Some (FImage saved) /\
     PIL.size saved = (w - left (CROP_MARGINS cfg) - right (CROP_MARGINS cfg),
                       h - top (CROP_MARGINS cfg) - bottom (CROP_MARGINS cfg))).
  { intros Hw' Hh'. destruct (any_margin (CROP_MARGINS cfg)) eqn:Hany.
    - destruct (full_page_then_crop_cropping cfg env path st full w1 Hshot Hany)
        as (region' & Hcrop' & Hrun).
      assert (region' = region) as -> by congruence.
      rewrite (crop_not_empty full region _ Hcrop) in Hrun
        by (rewrite Hsize; cbn [fst snd]; lia).
      rewrite Hrun. eexists _, _. split; [reflexivity|].
      cbn [files]. rewrite lookup_insert_eq. split; [reflexivity|].
      exact Hregion.
    - rewrite (full_page_then_crop_renaming cfg env path st full w1 Hshot Hany).
      eexists _, _. split; [reflexivity|].
      cbn [files]. rewrite lookup_insert_eq. split; [reflexivity|].
      rewrite Hsize. apply any_margin_false in Hany.
      f_equal; lia. }
  split; [exists region; split; [exact Hcrop|exact Hregion]|].
  split; [exact Hgen|].
  intros Hm Hwh. injection Hwh as -> ->.
  destruct Hgen as (st' & saved & Hrun & Hfile & Hsz).
  - rewrite Hm. cbn [left right]. lia.
  - rewrite Hm. cbn [top bottom]. lia.
  - exists st', saved. rewrite Hm in Hsz. cbn in Hsz.
    repeat split; assumption.
Qed.

End Capture.

(** ** Assembling the document *)

Section Assembly.
Context {W : Type}.

Lemma merge_pages_ok (images : list string) :
  forall (c c' : Reportlab.Canvas) (st st' : State W),
    Reportlab.code c = [] ->
    merge_pages images c st = (Ok c', st') ->
    world st' = world st /\ files st' = files st /\ dirs st' = dirs st /\
    session st' = session st /\
    log st' = log st ++ map EvImageOpen images /\
    Reportlab.filename c' = Reportlab.filename c /\
    Reportlab.code c' = [] /\
    exists ims,
      Forall2 (fun p im => files st !! p = Some (FImage im)) images ims /\
      Reportlab.pages c' = Reportlab.pages c ++ map page_for ims.
Proof.
  induction images as [|p rest IH]; intros c c' st st' Hcode Hrun.
  - cbn in Hrun. unfold ret in Hrun. injection Hrun as <- <-.
    rewrite app_nil_r. repeat split; try assumption.
    exists []. split; [constructor|]. cbn. now rewrite app_nil_r.
  - cbn [merge_pages] in Hrun. revert Hrun. monad_unfold.
    destruct (files st !! p) as [[im|doc|]|] eqn:Hfile; try discriminate.
    intros Hrun. apply IH in Hrun; [|reflexivity].
    cbn [world files dirs session log] in Hrun.
    destruct Hrun as (Hw & Hf & Hd & Hs & Hl & Hname & Hc & ims & Hall & Hpages).
    repeat split; try assumption.
    + rewrite Hl. cbn [map]. log_assoc. reflexivity.
    + exists (im :: ims). split; [constructor; assumption|].
      rewrite Hpages. cbn [Reportlab.showPage Reportlab.drawImage Reportlab.setPageSize
                             Reportlab.pages Reportlab.code Reportlab.cur_pagesize map].
      rewrite Hcode. log_assoc. reflexivity.
Qed.

Lemma merge_pngs_to_pdf_ok (images : list string) (out : string) (st st' : State W) :
  merge_pngs_to_pdf images out st = (Ok tt, st') ->
  exists ims,
    Forall2 (fun p im => files st !! p = Some (FImage im)) images ims /\
    files st' = <[out := FPdf (map page_for ims)]> (files st) /\
    dirs st' = dirs st /\ session st' = session st /\ world st' = world st /\
    log st' = log st ++ map EvImageOpen images ++ [EvPdfSave out].
Proof.
  unfold merge_pngs_to_pdf. unfold bind at 1.
  destruct (merge_pages images (Reportlab.new_canvas out) st) as [[c|e] st1] eqn:Hloop;
    [|discriminate].
  apply merge_pages_ok in Hloop; [|reflexivity].
  destruct Hloop as (Hw & Hf & Hd & Hs & Hl & Hname & Hc & ims & Hall & Hpages).
  monad_unfold.
  match goal with
  | |- context [can_create ?s ?q] => destruct (can_create s q)
  end; [|discriminate].
  intros Hrun. injection Hrun as <-.
  exists ims. cbn [world files dirs session log].
  unfold Reportlab.saved_pages. rewrite Hc, Hpages, Hname, Hf, Hl.
  cbn [Reportlab.new_canvas Reportlab.pages Reportlab.filename app].
  repeat split; try assumption. log_assoc. reflexivity.
Qed.

(** C2. In the document [merge_pngs_to_pdf] writes, page [k] belongs to
    image [k] of the list and its size in points is the pixel width and
    height times 72 / DPI, in double-precision arithmetic: DPI is the
    horizontal density the image carries when it carries one that is not
    zero, and 96 when it carries none or a zero one.  For an image carrying
    96, the page is (W x 0.75, H x 0.75). *)
Theorem page_size_from_pixels_and_dpi
        (images : list string) (out : string) (st st' : State W) :
  merge_pngs_to_pdf images out st = (Ok tt, st') ->
  exists doc,
    files st' !! out = Some (FPdf doc) /\
    forall k p, images !! k = Some p ->
      exists im page,
        files st !! p = Some (FImage im) /\
        doc !! k = Some page /\
        let width := Py.float_of_int (fst (PIL.size im)) in
        let height := Py.float_of_int (snd (PIL.size im)) in
        (forall x y, PIL.info_dpi im = Some (x, y) -> PrimFloat.eqb x 0 = false ->
           Reportlab.pagesize page = (width * (72 / x), height * (72 / x))%float) /\
        (forall x y, PIL.info_dpi im = Some (x, y) -> PrimFloat.eqb x 0 = true ->
           Reportlab.pagesize page = (width * (72 / 96), height * (72 / 96))%float) /\
        (PIL.info_dpi im = None ->
           Reportlab.pagesize page = (width * (72 / 96), height * (72 / 96))%float) /\
        (forall y, PIL.info_dpi im = Some (96%float, y) ->
           Reportlab.pagesize page = (width * 0.75, height * 0.75)%float).
Proof.
  intros Hrun. apply merge_pngs_to_pdf_ok in Hrun.
  destruct Hrun as (ims & Hall & Hfiles & _).
  exists (map page_for ims). split; [rewrite Hfiles; apply lookup_insert_eq|].
  intros k p Hk.
  destruct (Forall2_lookup_l _ _ _ _ _ Hall Hk) as (im & Him & Hfile).
  exists im, (page_for im). split; [exact Hfile|].
  split; [rewrite list_lookup_fmap, Him; reflexivity|].
  cbn [page_for Reportlab.pagesize]. unfold page_w, page_h, px_to_pt, img_dpi, Py.truthy_float.
  repeat split.
  - intros x y -> Hx. rewrite Hx. reflexivity.
  - intros x y -> Hx. rewrite Hx. reflexivity.
  - intros ->. reflexivity.
  - intros y ->. reflexivity.
Qed.

End Assembly.

(** ** File names: the ordinal can be read back from the path *)

Lemma append_cons (c : ascii) (s t : string) :
  (String c s ++ t)%string = String c (s ++ t)%string.
Proof. reflexivity. Qed.

Lemma append_nil (t : string) : (EmptyString ++ t)%string = t.
Proof. reflexivity. Qed.

Ltac push_append := repeat (rewrite append_cons || rewrite append_nil).

Ltac push_append_in H := repeat (rewrite append_cons in H || rewrite append_nil in H).

Lemma append_length (s t : string) :
  String.length (s ++ t)%string = (String.length s + String.length t)%nat.
Proof. induction s as [|c s IH]; [reflexivity|]. push_append. cbn. now rewrite IH. Qed.

Lemma append_inv_tail (x y z : string) : (x ++ z)%string = (y ++ z)%string -> x = y.
Proof.
  revert y. induction x as [|c x IH]; intros [|d y] H; push_append_in H.
  - reflexivity.
  - apply (f_equal String.length) in H. cbn in H. rewrite append_length in H. lia.
  - apply (f_equal String.length) in H. cbn in H. rewrite append_length in H. lia.
  - injection H as -> H. f_equal. now apply IH.
Qed.

Lemma append_inv_head (x y z : string) : (z ++ x)%string = (z ++ y)%string -> x = y.
Proof. induction z as [|c z IH]; push_append; intros H; [exact H|]. injection H as H. auto. Qed.

Lemma append_assoc (x y z : string) : ((x ++ y) ++ z)%string = (x ++ y ++ z)%string.
Proof. induction x as [|c x IH]; push_append; [reflexivity|]. now rewrite IH. Qed.

Lemma zeros_string_of_uint (k : nat) (d : Decimal.uint) :
  (Py.zeros k ++ NilEmpty.string_of_uint d)%string
  = NilEmpty.string_of_uint (Nat.iter k Decimal.D0 d).
Proof.
  induction k as [|k IH]; [reflexivity|].
  change (Nat.iter (S k) Decimal.D0 d) with (Decimal.D0 (Nat.iter k Decimal.D0 d)).
  cbn [Py.zeros NilEmpty.string_of_uint]. push_append. f_equal. exact IH.
Qed.

Lemma of_uint_leading_zeros (k n : nat) :
  Nat.of_uint (Nat.iter k Decimal.D0 (Nat.to_uint n)) = n.
Proof.
  rewrite <- DecimalNat.Unsigned.of_uint_norm, DecimalFacts.unorm_iter_D0.
  rewrite DecimalNat.Unsigned.of_uint_norm. apply DecimalNat.Unsigned.of_to.
Qed.

Lemma digits_before_underscore (d d' : Decimal.uint) (x y : string) :
  (NilEmpty.string_of_uint d ++ "_" ++ x)%string
  = (NilEmpty.string_of_uint d' ++ "_" ++ y)%string ->
  d = d'.
Proof.
  revert d'. induction d; destruct d'; cbn [NilEmpty.string_of_uint];
    push_append; intros H; try discriminate; try reflexivity;
    injection H as H; f_equal; apply IHd; exact H.
Qed.

Lemma format_0d_inj (width i j : nat) (x y : string) :
  (Py.format_0d width i ++ "_" ++ x)%string
  = (Py.format_0d width j ++ "_" ++ y)%string ->
  i = j.
Proof.
  unfold Py.format_0d, Py.str_of_nat. rewrite !zeros_string_of_uint.
  intros H. apply digits_before_underscore in H.
  apply (f_equal Nat.of_uint) in H.
  now rewrite !of_uint_leading_zeros in H.
Qed.

Lemma append_empty_r (s : string) : (s ++ EmptyString)%string = s.
Proof. induction s as [|c s IH]; push_append; [reflexivity|]. now rewrite IH. Qed.

Lemma no_slash_cons (c : ascii) (s : string) :
  no_slash (String c s) = negb (Ascii.eqb c "/") && no_slash s.
Proof. reflexivity. Qed.

Lemma no_slash_app (a b : string) :
  no_slash (a ++ b)%string = no_slash a && no_slash b.
Proof.
  induction a as [|c a IH]; push_append; [reflexivity|].
  rewrite !no_slash_cons, IH. apply andb_assoc.
Qed.

Lemma no_slash_digits (d : Decimal.uint) :
  no_slash (NilEmpty.string_of_uint d) = true.
Proof.
  induction d; cbn [NilEmpty.string_of_uint]; [reflexivity|..];
    rewrite no_slash_cons; exact IHd.
Qed.

Lemma no_slash_format_0d (width n : nat) : no_slash (Py.format_0d width n) = true.
Proof.
  unfold Py.format_0d, Py.str_of_nat. rewrite zeros_string_of_uint.
  apply no_slash_digits.
Qed.

Lemma split_slash_nonempty (s : string) : Pathlib.split_slash s <> [].
Proof.
  destruct s as [|c s]; cbn [Pathlib.split_slash]; [discriminate|].
  destruct (Ascii.eqb c "/"); [discriminate|].
  destruct (Pathlib.split_slash s); discriminate.
Qed.

(** A first piece without separators stays in front of what follows it. *)
Lemma split_slash_head (a b : string) :
  no_slash a = true ->
  exists p ps, Pathlib.split_slash b = p :: ps /\
               Pathlib.split_slash (a ++ b) = (a ++ p)%string :: ps.
Proof.
  induction a as [|c a IH]; push_append.
  - intros _. destruct (Pathlib.split_slash b) as [|p ps] eqn:Hb.
    + now apply split_slash_nonempty in Hb.
    + exists p, ps. split; reflexivity.
  - rewrite no_slash_cons. intros H. apply andb_true_iff in H as [Hc Ha].
    destruct (IH Ha) as (p & ps & Hb & Hab). exists p, ps. split; [exact Hb|].
    cbn [Pathlib.split_slash]. apply negb_true_iff in Hc. rewrite Hc, Hab.
    push_append. reflexivity.
Qed.

Lemma split_slash_plain (s : string) :
  no_slash s = true -> Pathlib.split_slash s = [s].
Proof.
  intros Hs. destruct (split_slash_head s EmptyString Hs) as (p & ps & Hb & Hab).
  cbn [Pathlib.split_slash] in Hb. injection Hb as <- <-.
  now rewrite !append_empty_r in Hab.
Qed.

Lemma concat_head (p : string) (ps : list string) :
  exists rest, String.concat "/" (p :: ps) = (p ++ rest)%string.
Proof.
  destruct ps as [|q ps]; cbn [String.concat].
  - exists EmptyString. now rewrite append_empty_r.
  - eexists. reflexivity.
Qed.

Lemma file_name_split (i : nat) (sec : string) :
  ("tab_" ++ Py.format_0d 2 i ++ "_" ++ sec ++ ".png")%string
  = (("tab_" ++ Py.format_0d 2 i ++ "_") ++ sec ++ ".png")%string.
Proof. push_append. now rewrite append_assoc. Qed.

Lemma file_name_head_no_slash (i : nat) :
  no_slash ("tab_" ++ Py.format_0d 2 i ++ "_")%string = true.
Proof. now rewrite !no_slash_app, no_slash_format_0d. Qed.

(** Whatever the identifier, the path of a capture starts with the output
    directory and the ordinal. *)
Lemma img_path_of_shape (i : nat) (sec : string) :
  exists rest,
    img_path_of i sec
    = ("powerbi_tab_exports/tab_" ++ Py.format_0d 2 i ++ "_" ++ rest)%string.
Proof.
  unfold img_path_of, Pathlib.joinpath, Pathlib.parts. rewrite file_name_split.
  destruct (split_slash_head _ (sec ++ ".png") (file_name_head_no_slash i))
    as (p & ps & _ & ->).
  assert (Hkept : Pathlib.kept (("tab_" ++ Py.format_0d 2 i ++ "_") ++ p) = true)
    by (push_append; reflexivity).
  cbn [List.filter]. rewrite Hkept.
  destruct (concat_head (("tab_" ++ Py.format_0d 2 i ++ "_") ++ p)
                        (List.filter Pathlib.kept ps)) as (rest & Hrest).
  exists (p ++ rest)%string.
  change (String.concat "/" (OUTPUT_DIR :: ?x :: ?l))
    with (OUTPUT_DIR ++ "/" ++ String.concat "/" (x :: l))%string.
  rewrite Hrest. unfold OUTPUT_DIR. push_append. now rewrite !append_assoc.
Qed.

(** For an identifier without separators the path is the plain
    concatenation. *)
Lemma img_path_of_plain (i : nat) (sec : string) :
  no_slash sec = true ->
  img_path_of i sec
  = (OUTPUT_DIR ++ "/" ++ "tab_" ++ Py.format_0d 2 i ++ "_" ++ sec ++ ".png")%string.
Proof.
  intros Hsec. unfold img_path_of, Pathlib.joinpath, Pathlib.parts.
  rewrite split_slash_plain.
  - assert (Hkept : Pathlib.kept ("tab_" ++ Py.format_0d 2 i ++ "_" ++ sec ++ ".png")
                    = true) by (push_append; reflexivity).
    cbn [List.filter]. rewrite Hkept. reflexivity.
  - now rewrite !no_slash_app, no_slash_format_0d, Hsec.
Qed.

Lemma img_path_of_ordinal (i j : nat) (s t : string) :
  img_path_of i s = img_path_of j t -> i = j.
Proof.
  destruct (img_path_of_shape i s) as (x & ->).
  destruct (img_path_of_shape j t) as (y & ->). push_append.
  intros H. injection H as H. exact (format_0d_inj 2 i j _ _ H).
Qed.

Lemma img_paths_NoDup (secs : list string) :
  NoDup (imap (fun k sec => img_path_of (S k) sec) secs).
Proof.
  apply NoDup_alt. intros a b p Ha Hb.
  rewrite list_lookup_imap in Ha, Hb.
  destruct (secs !! a) as [sa|]; [|discriminate].
  destruct (secs !! b) as [sb|]; [|discriminate].
  change (Some (img_path_of (S a) sa) = Some p) in Ha.
  change (Some (img_path_of (S b) sb) = Some p) in Hb.
  assert (Heq : img_path_of (S a) sa = img_path_of (S b) sb) by congruence.
  apply img_path_of_ordinal in Heq. lia.
Qed.

Lemma output_pdf_is_no_shot (cfg : Config) (i : nat) (sec : string) :
  OUTPUT_PDF cfg <> img_path_of i sec.
Proof.
  destruct (img_path_of_shape i sec) as (x & ->).
  unfold OUTPUT_PDF. push_append. discriminate.
Qed.

(** ** What every action leaves alone *)

Section Keeps.
Context {W : Type} (cfg : Config) (env : Browser W).
Variable P : Event -> bool.
Hypothesis P_quiet : forall e, is_input e = false -> P e = true.

Lemma continues_same (st st' : State W) :
  dirs st' = dirs st -> log st' = log st -> continues P st st'.
Proof. intros Hd Hl. split; [exact Hd|]. exists []. now rewrite app_nil_r. Qed.

Lemma continues_refl (st : State W) : continues P st st.
Proof. now apply continues_same. Qed.

Lemma continues_trans (st1 st2 st3 : State W) :
  continues P st1 st2 -> continues P st2 st3 -> continues P st1 st3.
Proof.
  intros [Hd1 (d1 & Hl1 & Hp1)] [Hd2 (d2 & Hl2 & Hp2)].
  split; [congruence|]. exists (d1 ++ d2). split.
  - rewrite Hl2, Hl1. now rewrite app_assoc.
  - rewrite forallb_app, Hp1, Hp2. reflexivity.
Qed.

Lemma keeps_ret {A} (a : A) : keeps P (ret a : M W A).
Proof. intros st. now apply continues_same. Qed.

Lemma keeps_raise {A} (e : Exception) : keeps P (raise e : M W A).
Proof. intros st. now apply continues_same. Qed.

Lemma keeps_bind {A B} (m : M W A) (k : A -> M W B) :
  keeps P m -> (forall a, keeps P (k a)) -> keeps P (bind m k).
Proof.
  intros Hm Hk st. unfold bind. specialize (Hm st).
  destruct (m st) as [[a|e] st1]; cbn [snd] in *; [|exact Hm].
  eapply continues_trans; [exact Hm|apply Hk].
Qed.

Lemma keeps_try_except {A} (m : M W A) (h : Exception -> M W A) :
  keeps P m -> (forall e, keeps P (h e)) -> keeps P (try_except m h).
Proof.
  intros Hm Hh st. unfold try_except. specialize (Hm st).
  destruct (m st) as [[a|e] st1]; cbn [snd] in *; [exact Hm|].
  eapply continues_trans; [exact Hm|apply Hh].
Qed.

Lemma keeps_emit (e : Event) : P e = true -> keeps P (emit e : M W unit).
Proof.
  intros He st. split; [reflexivity|]. exists [e]. split; [reflexivity|].
  cbn. now rewrite He.
Qed.

Lemma keeps_ask {A} (call : W -> Result A * W) : keeps P (ask call).
Proof.
  intros st. unfold ask. destruct (call (world st)) as [r w']. now apply continues_same.
Qed.

Lemma keeps_tell (call : W -> W) : keeps P (tell call).
Proof. intros st. now apply continues_same. Qed.

Lemma keeps_write_file (path : string) (f : File) : keeps P (write_file path f : M W unit).
Proof. intros st. now apply continues_same. Qed.

Lemma keeps_finally {A} (body : M W A) (e : Event) :
  P e = true -> keeps P body ->
  keeps P (finally body (fun st => snd (emit e st))).
Proof.
  intros He Hbody st. unfold finally. specialize (Hbody st).
  destruct (body st) as [r st1]. cbn [snd] in *.
  eapply continues_trans; [exact Hbody|]. apply (keeps_emit e He).
Qed.

Ltac keeps_auto :=
  repeat first
    [ apply keeps_bind; [|intros ?]
    | apply keeps_emit; apply P_quiet; reflexivity
    | apply keeps_ret | apply keeps_raise | apply keeps_ask
    | apply keeps_tell | apply keeps_write_file ].

Lemma keeps_print (text : string) : keeps P (print text : M W unit).
Proof. unfold print. keeps_auto. Qed.

Lemma keeps_rename (src dst : string) : keeps P (rename src dst : M W unit).
Proof.
  unfold rename. keeps_auto. intros st.
  destruct (files st !! src); [destruct (can_create st dst)|];
    now apply continues_same.
Qed.

Lemma keeps_image_open (path : string) : keeps P (image_open path : M W PIL.Image).
Proof.
  unfold image_open. keeps_auto. intros st.
  destruct (files st !! path) as [[im|doc|]|]; now apply continues_same.
Qed.

Lemma keeps_image_crop (im : PIL.Image) (box : PIL.Box) : keeps P (image_crop im box : M W _).
Proof. unfold image_crop. keeps_auto. intros st. now apply continues_same. Qed.

Lemma keeps_image_save (im : PIL.Image) (path : string) : keeps P (image_save im path : M W _).
Proof.
  unfold image_save. keeps_auto. intros st.
  destruct (can_create st path); [destruct (PIL.is_empty im)|];
    now apply continues_same.
Qed.

Lemma keeps_canvas_save (c : Reportlab.Canvas) : keeps P (canvas_save c : M W _).
Proof.
  intros st. unfold canvas_save.
  destruct (can_create st (Reportlab.filename c)); now apply continues_same.
Qed.

Lemma keeps_time_sleep (s : float) : keeps P (time_sleep env s).
Proof. unfold time_sleep. keeps_auto. Qed.

Lemma keeps_pw_launch dir viewport scale : keeps P (pw_launch env dir viewport scale).
Proof. unfold pw_launch. keeps_auto. intros st. now apply continues_same. Qed.

Lemma keeps_pw_new_page : keeps P (pw_new_page env).
Proof. unfold pw_new_page. keeps_auto. Qed.

Lemma keeps_page_goto (url : string) : keeps P (page_goto env url).
Proof. unfold page_goto. keeps_auto. Qed.

Lemma keeps_locator_wait_for loc timeout : keeps P (locator_wait_for env loc timeout).
Proof. unfold locator_wait_for. keeps_auto. Qed.

Lemma keeps_pw_locator_screenshot loc path : keeps P (pw_locator_screenshot env loc path).
Proof. unfold pw_locator_screenshot. keeps_auto. Qed.

Lemma keeps_pw_page_screenshot path : keeps P (pw_page_screenshot env path).
Proof. unfold pw_page_screenshot. keeps_auto. Qed.

Lemma keeps_browser_close : keeps P (browser_close env).
Proof. unfold browser_close. keeps_auto. intros st. now apply continues_same. Qed.

Lemma keeps_find_among (selectors : list string) : keeps P (find_among env selectors).
Proof.
  induction selectors as [|sel rest IH]; cbn [find_among]; [apply keeps_ret|].
  apply keeps_try_except; [|intros _; exact IH].
  apply keeps_bind; [apply keeps_locator_wait_for|intros _; apply keeps_ret].
Qed.

Lemma keeps_full_page_then_crop (path : string) : keeps P (full_page_then_crop cfg env path).
Proof.
  unfold full_page_then_crop.
  apply keeps_bind; [apply keeps_pw_page_screenshot|intros _].
  destruct (any_margin (CROP_MARGINS cfg)); [|apply keeps_rename].
  apply keeps_bind; [apply keeps_image_open|intros im].
  apply keeps_bind; [apply keeps_image_crop|intros region].
  apply keeps_image_save.
Qed.

Lemma keeps_screenshot_clean (path : string) : keeps P (screenshot_clean cfg env path).
Proof.
  unfold screenshot_clean.
  destruct (USE_ELEMENT_CAPTURE cfg); [|apply keeps_full_page_then_crop].
  apply keeps_bind; [apply keeps_find_among|intros [loc|]].
  - apply keeps_pw_locator_screenshot.
  - apply keeps_full_page_then_crop.
Qed.

Lemma keeps_capture_tabs (total : nat) (secs : list string) :
  forall i shots, keeps P (capture_tabs cfg env total i secs shots).
Proof.
  induction secs as [|sec rest IH]; intros i shots; cbn [capture_tabs]; [apply keeps_ret|].
  apply keeps_bind; [apply keeps_print|intros _].
  apply keeps_bind; [apply keeps_page_goto|intros _].
  apply keeps_bind.
  { unfold wait_fixed. apply keeps_bind; [|intros _]; apply keeps_time_sleep. }
  intros _.
  apply keeps_bind; [apply keeps_screenshot_clean|intros _].
  apply keeps_bind; [apply keeps_print|intros _].
  apply IH.
Qed.

Lemma keeps_merge_pages (images : list string) :
  forall c, keeps P (merge_pages images c : M W _).
Proof.
  induction images as [|p rest IH]; intros c; cbn [merge_pages]; [apply keeps_ret|].
  apply keeps_bind; [apply keeps_image_open|intros im]. apply IH.
Qed.

Lemma keeps_merge_pngs_to_pdf (images : list string) (out : string) :
  keeps P (merge_pngs_to_pdf images out : M W _).
Proof.
  unfold merge_pngs_to_pdf.
  apply keeps_bind; [apply keeps_merge_pages|intros c]. keeps_auto.
  apply keeps_canvas_save.
Qed.

Lemma keeps_export_or_cancel (answer : string) : keeps P (export_or_cancel cfg env answer).
Proof.
  unfold export_or_cancel.
  destruct (negb (Py.lower (Py.strip answer) =? "y")%string).
  - apply keeps_bind; [apply keeps_browser_close|intros _].
    apply keeps_bind; [apply keeps_print|intros _]. apply keeps_ret.
  - apply keeps_bind; [apply keeps_capture_tabs|intros shots].
    apply keeps_bind; [apply keeps_browser_close|intros _]. apply keeps_ret.
Qed.

End Keeps.

(** ** The shape of a whole run *)

Section Runs.
Context {W : Type} (cfg : Config) (env : Browser W).

Lemma keeps_py_input (P : Event -> bool) (prompt : string) :
  (forall answer, P (EvInput prompt answer) = true) ->
  keeps P (py_input env prompt).
Proof.
  intros HP st. unfold py_input.
  destruct (input env prompt (world st)) as [answer w1].
  monad_unfold. split; [reflexivity|].
  exists [EvInput prompt answer]. split; [reflexivity|]. cbn. now rewrite HP.
Qed.

Lemma quiet_not_input (l : list Event) (prompt answer : string) :
  forallb quiet l = true -> ~ In (EvInput prompt answer) l.
Proof.
  intros Hq Hin. rewrite forallb_forall in Hq. apply Hq in Hin. discriminate.
Qed.

(** Up to the prompt nothing is written, and the answer is the last thing logged. *)
Lemma sign_in_run (st : State W) :
  match sign_in cfg env st with
  | (Ok answer, st1) =>
      files st1 = files st /\ dirs st1 = dirs st /\
      exists pre, log st1 = log st ++ pre ++ [EvInput sign_in_prompt answer] /\
                  forallb quiet pre = true
  | (Raise _, st1) =>
      files st1 = files st /\ dirs st1 = dirs st /\
      exists pre, log st1 = log st ++ pre /\ forallb quiet pre = true
  end.
Proof.
  unfold sign_in, pw_launch, pw_new_page, first_section, py_input. monad_unfold.
  destruct (launch_persistent_context env _ _ _ (world st)) as [[[]|e] w1];
    cbn [world files dirs session log];
    [|repeat split; eexists; split; [reflexivity|reflexivity]].
  destruct (new_page env w1) as [[[]|e] w2]; cbn [world files dirs session log];
    [|repeat split; eexists; split; [log_assoc; reflexivity|reflexivity]].
  destruct (SECTIONS cfg) as [|sec0 rest]; cbn [world files dirs session log];
    [repeat split; eexists; split; [log_assoc; reflexivity|reflexivity]|].
  destruct (goto env (tab_url cfg sec0) w2) as [[[]|e] w3];
    cbn [world files dirs session log];
    [|repeat split; eexists; split; [log_assoc; reflexivity|reflexivity]].
  destruct (input env sign_in_prompt w3) as [answer w4].
  cbn [world files dirs session log].
  repeat split.
  eexists [_; _; _; _]. split; [log_assoc; reflexivity|reflexivity].
Qed.

Lemma export_or_cancel_declined (answer : string) (st : State W) :
  String.eqb (Py.lower (Py.strip answer)) "y" = false ->
  export_or_cancel cfg env answer st
  = (Ok None,
     {| world := close env (world st); files := files st; dirs := dirs st;
        session := Closed;
        log := log st ++ [EvBrowserClose; EvPrint "Cancelled."] |}).
Proof.
  intros Hno. unfold export_or_cancel. rewrite Hno. cbn [negb].
  unfold browser_close. monad_unfold. log_assoc. reflexivity.
Qed.

Lemma export_or_cancel_accepted (answer : string) (st : State W) :
  String.eqb (Py.lower (Py.strip answer)) "y" = true ->
  export_or_cancel cfg env answer st
  = match capture_tabs cfg env (length (SECTIONS cfg)) 1 (SECTIONS cfg) [] st with
    | (Ok shots, st1) =>
        (Ok (Some shots),
         {| world := close env (world st1); files := files st1; dirs := dirs st1;
            session := Closed; log := log st1 ++ [EvBrowserClose] |})
    | (Raise e, st1) => (Raise e, st1)
    end.
Proof.
  intros Hyes. unfold export_or_cancel. rewrite Hyes. cbn [negb].
  unfold bind at 1.
  destruct (capture_tabs cfg env _ 1 (SECTIONS cfg) [] st) as [[shots|e] st1];
    [|reflexivity].
  unfold browser_close. monad_unfold. reflexivity.
Qed.

Local Abbreviation stopped st := (snd (emit EvPlaywrightStop st)).

(** What follows the prompt: the confirmation test, the export, and after
    the browser session the assembly of the document. *)
Local Abbreviation after_prompt answer st3 :=
  (match export_or_cancel cfg env answer st3 with
   | (Raise e, st4) => (Raise e, stopped st4)
   | (Ok None, st4) => (Ok tt, stopped st4)
   | (Ok (Some shots), st4) =>
       (merge_pngs_to_pdf shots (OUTPUT_PDF cfg) ;;; print (done_message cfg env)) (stopped st4)
   end).

Lemma main_blocked (w : W) (fs : gmap string File) (ds : gset string) (f : File) :
  fs !! OUTPUT_DIR = Some f ->
  main cfg env (initial w fs ds)
  = (Raise FileExistsError,
     {| world := w; files := fs; dirs := ds; session := NotStarted;
        log := [EvMkdir OUTPUT_DIR] |}).
Proof.
  intros Hfile. unfold main, mkdir, initial. monad_unfold. rewrite Hfile. reflexivity.
Qed.

Lemma main_started (w : W) (fs : gmap string File) (ds : gset string) :
  fs !! OUTPUT_DIR = None ->
  main cfg env (initial w fs ds)
  = match sign_in cfg env
            {| world := w; files := fs; dirs := {[ OUTPUT_DIR ]} ∪ ds;
               session := NotStarted;
               log := [EvMkdir OUTPUT_DIR; EvPlaywrightStart] |} with
    | (Raise e, st3) => (Raise e, stopped st3)
    | (Ok answer, st3) => after_prompt answer st3
    end.
Proof.
  intros Hfile.
  unfold main, mkdir, with_sync_playwright, finally, browser_session, initial.
  monad_unfold. rewrite Hfile. cbn [world files dirs session log app].
  destruct (sign_in cfg env _) as [[answer|e] st3]; [|reflexivity].
  destruct (export_or_cancel cfg env answer st3) as [[[shots|]|e] st4]; reflexivity.
Qed.

Lemma after_prompt_continues (P : Event -> bool) (answer : string)
      (st3 st' : State W) (r : Result unit) :
  (forall e, is_input e = false -> P e = true) ->
  after_prompt answer st3 = (r, st') ->
  continues P st3 st'.
Proof.
  intros HP Hrun.
  pose proof (keeps_export_or_cancel cfg env P HP answer st3) as Hexp.
  destruct (export_or_cancel cfg env answer st3) as [[[shots|]|e] st4];
    cbn [snd] in Hexp.
  - assert (Hstop : continues P st3 (stopped st4)).
    { eapply continues_trans; [exact Hexp|].
      apply (keeps_emit P EvPlaywrightStop (HP EvPlaywrightStop eq_refl)). }
    eapply continues_trans; [exact Hstop|].
    assert (Hk : keeps P (merge_pngs_to_pdf shots (OUTPUT_PDF cfg) ;;;
                          print (done_message cfg env)
                          : M W unit)).
    { apply keeps_bind; [apply (keeps_merge_pngs_to_pdf P HP)|intros _].
      apply (keeps_print P HP). }
    specialize (Hk (stopped st4)). rewrite Hrun in Hk. exact Hk.
  - injection Hrun as <- <-. eapply continues_trans; [exact Hexp|].
    apply (keeps_emit P EvPlaywrightStop (HP EvPlaywrightStop eq_refl)).
  - injection Hrun as <- <-. eapply continues_trans; [exact Hexp|].
    apply (keeps_emit P EvPlaywrightStop (HP EvPlaywrightStop eq_refl)).
Qed.

Lemma quiet_confirms (l : list Event) :
  forallb quiet l = true -> forallb confirms l = true.
Proof.
  rewrite !forallb_forall. intros Hq e He. specialize (Hq e He).
  destruct e; try reflexivity; discriminate.
Qed.

Lemma confirms_quiet_events (e : Event) : is_input e = false -> confirms e = true.
Proof. destruct e; try reflexivity; discriminate. Qed.

Lemma bind_Ok {A B} (m : M W A) (k : A -> M W B) (st st' : State W) (b : B) :
  bind m k st = (Ok b, st') ->
  exists a st1, m st = (Ok a, st1) /\ k a st1 = (Ok b, st').
Proof.
  unfold bind. destruct (m st) as [[a|e] st1]; [|discriminate]. eauto.
Qed.

(** The loop returns the paths of the sections in order, ordinals counting up. *)
Lemma capture_tabs_shots (total : nat) (secs : list string) :
  forall i shots st out st',
    capture_tabs cfg env total i secs shots st = (Ok out, st') ->
    out = shots ++ imap (fun k sec => img_path_of (i + k) sec) secs.
Proof.
  induction secs as [|sec rest IH]; intros i shots st out st' Hrun.
  - cbn in Hrun. unfold ret in Hrun. injection Hrun as <- _. now rewrite app_nil_r.
  - cbn [capture_tabs] in Hrun.
    do 5 (apply bind_Ok in Hrun as (? & ? & _ & Hrun)).
    apply IH in Hrun. rewrite Hrun, <- app_assoc. cbn [app imap].
    rewrite Nat.add_0_r. do 2 f_equal.
    apply imap_ext. intros k s _. cbn. now rewrite Nat.add_succ_r.
Qed.

(** C5. In a run whose prompt was answered with anything that, stripped and
    lower-cased, is not "y", [main] returns normally with the browser
    session closed and every file as it was before the run: no image and no
    document is written.  The run ends right after the answer, with the
    closing of the browser and the message "Cancelled.". *)
Theorem declined_confirmation_produces_nothing
        (w : W) (fs : gmap string File) (ds : gset string)
        (r : Result unit) (st' : State W) (prompt resp : string) :
  main cfg env (initial w fs ds) = (r, st') ->
  In (EvInput prompt resp) (log st') ->
  Py.lower (Py.strip resp) <> "y"%string ->
  r = Ok tt /\
  session st' = Closed /\
  files st' = fs /\
  exists before,
    log st' = before ++ [EvInput prompt resp; EvBrowserClose;
                         EvPrint "Cancelled."; EvPlaywrightStop].
Proof.
  intros Hrun Hin Hno.
  destruct (fs !! OUTPUT_DIR) as [f|] eqn:Hdir.
  { rewrite (main_blocked w fs ds f Hdir) in Hrun. injection Hrun as <- <-.
    cbn in Hin. destruct Hin as [Hin|[]]. discriminate. }
  rewrite (main_started w fs ds Hdir) in Hrun.
  match type of Hrun with
  | context [sign_in cfg env ?st2] => pose proof (sign_in_run st2) as Hsign
  end.
  destruct (sign_in cfg env _) as [[answer|e] st3];
    destruct Hsign as (Hfiles & Hdirs & pre & Hlog & Hquiet);
    cbn [files dirs log] in Hfiles, Hdirs, Hlog.
  - destruct (String.eqb (Py.lower (Py.strip answer)) "y") eqn:Hanswer.
    + exfalso. apply (after_prompt_continues confirms) in Hrun;
        [|exact confirms_quiet_events].
      destruct Hrun as [_ (delta & Hlog' & Hdelta)].
      assert (Hall : forallb confirms (log st') = true).
      { rewrite Hlog', Hlog. rewrite !forallb_app, Hdelta, (quiet_confirms pre Hquiet).
        cbn. now rewrite Hanswer. }
      rewrite forallb_forall in Hall. apply Hall in Hin. cbn in Hin.
      apply String.eqb_eq in Hin. contradiction.
    + rewrite (export_or_cancel_declined answer st3 Hanswer) in Hrun.
      unfold emit in Hrun. cbn [snd world files dirs session log] in Hrun.
      injection Hrun as <- <-. cbn [files session log].
      assert (Hsame : EvInput prompt resp = EvInput sign_in_prompt answer).
      { cbn [log] in Hin. rewrite Hlog in Hin.
        repeat (apply in_app_or in Hin as [Hin|Hin]).
        - cbn in Hin. destruct Hin as [Hin|[Hin|[]]]; discriminate.
        - exfalso. exact (quiet_not_input pre prompt resp Hquiet Hin).
        - cbn in Hin. destruct Hin as [Hin|[]]. now symmetry.
        - cbn in Hin. destruct Hin as [Hin|[Hin|[]]]; discriminate.
        - cbn in Hin. destruct Hin as [Hin|[]]; discriminate. }
      rewrite Hsame. repeat split; [exact Hfiles|].
      exists ([EvMkdir OUTPUT_DIR; EvPlaywrightStart] ++ pre).
      rewrite Hlog. log_assoc. reflexivity.
  - exfalso. injection Hrun as _ <-.
    unfold emit in Hin. cbn [snd log] in Hin. rewrite Hlog in Hin.
    repeat (apply in_app_or in Hin as [Hin|Hin]).
    + cbn in Hin. destruct Hin as [Hin|[Hin|[]]]; discriminate.
    + exact (quiet_not_input pre prompt resp Hquiet Hin).
    + cbn in Hin. destruct Hin as [Hin|[]]; discriminate.
Qed.

(** C10. The first thing a run does is to create the output directory: the
    log of every run starts with it, so the launch of the browser and the
    prompt come later.  Unless a file stands in its place (then the run
    stops there), the directory exists when the run ends, however it ends;
    in particular whenever the prompt was reached, answered with Y or not. *)
Theorem output_dir_created_first
        (w : W) (fs : gmap string File) (ds : gset string)
        (r : Result unit) (st' : State W) :
  main cfg env (initial w fs ds) = (r, st') ->
  exists rest,
    log st' = EvMkdir OUTPUT_DIR :: rest /\
    (rest <> [] -> OUTPUT_DIR ∈ dirs st') /\
    (fs !! OUTPUT_DIR = None -> OUTPUT_DIR ∈ dirs st') /\
    (forall dir viewport scale,
        In (EvLaunch dir viewport scale) (log st') -> OUTPUT_DIR ∈ dirs st') /\
    (forall prompt answer,
        In (EvInput prompt answer) (log st') -> OUTPUT_DIR ∈ dirs st').
Proof.
  intros Hrun.
  assert (Hcore : exists rest,
             log st' = EvMkdir OUTPUT_DIR :: rest /\
             (rest <> [] \/ fs !! OUTPUT_DIR = None -> OUTPUT_DIR ∈ dirs st')).
  { destruct (fs !! OUTPUT_DIR) as [f|] eqn:Hdir.
    { rewrite (main_blocked w fs ds f Hdir) in Hrun. injection Hrun as <- <-.
      exists []. split; [reflexivity|]. intros [Hne|Hne]; [now destruct Hne|discriminate]. }
    rewrite (main_started w fs ds Hdir) in Hrun.
    match type of Hrun with
    | context [sign_in cfg env ?st2] => pose proof (sign_in_run st2) as Hsign
    end.
    destruct (sign_in cfg env _) as [[answer|e] st3];
      destruct Hsign as (_ & Hdirs & pre & Hlog & _);
      cbn [files dirs log] in Hdirs, Hlog.
    - apply (after_prompt_continues any_event) in Hrun; [|reflexivity].
      destruct Hrun as [Hdirs' (delta & Hlog' & _)].
      eexists. split; [rewrite Hlog', Hlog; log_assoc; reflexivity|].
      intros _. rewrite Hdirs', Hdirs. apply elem_of_union_l, elem_of_singleton. reflexivity.
    - injection Hrun as _ <-. unfold emit. cbn [snd dirs log].
      eexists. split; [rewrite Hlog; log_assoc; reflexivity|].
      intros _. rewrite Hdirs. apply elem_of_union_l, elem_of_singleton. reflexivity. }
  destruct Hcore as (rest & Hlog & Hdir).
  exists rest. split; [exact Hlog|].
  split; [intros Hne; apply Hdir; now left|].
  split; [intros Hnone; apply Hdir; now right|].
  split.
  - intros dir viewport scale Hin. apply Hdir. left.
    rewrite Hlog in Hin. destruct Hin as [Hin|Hin]; [discriminate|].
    intros ->. exact Hin.
  - intros prompt answer Hin. apply Hdir. left.
    rewrite Hlog in Hin. destruct Hin as [Hin|Hin]; [discriminate|].
    intros ->. exact Hin.
Qed.

(** X22. In a run that is confirmed at the prompt and completes, the paths
    saved are those of the sections in order, one per section and pairwise
    distinct, with ordinals counting from 1; each holds an image when the
    run ends; the assembly reads exactly these files, in this order; and the
    document has one page per section, page [k] being the page of the image
    of section [k]. *)
Theorem pages_and_files_follow_sections
        (w : W) (fs : gmap string File) (ds : gset string)
        (st' : State W) (prompt resp : string) :
  main cfg env (initial w fs ds) = (Ok tt, st') ->
  In (EvInput prompt resp) (log st') ->
  Py.lower (Py.strip resp) = "y"%string ->
  let shots := imap (fun k sec => img_path_of (S k) sec) (SECTIONS cfg) in
  length shots = length (SECTIONS cfg) /\
  NoDup shots /\
  (exists before,
      log st' = before ++ map EvImageOpen shots
                       ++ [EvPdfSave (OUTPUT_PDF cfg); EvPrint (done_message cfg env)]) /\
  exists doc,
    files st' !! OUTPUT_PDF cfg = Some (FPdf doc) /\
    length doc = length shots /\
    forall k sec, SECTIONS cfg !! k = Some sec ->
      exists im,
        shots !! k = Some (img_path_of (S k) sec) /\
        files st' !! img_path_of (S k) sec = Some (FImage im) /\
        doc !! k = Some (page_for im).
Proof.
  intros Hrun Hin Hyes shots.
  split; [apply length_imap|]. split; [apply img_paths_NoDup|].
  destruct (fs !! OUTPUT_DIR) as [f|] eqn:Hdir.
  { rewrite (main_blocked w fs ds f Hdir) in Hrun. discriminate. }
  rewrite (main_started w fs ds Hdir) in Hrun.
  match type of Hrun with
  | context [sign_in cfg env ?st2] => pose proof (sign_in_run st2) as Hsign
  end.
  destruct (sign_in cfg env _) as [[answer|e] st3]; [|discriminate].
  destruct Hsign as (_ & _ & pre & Hlog & Hquiet). cbn [log] in Hlog.
  destruct (String.eqb (Py.lower (Py.strip answer)) "y") eqn:Hanswer.
  2:{ exfalso.
      rewrite (export_or_cancel_declined answer st3 Hanswer) in Hrun.
      unfold emit in Hrun. cbn [snd world files dirs session log] in Hrun.
      injection Hrun as <-. cbn [log] in Hin. rewrite Hlog in Hin.
      assert (Hsame : EvInput prompt resp = EvInput sign_in_prompt answer).
      { repeat (apply in_app_or in Hin as [Hin|Hin]).
        - cbn in Hin. destruct Hin as [Hin|[Hin|[]]]; discriminate.
        - exfalso. exact (quiet_not_input pre prompt resp Hquiet Hin).
        - cbn in Hin. destruct Hin as [Hin|[]]. now symmetry.
        - cbn in Hin. destruct Hin as [Hin|[Hin|[]]]; discriminate.
        - cbn in Hin. destruct Hin as [Hin|[]]; discriminate. }
      injection Hsame as _ ->. rewrite Hyes in Hanswer. discriminate. }
  rewrite (export_or_cancel_accepted answer st3 Hanswer) in Hrun.
  destruct (capture_tabs cfg env _ 1 (SECTIONS cfg) [] st3) as [[out|e] st4] eqn:Hloop;
    [|discriminate].
  apply capture_tabs_shots in Hloop. cbn [app Nat.add] in Hloop.
  fold shots in Hloop. subst out.
  apply bind_Ok in Hrun as ([] & st5 & Hmerge & Hprint).
  apply merge_pngs_to_pdf_ok in Hmerge.
  destruct Hmerge as (ims & Hall & Hfiles5 & _ & _ & _ & Hlog5).
  unfold print, emit in Hprint. injection Hprint as <-. cbn [files log].
  split.
  { rewrite Hlog5. rewrite <- !app_assoc. cbn [app]. eexists. reflexivity. }
  exists (map page_for ims). split; [rewrite Hfiles5; apply lookup_insert_eq|].
  split.
  { rewrite length_map. symmetry. eapply Forall2_length; exact Hall. }
  intros k sec Hk.
  assert (Hshot : shots !! k = Some (img_path_of (S k) sec)).
  { unfold shots. rewrite list_lookup_imap, Hk. reflexivity. }
  destruct (Forall2_lookup_l _ _ _ _ _ Hall Hshot) as (im & Him & Hfile).
  exists im. split; [exact Hshot|]. split.
  - rewrite Hfiles5, lookup_insert_ne by apply output_pdf_is_no_shot.
    unfold emit in Hfile. cbn [snd files] in Hfile. exact Hfile.
  - rewrite list_lookup_fmap, Him. reflexivity.
Qed.

End Runs.

(** ** The model on concrete inputs *)

Example format_0d_7 : Py.format_0d 2 7 = "07"%string.
Proof. reflexivity. Qed.

Example format_0d_10 : Py.format_0d 2 10 = "10"%string.
Proof. reflexivity. Qed.

Example format_0d_123 : Py.format_0d 2 123 = "123"%string.
Proof. reflexivity. Qed.

Example strip_lower_Y : Py.lower (Py.strip "  Y ") = "y"%string.
Proof. reflexivity. Qed.

(** A no-break space (C2 A0) before the letter and a line separator
    (E2 80 A8) after it are stripped like the ASCII ones. *)
Example strip_lower_nbsp_Y :
  Py.lower (Py.strip (String (ascii_of_nat 194) (String (ascii_of_nat 160)
             (String "Y" (String (ascii_of_nat 226) (String (ascii_of_nat 128)
                (String (ascii_of_nat 168) EmptyString)))))))
  = "y"%string.
Proof. reflexivity. Qed.

(** A letter with an accent is no white space, though its second byte
    follows a C3 as A0 follows C2 in the no-break space. *)
Example strip_keeps_accents :
  Py.strip (String (ascii_of_nat 195) (String (ascii_of_nat 160) EmptyString))
  = String (ascii_of_nat 195) (String (ascii_of_nat 160) EmptyString).
Proof. reflexivity. Qed.

Example with_suffix_png :
  Pathlib.with_suffix Demo.first_shot ".full.png" = Demo.first_full.
Proof. reflexivity. Qed.

Example with_suffix_dotted :
  Pathlib.with_suffix "d/a.b.png" ".full.png" = "d/a.b.full.png"%string.
Proof. reflexivity. Qed.

Example with_suffix_hidden : Pathlib.with_suffix "d/.png" ".x" = "d/.png.x"%string.
Proof. reflexivity. Qed.

Example first_shot_path : img_path_of 1 "aee1ca53a294adcd19d6" = Demo.first_shot.
Proof. reflexivity. Qed.

Example tab_url_chromeless :
  tab_url Demo.cfg "aee1ca53a294adcd19d6"
  = ("https://app.powerbi.com/groups/34206745-f731-4cf0-abb3-60f8c6063a17"
     ++ "/reports/9b1ef4dc-67e0-4fb0-b7c0-a60b13d56d9b/aee1ca53a294adcd19d6"
     ++ "?experience=power-bi&clientSideAuth=0"
     ++ "&chromeless=1&filterPaneEnabled=false&navContentPaneEnabled=false")%string.
Proof. reflexivity. Qed.

Example page_of_1920_1200 :
  (page_w (Demo.blank 1920 1200 None), page_h (Demo.blank 1920 1200 None))
  = (1440%float, 900%float).
Proof. reflexivity. Qed.

Example page_of_zero_dpi :
  page_w (Demo.blank 1920 1200 (Some (0%float, 0%float))) = 1440%float.
Proof. reflexivity. Qed.

Example page_of_192_dpi :
  page_w (Demo.blank 3840 2400 (Some (192%float, 192%float))) = 1440%float.
Proof. reflexivity. Qed.

(** C4. The capture of the first configured tab on a page where no candidate
    matches, with the configured margins: the named file is written, and the
    uncropped capture stays next to it under its [.full.png] name, so two
    files are left for the one view. *)
Theorem crop_fallback_leaves_full_capture :
  let run := screenshot_clean Demo.cfg (Demo.browser Demo.no_canvas)
               Demo.first_shot Demo.start in
  fst run = Ok tt /\
  (exists saved,
      files (snd run) !! Demo.first_shot = Some (FImage saved) /\
      PIL.size saved = (1780, 1055)) /\
  files (snd run) !! Demo.first_full = Some (FImage (Demo.full_capture Demo.no_canvas)) /\
  Demo.first_full <> Demo.first_shot /\
  size (files (snd run)) = 2%nat.
Proof.
  cbv zeta.
  split; [vm_compute; reflexivity|].
  split; [eexists; split; [vm_compute; reflexivity|reflexivity]|].
  split; [vm_compute; reflexivity|].
  split; [discriminate|].
  vm_compute. reflexivity.
Qed.

(** C3 as stated fails where the fallback itself fails.  With the
    configured margins (left 140, bottom 145) a 100 x 100 full-page capture
    leaves a crop without pixels, which [Image.save] refuses: no candidate is
    visible and the capture raises [ValueError].  And when the full-page
    screenshot fails, its error is the outcome of the capture. *)
Lemma fallback_capture_can_raise :
  let small := Demo.browser (Demo.page_of (Demo.blank 100 100 None)) in
  USE_ELEMENT_CAPTURE Demo.cfg = true /\
  none_visible small (CANVAS_SELECTORS Demo.cfg) tt = Some tt /\
  fst (screenshot_clean Demo.cfg small Demo.first_shot Demo.start) = Raise ValueError /\
  none_visible Cases.broken_capture (CANVAS_SELECTORS Demo.cfg) tt = Some tt /\
  fst (screenshot_clean Demo.cfg Cases.broken_capture Demo.first_shot Demo.start)
  = Raise PWError.
Proof.
  cbv zeta. repeat split; vm_compute; reflexivity.
Qed.

(** C1. The whole script with its configuration, on a page where no
    candidate matches and with a confirming answer: the run completes, the
    ten sections give a document of ten pages, and twenty image files are
    left on disk, the ten named images and the ten uncropped captures next
    to them.  The surplus is the one of C4, once per tab. *)
Theorem confirmed_run_leaves_two_files_per_view :
  let run := main Demo.cfg (Demo.browser Demo.no_canvas) Demo.start in
  fst run = Ok tt /\
  length (SECTIONS Demo.cfg) = 10%nat /\
  length (image_files (files (snd run))) = 20%nat /\
  In Demo.first_shot (image_files (files (snd run))) /\
  In Demo.first_full (image_files (files (snd run))) /\
  exists doc,
    files (snd run) !! OUTPUT_PDF Demo.cfg = Some (FPdf doc) /\
    length doc = 10%nat.
Proof.
  cbv zeta.
  split; [vm_compute; reflexivity|].
  split; [reflexivity|].
  split; [vm_compute; reflexivity|].
  assert (Hin : forall p,
            existsb (String.eqb p)
              (image_files (files (snd (main Demo.cfg (Demo.browser Demo.no_canvas)
                                          Demo.start)))) = true ->
            In p (image_files (files (snd (main Demo.cfg (Demo.browser Demo.no_canvas)
                                             Demo.start))))).
  { intros p Hp. apply existsb_exists in Hp as (q & Hq & Heq).
    apply String.eqb_eq in Heq. now subst q. }
  split; [apply Hin; vm_compute; reflexivity|].
  split; [apply Hin; vm_compute; reflexivity|].
  assert (Hdoc : exists doc,
            files (snd (main Demo.cfg (Demo.browser Demo.no_canvas) Demo.start))
              !! OUTPUT_PDF Demo.cfg = Some (FPdf doc)).
  { destruct (files (snd (main Demo.cfg (Demo.browser Demo.no_canvas) Demo.start))
                !! OUTPUT_PDF Demo.cfg) as [[im|doc|]|] eqn:Hfile.
    - vm_compute in Hfile. discriminate Hfile.
    - eauto.
    - vm_compute in Hfile. discriminate Hfile.
    - vm_compute in Hfile. discriminate Hfile. }
  destruct Hdoc as (doc & Hdoc). exists doc. split; [exact Hdoc|].
  vm_compute in Hdoc. injection Hdoc as <-. reflexivity.
Qed.

(** C6 as stated fails in three ways on a 100 x 100 capture.  With left =
    -10 no margin exceeds the image, the saved image is 100 x 100, and the
    formula asks for a width of 110.  With left = right = 60 no margin
    exceeds the image either, but together they leave no column: the crop
    is 0 wide where the formula asks for -20, it has no pixels,
    [Image.save] raises [ValueError] and nothing is saved under the name.
    With left = 100 the margin equals the width: the crop is 0 wide as the
    formula says, and for want of pixels it is not saved either. *)
Lemma size_formula_fails_outside_its_range :
  let run m := full_page_then_crop (Demo.with_margins m)
                 (Demo.browser (Demo.page_of (Demo.blank 100 100 None)))
                 Demo.first_shot Demo.start in
  let negative := {| left := -10; right := 0; top := 0; bottom := 0 |} in
  let crossing := {| left := 60; right := 60; top := 0; bottom := 0 |} in
  let whole := {| left := 100; right := 0; top := 0; bottom := 0 |} in
  (left negative <= 100 /\ right negative <= 100 /\
   top negative <= 100 /\ bottom negative <= 100 /\
   fst (run negative) = Ok tt /\
   exists saved,
     files (snd (run negative)) !! Demo.first_shot = Some (FImage saved) /\
     PIL.size saved = (100, 100) /\
     PIL.size saved
     <> (100 - left negative - right negative, 100 - top negative - bottom negative)) /\
  (0 <= left crossing <= 100 /\ 0 <= right crossing <= 100 /\
   0 <= top crossing <= 100 /\ 0 <= bottom crossing <= 100 /\
   (exists region,
       PIL.crop (Demo.blank 100 100 None) (crop_box crossing (100, 100)) = Ok region /\
       PIL.size region = (0, 100) /\
       PIL.size region
       <> (100 - left crossing - right crossing, 100 - top crossing - bottom crossing)) /\
   fst (run crossing) = Raise ValueError /\
   image_files (files (snd (run crossing))) = [Demo.first_full]) /\
  (0 <= left whole <= 100 /\ 0 <= right whole <= 100 /\
   0 <= top whole <= 100 /\ 0 <= bottom whole <= 100 /\
   left whole + right whole <= 100 /\ top whole + bottom whole <= 100 /\
   fst (run whole) = Raise ValueError /\
   image_files (files (snd (run whole))) = [Demo.first_full]).
Proof.
  cbv zeta. cbn [left right top bottom]. split; [|split].
  - repeat (split; [lia|]).
    split; [vm_compute; reflexivity|].
    eexists. split; [vm_compute; reflexivity|].
    split; [reflexivity|]. cbn. intros H. discriminate H.
  - repeat (split; [lia|]).
    split; [|split; vm_compute; reflexivity].
    eexists. split; [vm_compute; reflexivity|].
    split; [reflexivity|]. cbn. intros H. discriminate H.
  - repeat (split; [lia|]). split; vm_compute; reflexivity.
Qed.

(** ** The theorems at work on the scripted browser *)

Lemma run_result {A B} (p : A * B) (a : A) : fst p = a -> p = (a, snd p).
Proof. destruct p. cbn. congruence. Qed.

Lemma pages_and_files_follow_sections_witness :
  let run := main Demo.cfg (Demo.browser Demo.no_canvas) Demo.start in
  fst run = Ok tt /\
  exists doc,
    files (snd run) !! OUTPUT_PDF Demo.cfg = Some (FPdf doc) /\
    length doc = 10%nat.
Proof.
  cbv zeta. split; [vm_compute; reflexivity|].
  destruct (pages_and_files_follow_sections Demo.cfg (Demo.browser Demo.no_canvas)
              tt ∅ ∅ (snd (main Demo.cfg (Demo.browser Demo.no_canvas) Demo.start))
              sign_in_prompt "Y")
    as (_ & _ & _ & doc & Hdoc & Hlen & _).
  - apply run_result. vm_compute. reflexivity.
  - apply (nth_error_In _ 6). vm_compute. reflexivity.
  - vm_compute. reflexivity.
  - exists doc. split; [exact Hdoc|exact Hlen].
Defined.

Lemma page_size_from_pixels_and_dpi_witness :
  let run := merge_pngs_to_pdf ["shot.png"%string] "out.pdf" Demo.one_shot_on_disk in
  fst run = Ok tt /\
  exists doc page,
    files (snd run) !! "out.pdf"%string = Some (FPdf doc) /\
    doc !! 0%nat = Some page /\
    Reportlab.pagesize page = (1440%float, 900%float).
Proof.
  cbv zeta. split; [vm_compute; reflexivity|].
  destruct (page_size_from_pixels_and_dpi ["shot.png"%string] "out.pdf"
              Demo.one_shot_on_disk
              (snd (merge_pngs_to_pdf ["shot.png"%string] "out.pdf" Demo.one_shot_on_disk)))
    as (doc & Hdoc & Hpages).
  - apply run_result. vm_compute. reflexivity.
  - destruct (Hpages 0%nat "shot.png"%string eq_refl)
      as (im & page & Hfile & Hpage & _ & _ & _ & H96).
    exists doc, page. split; [exact Hdoc|]. split; [exact Hpage|].
    assert (Him : im = Demo.shot_96).
    { vm_compute in Hfile. injection Hfile as <-. reflexivity. }
    subst im. exact (H96 96%float eq_refl).
Defined.

Lemma no_visible_candidate_falls_back_witness :
  let run := screenshot_clean Demo.cfg (Demo.browser Demo.no_canvas)
               Demo.first_shot Demo.start in
  fst run = Ok tt /\
  exists saved,
    files (snd run) !! Demo.first_shot = Some (FImage saved) /\
    PIL.size saved = (1780, 1055) /\
    log (snd run)
    = probe_events (CANVAS_SELECTORS Demo.cfg)
      ++ [EvPageScreenshot Demo.first_full; EvImageOpen Demo.first_full;
          EvCrop (140, 0, 1920, 1055); EvImageSave Demo.first_shot].
Proof.
  cbv zeta.
  destruct (no_visible_candidate_falls_back Demo.cfg (Demo.browser Demo.no_canvas)
              Demo.first_shot Demo.start tt tt (Demo.full_capture Demo.no_canvas)
              1920 1200)
    as (_ & st' & saved & Hrun & Hfile & _ & Hcrop).
  - reflexivity.
  - vm_compute. reflexivity.
  - reflexivity.
  - reflexivity.
  - vm_compute. reflexivity.
  - vm_compute. reflexivity.
  - destruct Hcrop as (_ & Hsize & Hlog); [left; vm_compute; discriminate|].
    rewrite Hrun. split; [reflexivity|]. exists saved.
    split; [exact Hfile|]. split; [exact Hsize|exact Hlog].
Defined.

Lemma declined_confirmation_produces_nothing_witness :
  let run := main Demo.cfg (Demo.browser Demo.declined) Demo.start in
  Py.lower (Py.strip "yes") <> "y"%string /\
  fst run = Ok tt /\ session (snd run) = Closed /\ files (snd run) = ∅.
Proof.
  cbv zeta.
  assert (Hno : Py.lower (Py.strip "yes") <> "y"%string).
  { vm_compute. intros H. discriminate H. }
  split; [exact Hno|].
  destruct (declined_confirmation_produces_nothing Demo.cfg (Demo.browser Demo.declined)
              tt ∅ ∅
              (fst (main Demo.cfg (Demo.browser Demo.declined) Demo.start))
              (snd (main Demo.cfg (Demo.browser Demo.declined) Demo.start))
              sign_in_prompt "yes")
    as (Hr & Hs & Hf & _).
  - apply surjective_pairing.
  - apply (nth_error_In _ 6). vm_compute. reflexivity.
  - exact Hno.
  - split; [exact Hr|]. split; [exact Hs|exact Hf].
Defined.

Lemma fallback_output_size_witness :
  exists st' saved,
    full_page_then_crop Demo.cfg (Demo.browser Demo.no_canvas) Demo.first_shot Demo.start
    = (Ok tt, st') /\
    files st' !! Demo.first_shot = Some (FImage saved) /\
    PIL.size saved = (1780, 1055).
Proof.
  destruct (fallback_output_size Demo.cfg (Demo.browser Demo.no_canvas)
              Demo.first_shot Demo.start (Demo.full_capture Demo.no_canvas) tt 1920 1200)
    as (_ & _ & Hsize).
  - reflexivity.
  - reflexivity.
  - simpl. lia.
  - simpl. lia.
  - simpl. lia.
  - simpl. lia.
  - simpl. lia.
  - simpl. lia.
  - apply Hsize; reflexivity.
Defined.

Lemma zero_margins_keep_full_capture_witness :
  exists st',
    full_page_then_crop (Demo.with_margins Demo.no_margins)
      (Demo.browser Demo.no_canvas) Demo.first_shot Demo.start
    = (Ok tt, st') /\
    files st' !! Demo.first_shot = Some (FImage (Demo.full_capture Demo.no_canvas)).
Proof.
  destruct (zero_margins_keep_full_capture (Demo.with_margins Demo.no_margins)
              (Demo.browser Demo.no_canvas) Demo.first_shot Demo.start
              (Demo.full_capture Demo.no_canvas) tt)
    as (st' & Hrun & Hfile & _).
  - reflexivity.
  - reflexivity.
  - exists st'. split; [exact Hrun|exact Hfile].
Defined.

Lemma first_visible_candidate_wins_witness :
  CANVAS_SELECTORS Demo.cfg
  = ["div.reportCanvas"%string; Demo.aria_selector]
      ++ Demo.testid_selector :: ["div.visual-container-host"%string] /\
  fst (find_report_canvas Demo.cfg (Demo.browser Demo.third_matches) Demo.start)
  = Ok (Some (LocatorFirst Demo.testid_selector)) /\
  log (snd (screenshot_clean Demo.cfg (Demo.browser Demo.third_matches)
              Demo.first_shot Demo.start))
  = [EvWaitFor (LocatorFirst "div.reportCanvas") 2000;
     EvWaitFor (LocatorFirst Demo.aria_selector) 2000;
     EvWaitFor (LocatorFirst Demo.testid_selector) 2000;
     EvLocatorScreenshot (LocatorFirst Demo.testid_selector) Demo.first_shot].
Proof.
  split; [reflexivity|].
  destruct (first_visible_candidate_wins Demo.cfg (Demo.browser Demo.third_matches)
              Demo.first_shot Demo.start
              ["div.reportCanvas"%string; Demo.aria_selector]
              Demo.testid_selector ["div.visual-container-host"%string] tt tt)
    as (Hfind & _ & Hshot).
  - reflexivity.
  - reflexivity.
  - vm_compute. reflexivity.
  - vm_compute. reflexivity.
  - split; [rewrite Hfind; reflexivity|].
    rewrite (Hshot (Demo.element_capture Demo.third_matches) tt eq_refl).
    reflexivity.
Defined.

Lemma output_dir_created_first_witness :
  let run := main Demo.cfg (Demo.browser Demo.declined) Demo.start in
  exists rest,
    log (snd run) = EvMkdir OUTPUT_DIR :: rest /\ OUTPUT_DIR ∈ dirs (snd run).
Proof.
  cbv zeta.
  destruct (output_dir_created_first Demo.cfg (Demo.browser Demo.declined) tt ∅ ∅
              (fst (main Demo.cfg (Demo.browser Demo.declined) Demo.start))
              (snd (main Demo.cfg (Demo.browser Demo.declined) Demo.start)))
    as (rest & Hlog & _ & Hdir & _).
  - apply surjective_pairing.
  - exists rest. split; [exact Hlog|]. apply Hdir. vm_compute. reflexivity.
Defined.

(** * Further properties *)

(** ** Addresses and file names *)

(** X1. For a fixed configuration, [tab_url] sends different section
    identifiers to different addresses. *)
Theorem tab_url_inj (cfg : Config) (s t : string) :
  tab_url cfg s = tab_url cfg t -> s = t.
Proof.
  unfold tab_url. intros H.
  apply append_inv_tail in H.
  do 5 apply append_inv_head in H. exact H.
Qed.

Lemma tab_url_inj_witness :
  "aee1ca53a294adcd19d6"%string = "aee1ca53a294adcd19d6"%string.
Proof.
  apply (tab_url_inj Demo.cfg). reflexivity.
Defined.

(** X2. The path of an image file determines the ordinal it was built
    from, whatever the section identifiers; it determines the identifier too
    when the identifiers hold no path separator.  (With separators, two
    identifiers can be joined into one path: a doubled separator counts as a
    single one.) *)
Theorem img_path_of_inj (i j : nat) (s t : string) :
  img_path_of i s = img_path_of j t ->
  i = j /\ (no_slash s = true -> no_slash t = true -> s = t).
Proof.
  intros H. pose proof (img_path_of_ordinal i j s t H) as <-.
  split; [reflexivity|]. intros Hs Ht.
  rewrite (img_path_of_plain i s Hs), (img_path_of_plain i t Ht) in H.
  do 5 apply append_inv_head in H.
  now apply append_inv_tail in H.
Qed.

Lemma img_path_of_inj_witness : 3%nat = 3%nat /\ "ab"%string = "ab"%string.
Proof.
  destruct (img_path_of_inj 3 3 "ab" "ab" eq_refl) as [Hord Hsec].
  split; [exact Hord|]. apply Hsec; reflexivity.
Defined.

Example separators_merge_paths : img_path_of 1 "a//b" = img_path_of 1 "a/b".
Proof. reflexivity. Qed.

Lemma ascii_compare_refl (c : ascii) : Ascii.compare c c = Eq.
Proof. unfold Ascii.compare. apply N.compare_refl. Qed.

Lemma compare_same_head (z x y : string) :
  String.compare (z ++ x) (z ++ y) = String.compare x y.
Proof.
  induction z as [|c z IH]; push_append; [reflexivity|].
  cbn [String.compare]. now rewrite ascii_compare_refl.
Qed.

Lemma compare_lt_heads (a b x y : string) :
  String.length a = String.length b ->
  String.compare a b = Lt ->
  String.compare (a ++ x) (b ++ y) = Lt.
Proof.
  revert b. induction a as [|c a IH]; intros [|d b] Hlen Hlt; try discriminate.
  push_append. cbn [String.compare] in *.
  destruct (Ascii.compare c d); try discriminate; [|reflexivity].
  apply IH; [now injection Hlen|exact Hlt].
Qed.

Lemma two_digit_ordinals_sorted :
  forallb (fun i =>
    forallb (fun j =>
      if (i <? j)%nat
      then match String.compare (Py.format_0d 2 i) (Py.format_0d 2 j) with
           | Lt => (String.length (Py.format_0d 2 i) =? String.length (Py.format_0d 2 j))%nat
           | _ => false
           end
      else true) (seq 0 100)) (seq 0 100) = true.
Proof. vm_compute. reflexivity. Qed.

(** X3. Thanks to the zero padding, for ordinals below 100 the image file
    names sort, as strings, in the order of their ordinals, whatever the
    section identifiers are. *)
Theorem img_paths_sort_by_ordinal (i j : nat) (s t : string) :
  (i < j)%nat -> (j < 100)%nat ->
  String.compare (img_path_of i s) (img_path_of j t) = Lt.
Proof.
  intros Hij Hj.
  pose proof two_digit_ordinals_sorted as Hall.
  rewrite forallb_forall in Hall.
  specialize (Hall i). rewrite forallb_forall in Hall.
  assert (Hi : In i (seq 0 100)) by (apply in_seq; lia).
  assert (Hj' : In j (seq 0 100)) by (apply in_seq; lia).
  specialize (Hall Hi j Hj').
  destruct (Nat.ltb_spec i j) as [_|]; [|lia].
  destruct (String.compare (Py.format_0d 2 i) (Py.format_0d 2 j)) eqn:Hcmp;
    try discriminate.
  apply Nat.eqb_eq in Hall.
  destruct (img_path_of_shape i s) as (x & ->).
  destruct (img_path_of_shape j t) as (y & ->).
  rewrite !compare_same_head.
  now apply compare_lt_heads.
Qed.

Lemma img_paths_sort_by_ordinal_witness :
  String.compare (img_path_of 9 "zz") (img_path_of 10 "aa") = Lt.
Proof. apply img_paths_sort_by_ordinal; lia. Defined.

(** ** The crop, for every margin *)

Lemma crop_result (im : PIL.Image) (m : Margins) :
  PIL.crop im (crop_box m (PIL.size im))
  = Ok {| PIL.size :=
            (Z.max (Z.max 0 (left m)) (fst (PIL.size im) - Z.max 0 (right m))
             - Z.max 0 (left m),
             Z.max (Z.max 0 (top m)) (snd (PIL.size im) - Z.max 0 (bottom m))
             - Z.max 0 (top m));
          PIL.info_dpi := PIL.info_dpi im;
          PIL.getpixel := fun x y =>
            if (0 <=? x + Z.max 0 (left m)) && (x + Z.max 0 (left m) <? fst (PIL.size im))
               && (0 <=? y + Z.max 0 (top m)) && (y + Z.max 0 (top m) <? snd (PIL.size im))
            then PIL.getpixel im (x + Z.max 0 (left m)) (y + Z.max 0 (top m)) else 0 |}.
Proof.
  destruct im as [[w h] dpi px]. cbn [PIL.size PIL.info_dpi PIL.getpixel fst snd].
  rewrite crop_box_eq. unfold PIL.crop. cbn [PIL.size PIL.info_dpi PIL.getpixel].
  destruct (Z.ltb_spec (Z.max (Z.max 0 (left m)) (w - Z.max 0 (right m))) (Z.max 0 (left m)))
    as [Hx|_]; [lia|].
  destruct (Z.ltb_spec (Z.max (Z.max 0 (top m)) (h - Z.max 0 (bottom m))) (Z.max 0 (top m)))
    as [Hy|_]; [lia|].
  reflexivity.
Qed.

(** X4. For every image and every margins, the crop the fallback asks for
    succeeds and its size is what is left of each dimension once the margins,
    clamped below at 0, are taken off, and never less than 0: margins that
    cover the whole image give an empty image, not an error. *)
Theorem crop_size_for_all_margins (m : Margins) (im : PIL.Image) :
  exists region,
    PIL.crop im (crop_box m (PIL.size im)) = Ok region /\
    PIL.size region
    = (Z.max 0 (fst (PIL.size im) - Z.max 0 (left m) - Z.max 0 (right m)),
       Z.max 0 (snd (PIL.size im) - Z.max 0 (top m) - Z.max 0 (bottom m))).
Proof.
  eexists. split; [apply crop_result|]. cbn [PIL.size]. f_equal; lia.
Qed.

(** X5. Inside the cropped region, the pixel at (x, y) is the pixel of the
    full capture at (x + left, y + top), the margins being clamped below at
    0: the crop removes the margins and nothing else. *)
Theorem crop_keeps_inner_pixels (m : Margins) (im region : PIL.Image) (x y : Z) :
  PIL.crop im (crop_box m (PIL.size im)) = Ok region ->
  0 <= x < fst (PIL.size region) ->
  0 <= y < snd (PIL.size region) ->
  PIL.getpixel region x y
  = PIL.getpixel im (x + Z.max 0 (left m)) (y + Z.max 0 (top m)) /\
  PIL.getpixel (PIL.saved_png region) x y = PIL.getpixel region x y.
Proof.
  rewrite crop_result. intros Hcrop. injection Hcrop as <-.
  cbn [PIL.size PIL.getpixel PIL.saved_png fst snd]. intros Hx Hy.
  split; [|reflexivity].
  destruct (Z.leb_spec 0 (x + Z.max 0 (left m))); [|lia].
  destruct (Z.ltb_spec (x + Z.max 0 (left m)) (fst (PIL.size im))); [|lia].
  destruct (Z.leb_spec 0 (y + Z.max 0 (top m))); [|lia].
  destruct (Z.ltb_spec (y + Z.max 0 (top m)) (snd (PIL.size im))); [|lia].
  reflexivity.
Qed.

Lemma crop_keeps_inner_pixels_witness :
  exists region,
    PIL.crop (Demo.blank 1920 1200 None)
      (crop_box (CROP_MARGINS Demo.cfg) (PIL.size (Demo.blank 1920 1200 None)))
    = Ok region /\
    PIL.getpixel region 10 20 = 170.
Proof.
  eexists. split; [apply crop_result|].
  destruct (crop_keeps_inner_pixels (CROP_MARGINS Demo.cfg) (Demo.blank 1920 1200 None)
              _ 10 20 (crop_result _ _)) as [Hpix _].
  - vm_compute. split; [discriminate|reflexivity].
  - vm_compute. split; [discriminate|reflexivity].
  - rewrite Hpix. reflexivity.
Defined.

(** ** The answers that confirm *)

Lemma lower_char_y (c : ascii) :
  Py.lower_char c = "y"%char <-> c = "y"%char \/ c = "Y"%char.
Proof.
  destruct c as [[] [] [] [] [] [] [] []]; vm_compute; split; intros H;
    try discriminate H; try (destruct H as [H|H]; discriminate H);
    try reflexivity; auto.
Qed.

Lemma lower_is_y (s : string) :
  Py.lower s = "y"%string <-> s = "y"%string \/ s = "Y"%string.
Proof.
  split.
  - destruct s as [|c [|d s]]; cbn [Py.lower]; intros H; try discriminate H.
    injection H as H. apply lower_char_y in H. destruct H as [->| ->]; auto.
  - intros [->| ->]; reflexivity.
Qed.

Lemma letter_y_starts_no_space (c : ascii) :
  c = "y"%char \/ c = "Y"%char -> starts_no_space c.
Proof.
  intros [->| ->]; repeat split; intros; reflexivity.
Qed.

Lemma rstrip_empty (s : string) : Py.rstrip s = EmptyString <-> all_space s = true.
Proof.
  remember (String.length s) as n eqn:Hn. revert s Hn.
  induction n as [n IH] using lt_wf_ind. intros s Hn.
  assert (Hrec : forall r, (String.length r < n)%nat ->
                           (Py.rstrip r = EmptyString <-> all_space r = true)).
  { intros r Hr. now apply (IH _ Hr). }
  assert (Hlast : forall keep r, keep <> EmptyString -> (String.length r < n)%nat ->
            (match Py.rstrip r with EmptyString => EmptyString | _ => keep end
             = EmptyString <-> all_space r = true)).
  { intros keep r Hkeep Hr. specialize (Hrec r Hr).
    destruct (Py.rstrip r); [tauto|].
    split; intros H; [contradiction|]. apply Hrec in H. discriminate H. }
  destruct s as [|c1 r1]; [cbn; tauto|].
  cbn [Py.rstrip all_space]. set (keep := String c1 (Py.rstrip r1)).
  assert (Hkeep : keep <> EmptyString) by discriminate. clearbody keep.
  assert (Hno : keep = EmptyString <-> false = true)
    by (split; intros H; [contradiction|discriminate H]).
  cbn [String.length] in Hn.
  destruct (Py.isspace c1); [apply Hlast; [exact Hkeep|lia]|].
  destruct r1 as [|c2 r2]; [exact Hno|].
  cbn [String.length] in Hn.
  destruct (Py.isspace2 c1 c2); [apply Hlast; [exact Hkeep|lia]|].
  destruct r2 as [|c3 r3]; [exact Hno|].
  cbn [String.length] in Hn.
  destruct (Py.isspace3 c1 c2 c3); cbn [andb]; [apply Hlast; [exact Hkeep|lia]|].
  exact Hno.
Qed.

Lemma lstrip_spaces (a t : string) :
  all_space a = true -> Py.lstrip (a ++ t) = Py.lstrip t.
Proof.
  remember (String.length a) as n eqn:Hn. revert a Hn.
  induction n as [n IH] using lt_wf_ind. intros a Hn.
  destruct a as [|c1 r1]; [reflexivity|].
  cbn [String.length] in Hn. push_append. cbn [all_space Py.lstrip].
  destruct (Py.isspace c1); [apply (IH (String.length r1)); [lia|reflexivity]|].
  destruct r1 as [|c2 r2]; [intros H; discriminate H|].
  cbn [String.length] in Hn. push_append.
  destruct (Py.isspace2 c1 c2); [apply (IH (String.length r2)); [lia|reflexivity]|].
  destruct r2 as [|c3 r3]; [intros H; discriminate H|].
  cbn [String.length] in Hn. push_append.
  destruct (Py.isspace3 c1 c2 c3); cbn [andb]; [|intros H; discriminate H].
  apply (IH (String.length r3)); [lia|reflexivity].
Qed.

Lemma lstrip_split (s : string) :
  exists a, s = (a ++ Py.lstrip s)%string /\ all_space a = true.
Proof.
  remember (String.length s) as n eqn:Hn. revert s Hn.
  induction n as [n IH] using lt_wf_ind. intros s Hn.
  assert (Hrec : forall r, (String.length r < n)%nat ->
            exists a, r = (a ++ Py.lstrip r)%string /\ all_space a = true).
  { intros r Hr. now apply (IH _ Hr). }
  assert (Hstop : exists a, s = (a ++ s)%string /\ all_space a = true)
    by (exists EmptyString; split; reflexivity).
  destruct s as [|c1 r1]; [exists EmptyString; split; reflexivity|].
  cbn [String.length] in Hn. cbn [Py.lstrip].
  destruct (Py.isspace c1) eqn:H1.
  { destruct (Hrec r1) as (a & Hr & Ha); [lia|].
    exists (String c1 a). push_append. cbn [all_space]. rewrite H1.
    split; [f_equal; exact Hr|exact Ha]. }
  destruct r1 as [|c2 r2]; [exact Hstop|].
  cbn [String.length] in Hn.
  destruct (Py.isspace2 c1 c2) eqn:H2.
  { destruct (Hrec r2) as (a & Hr & Ha); [lia|].
    exists (String c1 (String c2 a)). push_append. cbn [all_space]. rewrite H1, H2.
    split; [do 2 f_equal; exact Hr|exact Ha]. }
  destruct r2 as [|c3 r3]; [exact Hstop|].
  cbn [String.length] in Hn.
  destruct (Py.isspace3 c1 c2 c3) eqn:H3; [|exact Hstop].
  destruct (Hrec r3) as (a & Hr & Ha); [lia|].
  exists (String c1 (String c2 (String c3 a))). push_append.
  cbn [all_space]. rewrite H1, H2, H3.
  split; [do 3 f_equal; exact Hr|exact Ha].
Qed.

Lemma lstrip_stops (c : ascii) (t : string) :
  starts_no_space c -> Py.lstrip (String c t) = String c t.
Proof.
  intros (H1 & H2 & H3). cbn [Py.lstrip]. rewrite H1.
  destruct t as [|d t]; [reflexivity|]. rewrite H2.
  destruct t as [|e t]; [reflexivity|]. rewrite H3. reflexivity.
Qed.

Lemma rstrip_keeps (c : ascii) (t : string) :
  starts_no_space c -> Py.rstrip (String c t) = String c (Py.rstrip t).
Proof.
  intros (H1 & H2 & H3). cbn [Py.rstrip]. rewrite H1.
  destruct t as [|d t]; [reflexivity|]. rewrite H2.
  destruct t as [|e t]; [reflexivity|]. rewrite H3. reflexivity.
Qed.

Lemma rstrip_single (t : string) (c : ascii) :
  starts_no_space c ->
  Py.rstrip t = String c EmptyString <->
  exists b, t = String c b /\ all_space b = true.
Proof.
  intros Hc. split.
  - destruct t as [|d r1]; [intros H; discriminate H|].
    cbn [Py.rstrip]. set (keep := String d (Py.rstrip r1)).
    assert (Hkeep : keep = String c EmptyString ->
                    exists b, String d r1 = String c b /\ all_space b = true).
    { intros H. injection H as -> H. exists r1. split; [reflexivity|].
      now apply rstrip_empty. }
    assert (Hlast : forall r,
              match Py.rstrip r with
              | EmptyString => EmptyString
              | _ => keep
              end = String c EmptyString ->
              exists b, String d r1 = String c b /\ all_space b = true).
    { intros r. destruct (Py.rstrip r); [intros H; discriminate H|exact Hkeep]. }
    clearbody keep.
    destruct (Py.isspace d); [apply Hlast|].
    destruct r1 as [|c2 r2]; [exact Hkeep|].
    destruct (Py.isspace2 d c2); [apply Hlast|].
    destruct r2 as [|c3 r3]; [exact Hkeep|].
    destruct (Py.isspace3 d c2 c3); [apply Hlast|exact Hkeep].
  - intros (b & -> & Hb). rewrite (rstrip_keeps _ _ Hc).
    apply rstrip_empty in Hb. rewrite Hb. reflexivity.
Qed.

(** X6. The answer typed at the prompt passes the test [resp != "y"] of
    [main], after [strip().lower()], exactly when it is a single letter y or
    Y with nothing but white space before and after it, white space being
    any of the characters [str.strip] removes, the no-break space and the
    other ones outside ASCII included: "yes", "ok" or an empty line all
    cancel the run. *)
Theorem confirming_answers (answer : string) :
  Py.lower (Py.strip answer) = "y"%string <->
  exists before c after,
    answer = (before ++ String c after)%string /\
    all_space before = true /\ all_space after = true /\
    (c = "y"%char \/ c = "Y"%char).
Proof.
  rewrite lower_is_y. unfold Py.strip. split.
  - intros H.
    assert (Hc : exists c, Py.rstrip (Py.lstrip answer) = String c EmptyString /\
                           (c = "y"%char \/ c = "Y"%char)).
    { destruct H as [H|H]; rewrite H; eauto. }
    destruct Hc as (c & Hstrip & Hc).
    apply rstrip_single in Hstrip as (after & Hl & Hafter);
      [|now apply letter_y_starts_no_space].
    destruct (lstrip_split answer) as (before & Hanswer & Hbefore).
    exists before, c, after. rewrite Hl in Hanswer. auto.
  - intros (before & c & after & -> & Hbefore & Hafter & Hc).
    pose proof (letter_y_starts_no_space c Hc) as Hns.
    rewrite (lstrip_spaces before _ Hbefore), (lstrip_stops _ _ Hns).
    assert (Hr : Py.rstrip (String c after) = String c EmptyString).
    { apply rstrip_single; eauto. }
    rewrite Hr. destruct Hc as [->| ->]; auto.
Qed.

(** ** Every outcome of a capture *)

Section CaptureOutcomes.
Context {W : Type} (cfg : Config) (env : Browser W).

Lemma find_among_outcome (selectors : list string) (st : State W) :
  exists found st' probed rest,
    find_among env selectors st = (Ok found, st') /\
    selectors = probed ++ rest /\
    files st' = files st /\ dirs st' = dirs st /\ session st' = session st /\
    log st' = log st ++ probe_events probed /\
    match found with
    | None => rest = []
    | Some loc => exists pre sel, probed = pre ++ [sel] /\ loc = LocatorFirst sel
    end.
Proof.
  revert st. induction selectors as [|sel more IH]; intros st.
  - exists None, st, [], []. cbn. unfold ret. rewrite app_nil_r. repeat split.
  - cbn [find_among]. monad_unfold.
    destruct (wait_for_visible env (LocatorFirst sel) 2000 (world st))
      as [[[]|e] w1] eqn:Hprobe; cbn [world files dirs session log].
    + eexists _, _, [sel], more. split; [reflexivity|].
      cbn [world files dirs session log probe_events map app]. repeat split.
      exists [], sel. split; reflexivity.
    + match goal with
      | |- context [find_among env more ?st1] =>
          destruct (IH st1)
            as (found & st' & probed & rest & Hrun & Hsplit & Hf & Hd & Hs & Hl & Hfound)
      end.
      cbn [world files dirs session log] in Hf, Hd, Hs, Hl.
      exists found, st', (sel :: probed), rest. rewrite Hrun.
      split; [reflexivity|]. split; [cbn; now rewrite Hsplit|].
      repeat (split; [assumption|]).
      split; [rewrite Hl; cbn [probe_events map]; log_assoc; reflexivity|].
      destruct found as [loc|]; [|exact Hfound].
      destruct Hfound as (pre & s & -> & ->). exists (sel :: pre), s. split; reflexivity.
Qed.

(** X7. Whatever the probes answer, [find_report_canvas] returns without
    raising and writes nothing; it has probed a leading part of
    CANVAS_SELECTORS, in order, 2000 ms each; it returns the locator of the
    last one probed, or nothing once all of them were probed. *)
Theorem find_report_canvas_outcome (st : State W) :
  exists found st' probed rest,
    find_report_canvas cfg env st = (Ok found, st') /\
    CANVAS_SELECTORS cfg = probed ++ rest /\
    files st' = files st /\ dirs st' = dirs st /\ session st' = session st /\
    log st' = log st ++ probe_events probed /\
    match found with
    | None => rest = []
    | Some loc => exists pre sel, probed = pre ++ [sel] /\ loc = LocatorFirst sel
    end.
Proof.
  unfold find_report_canvas.
  destruct (find_among_outcome (CANVAS_SELECTORS cfg) st)
    as (found & st' & probed & rest & Hrun & Hsplit & Hstate).
  exists found, st', probed, rest. split; [exact Hrun|]. split; [exact Hsplit|exact Hstate].
Qed.

Lemma cut_short_ne (path p : string) (fs : gmap string File) :
  p <> path -> cut_short path fs !! p = fs !! p.
Proof.
  intros Hp. unfold cut_short.
  destruct (fs !! path); [|reflexivity]. now rewrite lookup_insert_ne by congruence.
Qed.

Lemma crop_empty_inv (full region : PIL.Image) (m : Margins) :
  PIL.crop full (crop_box m (PIL.size full)) = Ok region ->
  PIL.is_empty region = true ->
  fst (PIL.size full) <= Z.max 0 (left m) + Z.max 0 (right m) \/
  snd (PIL.size full) <= Z.max 0 (top m) + Z.max 0 (bottom m).
Proof.
  intros Hcrop Hempty.
  destruct (crop_at_box full m) as (region' & Hcrop' & Hsize).
  assert (region' = region) as -> by congruence.
  unfold PIL.is_empty in Hempty. rewrite Hsize in Hempty. cbn [fst snd] in Hempty.
  apply orb_true_iff in Hempty as [H|H]; apply Z.leb_le in H; [left|right]; lia.
Qed.

Lemma full_page_then_crop_outcome (path : string) (st : State W) :
  match full_page_then_crop cfg env path st with
  | (Ok _, st') =>
      (exists im, files st' !! path = Some (FImage im)) /\
      forall p, p <> path -> p <> Pathlib.with_suffix path ".full.png" ->
                files st' !! p = files st !! p
  | (Raise e, st') =>
      (files st' = files st /\
       exists w', page_screenshot env (world st) = (Raise e, w')) \/
      (e = ValueError /\
       exists full w',
         page_screenshot env (world st) = (Ok full, w') /\
         files st'
         = cut_short path
             (<[Pathlib.with_suffix path ".full.png" := FImage full]> (files st)) /\
         no_room (CROP_MARGINS cfg) full)
  end.
Proof.
  destruct (page_screenshot env (world st)) as [[full|e] w1] eqn:Hshot.
  - destruct (any_margin (CROP_MARGINS cfg)) eqn:Hany.
    + destruct (full_page_then_crop_cropping cfg env path st full w1 Hshot Hany)
        as (region & Hcrop & Hrun).
      rewrite Hrun. destruct (PIL.is_empty region) eqn:Hempty; cbn [files].
      * right. split; [reflexivity|]. exists full, w1.
        split; [reflexivity|]. split; [reflexivity|].
        exact (crop_empty_inv full region _ Hcrop Hempty).
      * split; [eexists; apply lookup_insert_eq|].
        intros p Hp Htmp. now rewrite !lookup_insert_ne by congruence.
    + rewrite (full_page_then_crop_renaming cfg env path st full w1 Hshot Hany).
      cbn [files]. split.
      * eexists. apply lookup_insert_eq.
      * intros p Hp Htmp.
        rewrite lookup_insert_ne, lookup_delete_ne, lookup_insert_ne by congruence.
        reflexivity.
  - unfold full_page_then_crop. monad_unfold. rewrite Hshot.
    cbn [files]. left. split; [reflexivity|]. eauto.
Qed.

(** However the fallback ends, it touches the named file and its companion
    only. *)
Lemma full_page_then_crop_frame (path p : string) (st : State W) :
  p <> path -> p <> Pathlib.with_suffix path ".full.png" ->
  files (snd (full_page_then_crop cfg env path st)) !! p = files st !! p.
Proof.
  intros Hp Htmp. pose proof (full_page_then_crop_outcome path st) as H.
  destruct (full_page_then_crop cfg env path st) as [[[]|e] st']; cbn [snd].
  - exact (proj2 H p Hp Htmp).
  - destruct H as [(Hf & _)|(_ & full & w' & _ & Hf & _)]; rewrite Hf; [reflexivity|].
    rewrite cut_short_ne by congruence.
    now rewrite lookup_insert_ne by congruence.
Qed.

Lemma pw_locator_screenshot_outcome (loc : Locator) (path : string) (st : State W) :
  match pw_locator_screenshot env loc path st with
  | (Ok _, st') =>
      (exists im, files st' !! path = Some (FImage im)) /\
      forall p, p <> path -> files st' !! p = files st !! p
  | (Raise e, st') =>
      files st' = files st /\
      exists w', locator_screenshot env loc (world st) = (Raise e, w')
  end.
Proof.
  monad_unfold.
  destruct (locator_screenshot env loc (world st)) as [[im|e] w1];
    cbn [world files dirs session log].
  - split; [eexists; apply lookup_insert_eq|].
    intros p Hp. now rewrite lookup_insert_ne by congruence.
  - split; [reflexivity|]. eauto.
Qed.

(** X8. [screenshot_clean] ends in one of three ways.  It returns, and then
    the named file holds an image.  Or it raises the exception of a
    screenshot call of the browser, and then no file has been written or
    removed.  Or it raises [ValueError]: the full page was captured, the
    margins leave no pixel of it, and apart from the named file the disk is
    what it was, with the intermediate capture added.  Failed probes are
    swallowed, the crop box is always accepted, and the capture it opens or
    renames is the file it has just written, in the directory of the named
    file. *)
Theorem screenshot_clean_outcome (path : string) (st : State W) :
  match screenshot_clean cfg env path st with
  | (Ok _, st') => exists im, files st' !! path = Some (FImage im)
  | (Raise e, st') =>
      (files st' = files st /\
       exists w w',
         page_screenshot env w = (Raise e, w') \/
         exists loc, locator_screenshot env loc w = (Raise e, w')) \/
      (e = ValueError /\
       exists full w w',
         page_screenshot env w = (Ok full, w') /\
         (fst (PIL.size full)
          <= Z.max 0 (left (CROP_MARGINS cfg)) + Z.max 0 (right (CROP_MARGINS cfg)) \/
          snd (PIL.size full)
          <= Z.max 0 (top (CROP_MARGINS cfg)) + Z.max 0 (bottom (CROP_MARGINS cfg))) /\
         forall p, p <> path ->
           files st' !! p
           = <[Pathlib.with_suffix path ".full.png" := FImage full]> (files st) !! p)
  end.
Proof.
  unfold screenshot_clean.
  assert (Hfall : forall st1, files st1 = files st ->
            match full_page_then_crop cfg env path st1 with
            | (Ok _, st') => exists im, files st' !! path = Some (FImage im)
            | (Raise e, st') =>
                (files st' = files st /\
                 exists w w',
                   page_screenshot env w = (Raise e, w') \/
                   exists loc, locator_screenshot env loc w = (Raise e, w')) \/
                (e = ValueError /\
                 exists full w w',
                   page_screenshot env w = (Ok full, w') /\
                   no_room (CROP_MARGINS cfg) full /\
                   forall p, p <> path ->
                     files st' !! p
                     = <[Pathlib.with_suffix path ".full.png" := FImage full]>
                         (files st) !! p)
            end).
  { intros st1 Hsame. pose proof (full_page_then_crop_outcome path st1) as H.
    destruct (full_page_then_crop cfg env path st1) as [[[]|e] st'].
    - exact (proj1 H).
    - destruct H as [(Hf & w' & Hw)|(He & full & w' & Hw & Hf & Hroom)].
      + left. split; [congruence|]. eauto.
      + right. split; [exact He|]. exists full, (world st1), w'.
        split; [exact Hw|]. split; [exact Hroom|].
        intros p Hp. rewrite Hf, Hsame. now apply cut_short_ne. }
  destruct (USE_ELEMENT_CAPTURE cfg); [|now apply Hfall].
  unfold bind, find_report_canvas.
  destruct (find_among_outcome (CANVAS_SELECTORS cfg) st)
    as (found & st1 & probed & rest & Hrun & _ & Hf & _).
  rewrite Hrun. destruct found as [loc|]; [|now apply Hfall].
  pose proof (pw_locator_screenshot_outcome loc path st1) as H.
  destruct (pw_locator_screenshot env loc path st1) as [[[]|e] st'].
  - exact (proj1 H).
  - destruct H as (Hf' & w' & Hw). left. split; [congruence|]. eauto.
Qed.


End CaptureOutcomes.

(** ** Every outcome of the assembly *)

Section AssemblyOutcomes.
Context {W : Type}.

(** The path holds an image. *)
Local Abbreviation image_at st p := (exists im, files st !! p = Some (FImage im)).

Lemma merge_pages_outcome (images : list string) :
  forall (c : Reportlab.Canvas) (st : State W),
    match merge_pages images c st with
    | (Ok _, st') => Forall (fun p => image_at st p) images
    | (Raise e, st') =>
        files st' = files st /\
        (e = FileNotFoundError \/ e = UnidentifiedImageError) /\
        Exists (fun p => ~ image_at st p) images
    end.
Proof.
  induction images as [|p rest IH]; intros c st; cbn [merge_pages].
  - unfold ret. constructor.
  - monad_unfold.
    destruct (files st !! p) as [[im|doc|]|] eqn:Hfile.
    + match goal with
      | |- context [merge_pages rest ?c1 ?st1] => specialize (IH c1 st1)
      end.
      destruct (merge_pages rest _ _) as [[c'|e] st']; cbn [files] in IH.
      * constructor; [eauto|exact IH].
      * destruct IH as (Hf & He & Hex). repeat split; [exact Hf|exact He|].
        now apply Exists_cons_tl.
    + cbn [files]. repeat split; [now right|].
      apply Exists_cons_hd. intros (im & Him). congruence.
    + cbn [files]. repeat split; [now right|].
      apply Exists_cons_hd. intros (im & Him). congruence.
    + cbn [files]. repeat split; [now left|].
      apply Exists_cons_hd. intros (im & Him). congruence.
Qed.

Lemma can_create_ext (st st1 : State W) (path : string) :
  files st1 = files st -> dirs st1 = dirs st ->
  can_create st1 path = can_create st path.
Proof. intros Hf Hd. unfold can_create. now rewrite Hf, Hd. Qed.

(** Every way [merge_pngs_to_pdf] can end. *)
Lemma merge_pngs_to_pdf_cases (images : list string) (out : string) (st : State W) :
  match merge_pngs_to_pdf images out st with
  | (Ok _, st') =>
      Forall (fun p => exists im, files st !! p = Some (FImage im)) images /\
      can_create st out = true /\
      exists doc, files st' = <[out := FPdf doc]> (files st)
  | (Raise e, st') =>
      files st' = files st /\
      (((e = FileNotFoundError \/ e = UnidentifiedImageError) /\
        Exists (fun p => ~ exists im, files st !! p = Some (FImage im)) images) \/
       (e = FileNotFoundError /\
        Forall (fun p => exists im, files st !! p = Some (FImage im)) images /\
        can_create st out = false))
  end.
Proof.
  pose proof (merge_pages_outcome images (Reportlab.new_canvas out) st) as Hloop.
  unfold merge_pngs_to_pdf. unfold bind at 1.
  destruct (merge_pages images (Reportlab.new_canvas out) st) as [[c|e] st1] eqn:Hpages.
  - apply merge_pages_ok in Hpages; [|reflexivity].
    destruct Hpages as (_ & Hf & Hd & _ & _ & Hname & _).
    cbn [Reportlab.new_canvas Reportlab.filename] in Hname.
    monad_unfold. rewrite Hname.
    match goal with
    | |- context [can_create ?s out] =>
        rewrite (can_create_ext st s out) by (cbn [files dirs]; assumption)
    end.
    destruct (can_create st out); cbn [files].
    + split; [exact Hloop|]. split; [reflexivity|]. rewrite Hf. eauto.
    + split; [exact Hf|]. right. split; [reflexivity|]. split; [exact Hloop|reflexivity].
  - destruct Hloop as (Hf & He & Hex). split; [exact Hf|]. left. split; assumption.
Qed.


(** X11. On every page of the document the image is the only thing drawn,
    with its lower left corner at the origin and the width and height of the
    page itself: it fills the page, without margin or scaling. *)
Theorem every_page_is_filled_by_its_image
        (images : list string) (out : string) (st st' : State W) :
  merge_pngs_to_pdf images out st = (Ok tt, st') ->
  exists doc,
    files st' !! out = Some (FPdf doc) /\
    forall k page, doc !! k = Some page ->
      exists p im,
        images !! k = Some p /\
        files st !! p = Some (FImage im) /\
        Reportlab.content page
        = [Reportlab.DrawImage im 0 0 (fst (Reportlab.pagesize page))
             (snd (Reportlab.pagesize page))].
Proof.
  intros Hrun. apply merge_pngs_to_pdf_ok in Hrun as (ims & Hall & Hfiles & _).
  exists (map page_for ims). split; [rewrite Hfiles; apply lookup_insert_eq|].
  intros k page Hk. rewrite list_lookup_fmap in Hk.
  destruct (ims !! k) as [im|] eqn:Him; [|discriminate]. injection Hk as <-.
  destruct (Forall2_lookup_r _ _ _ _ _ Hall Him) as (p & Hp & Hfile).
  exists p, im. repeat split; assumption.
Qed.

End AssemblyOutcomes.

Lemma every_page_is_filled_by_its_image_witness :
  let run := merge_pngs_to_pdf ["shot.png"%string] "out.pdf" Demo.one_shot_on_disk in
  exists doc,
    files (snd run) !! "out.pdf"%string = Some (FPdf doc) /\ length doc = 1%nat.
Proof.
  cbv zeta.
  destruct (every_page_is_filled_by_its_image ["shot.png"%string] "out.pdf"
              Demo.one_shot_on_disk
              (snd (merge_pngs_to_pdf ["shot.png"%string] "out.pdf" Demo.one_shot_on_disk)))
    as (doc & Hdoc & _).
  - apply run_result. vm_compute. reflexivity.
  - exists doc. split; [exact Hdoc|].
    vm_compute in Hdoc. injection Hdoc as <-. reflexivity.
Defined.

(** ** What a run writes, and when *)

Lemma break_at_split (sep : ascii) (l : list ascii) :
  match Pathlib.break_at sep l with
  | (before, Some tail) => l = before ++ tail /\ exists tl, tail = sep :: tl
  | (before, None) => l = before /\ ~ In sep l
  end.
Proof.
  induction l as [|c l IH]; cbn [Pathlib.break_at]; [split; [reflexivity|intros []]|].
  destruct (Ascii.eqb_spec c sep) as [->|Hne].
  - split; [reflexivity|eauto].
  - destruct (Pathlib.break_at sep l) as [before [tail|]].
    + destruct IH as (-> & tl & ->). split; [reflexivity|eauto].
    + destruct IH as (<- & Hnot). split; [reflexivity|].
      intros [Heq|Hin]; [congruence|contradiction].
Qed.

(** A path with a directory part keeps its first character under [with_suffix]. *)
Lemma with_suffix_keeps_head (c : ascii) (rest sfx : string) :
  In "/"%char (Pathlib.chars (String c rest)) ->
  exists q, Pathlib.with_suffix (String c rest) sfx = String c q.
Proof.
  intros Hin. unfold Pathlib.with_suffix, Pathlib.parent_prefix.
  pose proof (break_at_split "/"%char (rev (Pathlib.chars (String c rest)))) as Hsplit.
  destruct (Pathlib.break_at "/"%char (rev (Pathlib.chars (String c rest))))
    as [before [tail|]]; cbn [snd].
  - destruct Hsplit as (Hrev & tl & ->).
    apply (f_equal (@rev ascii)) in Hrev.
    rewrite rev_involutive, rev_app_distr in Hrev. cbn [rev] in Hrev.
    cbn [Pathlib.chars list_ascii_of_string] in Hrev. cbn [rev].
    destruct (rev tl) as [|x xs]; cbn [app] in Hrev; injection Hrev as <- _;
      cbn [Pathlib.unchars string_of_list_ascii app]; push_append; eauto.
  - destruct Hsplit as (_ & Hnot). exfalso. apply Hnot. now apply -> in_rev.
Qed.

Lemma intermediate_is_not_the_document (cfg : Config) (i : nat) (sec : string) :
  OUTPUT_PDF cfg <> Pathlib.with_suffix (img_path_of i sec) ".full.png".
Proof.
  destruct (img_path_of_shape i sec) as (x & ->). push_append.
  match goal with
  | |- _ <> Pathlib.with_suffix (String ?c ?rest) ?sfx =>
      destruct (with_suffix_keeps_head c rest sfx) as (q & ->)
  end.
  - cbn [Pathlib.chars list_ascii_of_string]. do 19 right. left. reflexivity.
  - unfold OUTPUT_PDF. push_append. discriminate.
Qed.

Section RunFrames.
Context {W : Type} (cfg : Config) (env : Browser W).

(** [m] leaves the file at [p] alone, however it ends. *)
Local Abbreviation spares p m := (forall st, files (snd (m st)) !! p = files st !! p).

Lemma spares_bind {A B} (p : string) (m : M W A) (k : A -> M W B) :
  spares p m -> (forall a, spares p (k a)) -> spares p (bind m k).
Proof.
  intros Hm Hk st. unfold bind. specialize (Hm st).
  destruct (m st) as [[a|e] st1]; cbn [snd] in *; [|exact Hm].
  now rewrite Hk.
Qed.

Lemma spares_print (p text : string) : spares p (print text : M W unit).
Proof. intros st. reflexivity. Qed.

Lemma spares_page_goto (p url : string) : spares p (page_goto env url).
Proof.
  intros st. monad_unfold. now destruct (goto env url (world st)) as [[[]|e] w1].
Qed.

Lemma spares_wait_fixed (p : string) : spares p (wait_fixed cfg env).
Proof. intros st. reflexivity. Qed.

Lemma spares_browser_close (p : string) : spares p (browser_close env).
Proof. intros st. reflexivity. Qed.

Lemma screenshot_clean_spares (path p : string) :
  p <> path -> p <> Pathlib.with_suffix path ".full.png" ->
  spares p (screenshot_clean cfg env path).
Proof.
  intros Hp Htmp st. unfold screenshot_clean.
  assert (Hfall : forall st1, files st1 = files st ->
            files (snd (full_page_then_crop cfg env path st1)) !! p = files st !! p).
  { intros st1 Hsame. rewrite (full_page_then_crop_frame cfg env path p st1 Hp Htmp).
    now rewrite Hsame. }
  destruct (USE_ELEMENT_CAPTURE cfg); [|now apply Hfall].
  unfold bind, find_report_canvas.
  destruct (find_among_outcome env (CANVAS_SELECTORS cfg) st)
    as (found & st1 & probed & rest & Hrun & _ & Hf & _).
  rewrite Hrun. destruct found as [loc|]; [|now apply Hfall].
  pose proof (pw_locator_screenshot_outcome env loc path st1) as H.
  destruct (pw_locator_screenshot env loc path st1) as [[[]|e] st']; cbn [snd].
  - rewrite (proj2 H p Hp). now rewrite Hf.
  - destruct H as (Hf' & _). now rewrite Hf', Hf.
Qed.

(** [p] is neither the image of one of the sections, counted from [i], nor
    the intermediate capture of one. *)
Local Abbreviation apart p i secs :=
  (forall k sec, secs !! k = Some sec ->
     p <> img_path_of (i + k) sec /\
     p <> Pathlib.with_suffix (img_path_of (i + k) sec) ".full.png").

Lemma capture_tabs_spares (p : string) (total : nat) (secs : list string) :
  forall i shots, apart p i secs -> spares p (capture_tabs cfg env total i secs shots).
Proof.
  induction secs as [|sec rest IH]; intros i shots Hapart; cbn [capture_tabs].
  - intros st. reflexivity.
  - destruct (Hapart 0%nat sec eq_refl) as [Hp Htmp]. rewrite Nat.add_0_r in Hp, Htmp.
    apply spares_bind; [apply spares_print|intros _].
    apply spares_bind; [apply spares_page_goto|intros _].
    apply spares_bind; [apply spares_wait_fixed|intros _].
    apply spares_bind; [now apply screenshot_clean_spares|intros _].
    apply spares_bind; [apply spares_print|intros _].
    apply IH. intros k s Hk. specialize (Hapart (S k) s Hk).
    now rewrite Nat.add_succ_r in Hapart.
Qed.

Lemma export_or_cancel_spares (p answer : string) :
  apart p 1%nat (SECTIONS cfg) -> spares p (export_or_cancel cfg env answer).
Proof.
  intros Hapart. unfold export_or_cancel.
  destruct (negb (Py.lower (Py.strip answer) =? "y")%string).
  - apply spares_bind; [apply spares_browser_close|intros _].
    apply spares_bind; [apply spares_print|intros _]. intros st. reflexivity.
  - apply spares_bind; [now apply capture_tabs_spares|intros shots].
    apply spares_bind; [apply spares_browser_close|intros _]. intros st. reflexivity.
Qed.

Local Abbreviation stopped st := (snd (emit EvPlaywrightStop st)).

(** Every run, file by file: a file that is no image and no intermediate
    capture of a section is left alone, except the document, which changes
    only when the run returns normally. *)
Lemma main_files (w : W) (fs : gmap string File) (ds : gset string)
      (r : Result unit) (st' : State W) (p : string) :
  main cfg env (initial w fs ds) = (r, st') ->
  apart p 1%nat (SECTIONS cfg) ->
  files st' !! p = fs !! p \/
  (p = OUTPUT_PDF cfg /\ r = Ok tt /\ exists doc, files st' !! p = Some (FPdf doc)).
Proof.
  intros Hrun Hapart.
  destruct (fs !! OUTPUT_DIR) as [f|] eqn:Hdir.
  { rewrite (main_blocked cfg env w fs ds f Hdir) in Hrun. injection Hrun as <- <-.
    now left. }
  rewrite (main_started cfg env w fs ds Hdir) in Hrun.
  match type of Hrun with
  | context [sign_in cfg env ?st2] => pose proof (sign_in_run cfg env st2) as Hsign
  end.
  destruct (sign_in cfg env _) as [[answer|e] st3];
    destruct Hsign as (Hfiles & _); cbn [files] in Hfiles.
  2:{ injection Hrun as <- <-. left. cbn [snd files emit]. now rewrite Hfiles. }
  pose proof (export_or_cancel_spares p answer Hapart st3) as Hexp.
  destruct (export_or_cancel cfg env answer st3) as [[[shots|]|e] st4];
    cbn [snd] in Hexp.
  - unfold bind in Hrun.
    pose proof (merge_pngs_to_pdf_cases shots (OUTPUT_PDF cfg) (stopped st4)) as Hmerge.
    destruct (merge_pngs_to_pdf shots (OUTPUT_PDF cfg) (stopped st4)) as [[[]|e] st5].
    + destruct Hmerge as (_ & _ & doc & Hdoc). cbn [snd files emit] in Hdoc.
      unfold print, emit in Hrun. injection Hrun as <- <-. cbn [files].
      rewrite Hdoc. destruct (decide (p = OUTPUT_PDF cfg)) as [->|Hne].
      * right. split; [reflexivity|]. split; [reflexivity|].
        exists doc. apply lookup_insert_eq.
      * left. rewrite lookup_insert_ne by congruence. now rewrite Hexp, Hfiles.
    + destruct Hmerge as (Hsame & _). cbn [snd files emit] in Hsame.
      injection Hrun as <- <-. left. now rewrite Hsame, Hexp, Hfiles.
  - injection Hrun as <- <-. left. cbn [snd files emit]. now rewrite Hexp, Hfiles.
  - injection Hrun as <- <-. left. cbn [snd files emit]. now rewrite Hexp, Hfiles.
Qed.

End RunFrames.


Section WholeRuns.
Context {W : Type} (cfg : Config) (env : Browser W).

Local Abbreviation stopped st := (snd (emit EvPlaywrightStop st)).

(** X13. Unless the operator answered the prompt with a confirming answer,
    a run writes no file outside the profile store of the browser: a run
    that fails before the prompt (the browser does not start, the first tab
    does not load) and a run that is declined both leave every other file as
    it was. *)
Theorem nothing_is_written_unless_confirmed
        (w : W) (fs : gmap string File) (ds : gset string)
        (r : Result unit) (st' : State W) :
  main cfg env (initial w fs ds) = (r, st') ->
  (forall prompt answer,
      In (EvInput prompt answer) (log st') -> Py.lower (Py.strip answer) <> "y"%string) ->
  files st' = fs.
Proof.
  intros Hrun Hnever.
  destruct (fs !! OUTPUT_DIR) as [f|] eqn:Hdir.
  { rewrite (main_blocked cfg env w fs ds f Hdir) in Hrun. now injection Hrun as <- <-. }
  rewrite (main_started cfg env w fs ds Hdir) in Hrun.
  match type of Hrun with
  | context [sign_in cfg env ?st2] => pose proof (sign_in_run cfg env st2) as Hsign
  end.
  destruct (sign_in cfg env _) as [[answer|e] st3];
    destruct Hsign as (Hfiles & _ & pre & Hlog & _); cbn [files log] in Hfiles, Hlog.
  2:{ now injection Hrun as <- <-. }
  assert (Hasked : In (EvInput sign_in_prompt answer) (log st')).
  { apply (after_prompt_continues cfg env any_event) in Hrun; [|reflexivity].
    destruct Hrun as [_ (delta & -> & _)]. rewrite Hlog.
    apply in_or_app. left. apply in_or_app. right.
    apply in_or_app. right. now left. }
  apply Hnever in Hasked.
  destruct (String.eqb_spec (Py.lower (Py.strip answer)) "y") as [Hy|_]; [contradiction|].
  rewrite (export_or_cancel_declined cfg env answer st3) in Hrun
    by (now apply String.eqb_neq).
  now injection Hrun as <- <-.
Qed.

(** X14. With an empty list of sections, [main] creates the output
    directory, starts the browser, opens a page, and then raises IndexError
    at [SECTIONS[0]]: nothing is loaded, the operator is not asked, nothing
    is written, and the browser is left without [browser.close()]. *)
Theorem empty_sections_raise_IndexError
        (w w1 w2 : W) (fs : gmap string File) (ds : gset string) :
  SECTIONS cfg = [] ->
  fs !! OUTPUT_DIR = None ->
  launch_persistent_context env (home env ++ "/.pbi_auth_powerbi")%string
    (VIEWPORT_W cfg, VIEWPORT_H cfg) (DEVICE_SCALE_FACTOR cfg) w = (Ok tt, w1) ->
  new_page env w1 = (Ok tt, w2) ->
  main cfg env (initial w fs ds)
  = (Raise IndexError,
     {| world := w2; files := fs; dirs := {[ OUTPUT_DIR ]} ∪ ds; session := Opened;
        log := [EvMkdir OUTPUT_DIR; EvPlaywrightStart;
                EvLaunch (home env ++ "/.pbi_auth_powerbi")%string
                  (VIEWPORT_W cfg, VIEWPORT_H cfg) (DEVICE_SCALE_FACTOR cfg);
                EvNewPage;
                EvPrint "Opening first tab to let you sign in (if prompted)…";
                EvPlaywrightStop] |}).
Proof.
  intros Hnone Hdir Hlaunch Hpage.
  rewrite (main_started cfg env w fs ds Hdir).
  unfold sign_in, pw_launch, pw_new_page, first_section. monad_unfold.
  rewrite Hlaunch. cbn [world files dirs session log].
  rewrite Hpage. cbn [world files dirs session log].
  rewrite Hnone. reflexivity.
Qed.


(** X16. A run that raises leaves the document alone, wherever it fails:
    before the prompt, in the capture of a tab, or while the images are read
    back.  The file of the document is written only by a run that returns. *)
Theorem failed_run_leaves_the_document
        (w : W) (fs : gmap string File) (ds : gset string)
        (e : Exception) (st' : State W) :
  main cfg env (initial w fs ds) = (Raise e, st') ->
  files st' !! OUTPUT_PDF cfg = fs !! OUTPUT_PDF cfg.
Proof.
  intros Hrun.
  assert (Hapart : forall k sec, SECTIONS cfg !! k = Some sec ->
            OUTPUT_PDF cfg <> img_path_of (1 + k) sec /\
            OUTPUT_PDF cfg <> Pathlib.with_suffix (img_path_of (1 + k) sec) ".full.png").
  { intros k sec _. split.
    - apply output_pdf_is_no_shot.
    - apply intermediate_is_not_the_document. }
  destruct (main_files cfg env w fs ds (Raise e) st' _ Hrun Hapart)
    as [Hsame|(_ & Hok & _)].
  - exact Hsame.
  - discriminate Hok.
Qed.

(** X17. In a run that is confirmed and completes, the assembly comes after
    the browser: the log ends with the closing of the browser, the stop of
    Playwright, the reading of the images in the order of the sections, the
    saving of the document and the closing message, and the session is
    closed. *)
Theorem assembly_follows_the_browser
        (w : W) (fs : gmap string File) (ds : gset string)
        (st' : State W) (prompt resp : string) :
  main cfg env (initial w fs ds) = (Ok tt, st') ->
  In (EvInput prompt resp) (log st') ->
  Py.lower (Py.strip resp) = "y"%string ->
  session st' = Closed /\
  exists before,
    log st' = before
              ++ [EvBrowserClose; EvPlaywrightStop]
              ++ map EvImageOpen (imap (fun k sec => img_path_of (S k) sec) (SECTIONS cfg))
              ++ [EvPdfSave (OUTPUT_PDF cfg); EvPrint (done_message cfg env)].
Proof.
  intros Hrun Hin Hyes.
  destruct (fs !! OUTPUT_DIR) as [f|] eqn:Hdir.
  { rewrite (main_blocked cfg env w fs ds f Hdir) in Hrun. discriminate. }
  rewrite (main_started cfg env w fs ds Hdir) in Hrun.
  match type of Hrun with
  | context [sign_in cfg env ?st2] => pose proof (sign_in_run cfg env st2) as Hsign
  end.
  destruct (sign_in cfg env _) as [[answer|e] st3]; [|discriminate].
  destruct Hsign as (_ & _ & pre & Hlog & Hquiet). cbn [log] in Hlog.
  destruct (String.eqb (Py.lower (Py.strip answer)) "y") eqn:Hanswer.
  2:{ exfalso.
      rewrite (export_or_cancel_declined cfg env answer st3 Hanswer) in Hrun.
      unfold emit in Hrun. cbn [snd world files dirs session log] in Hrun.
      injection Hrun as <-. cbn [log] in Hin. rewrite Hlog in Hin.
      assert (Hsame : EvInput prompt resp = EvInput sign_in_prompt answer).
      { repeat (apply in_app_or in Hin as [Hin|Hin]).
        - cbn in Hin. destruct Hin as [Hin|[Hin|[]]]; discriminate.
        - exfalso. exact (quiet_not_input pre prompt resp Hquiet Hin).
        - cbn in Hin. destruct Hin as [Hin|[]]. now symmetry.
        - cbn in Hin. destruct Hin as [Hin|[Hin|[]]]; discriminate.
        - cbn in Hin. destruct Hin as [Hin|[]]; discriminate. }
      injection Hsame as _ ->. rewrite Hyes in Hanswer. discriminate. }
  rewrite (export_or_cancel_accepted cfg env answer st3 Hanswer) in Hrun.
  destruct (capture_tabs cfg env _ 1 (SECTIONS cfg) [] st3) as [[out|e] st4] eqn:Hloop;
    [|discriminate].
  apply capture_tabs_shots in Hloop. cbn [app Nat.add] in Hloop. subst out.
  apply bind_Ok in Hrun as ([] & st5 & Hmerge & Hprint).
  apply merge_pngs_to_pdf_ok in Hmerge.
  destruct Hmerge as (ims & _ & _ & _ & Hsession & _ & Hlog5).
  unfold print, emit in Hprint. injection Hprint as <-. cbn [session log].
  split; [rewrite Hsession; reflexivity|].
  rewrite Hlog5. unfold emit. cbn [snd log].
  exists (log st4). rewrite <- !app_assoc. reflexivity.
Qed.

(** X18. The operator is asked at most once in a run, with the sign-in
    prompt: the log holds no answer at all, or exactly one. *)
Theorem operator_is_asked_at_most_once
        (w : W) (fs : gmap string File) (ds : gset string)
        (r : Result unit) (st' : State W) :
  main cfg env (initial w fs ds) = (r, st') ->
  forallb quiet (log st') = true \/
  exists pre answer post,
    log st' = pre ++ EvInput sign_in_prompt answer :: post /\
    forallb quiet pre = true /\ forallb quiet post = true.
Proof.
  intros Hrun.
  destruct (fs !! OUTPUT_DIR) as [f|] eqn:Hdir.
  { rewrite (main_blocked cfg env w fs ds f Hdir) in Hrun. injection Hrun as <- <-.
    left. reflexivity. }
  rewrite (main_started cfg env w fs ds Hdir) in Hrun.
  match type of Hrun with
  | context [sign_in cfg env ?st2] => pose proof (sign_in_run cfg env st2) as Hsign
  end.
  destruct (sign_in cfg env _) as [[answer|e] st3];
    destruct Hsign as (_ & _ & pre & Hlog & Hquiet); cbn [log] in Hlog.
  - right.
    apply (after_prompt_continues cfg env quiet) in Hrun;
      [|intros e He; unfold quiet; now rewrite He].
    destruct Hrun as [_ (delta & Hlog' & Hdelta)].
    exists ([EvMkdir OUTPUT_DIR; EvPlaywrightStart] ++ pre), answer, delta.
    split; [rewrite Hlog', Hlog; log_assoc; reflexivity|].
    split; [exact Hquiet|exact Hdelta].
  - left. injection Hrun as _ <-. unfold emit. cbn [snd log]. rewrite Hlog.
    rewrite !forallb_app, Hquiet. reflexivity.
Qed.

End WholeRuns.

(** ** The name of the intermediate capture *)

Lemma chars_app (a b : string) :
  Pathlib.chars (a ++ b) = Pathlib.chars a ++ Pathlib.chars b.
Proof.
  unfold Pathlib.chars. induction a as [|c a IH]; push_append; [reflexivity|].
  cbn [list_ascii_of_string app]. now rewrite IH.
Qed.

Lemma unchars_app (l k : list ascii) :
  Pathlib.unchars (l ++ k) = (Pathlib.unchars l ++ Pathlib.unchars k)%string.
Proof.
  unfold Pathlib.unchars. induction l as [|c l IH]; cbn [app string_of_list_ascii];
    push_append; [reflexivity|]. now rewrite IH.
Qed.

Lemma unchars_chars (s : string) : Pathlib.unchars (Pathlib.chars s) = s.
Proof. apply string_of_list_ascii_of_string. Qed.

Lemma break_at_first (sep : ascii) (l k : list ascii) :
  forallb (fun c => negb (Ascii.eqb c sep)) l = true ->
  Pathlib.break_at sep (l ++ sep :: k) = (l, Some (sep :: k)).
Proof.
  induction l as [|c l IH]; cbn [app forallb Pathlib.break_at].
  - intros _. now rewrite Ascii.eqb_refl.
  - intros H. apply andb_true_iff in H as [Hc Hl].
    apply negb_true_iff in Hc. rewrite Hc, (IH Hl). reflexivity.
Qed.

Lemma substring_head (a b : string) :
  substring 0 (String.length a) (a ++ b) = a.
Proof. induction a as [|c a IH]; push_append; cbn; [now destruct b|]. now rewrite IH. Qed.

Lemma with_suffix_of_png (dir name sfx : string) :
  no_slash name = true -> name <> EmptyString ->
  Pathlib.with_suffix (dir ++ "/" ++ name ++ ".png") sfx
  = (dir ++ "/" ++ name ++ sfx)%string.
Proof.
  intros Hslash Hname.
  assert (Hrev : rev (Pathlib.chars (dir ++ "/" ++ name ++ ".png"))
                 = (rev (Pathlib.chars ".png") ++ rev (Pathlib.chars name))
                     ++ "/"%char :: rev (Pathlib.chars dir)).
  { rewrite !chars_app. cbn [Pathlib.chars list_ascii_of_string app].
    rewrite rev_app_distr. cbn [rev]. rewrite rev_app_distr.
    rewrite <- !app_assoc. reflexivity. }
  assert (Hbreak : Pathlib.break_at "/"%char
                     (rev (Pathlib.chars (dir ++ "/" ++ name ++ ".png")))
                   = (rev (Pathlib.chars ".png") ++ rev (Pathlib.chars name),
                      Some ("/"%char :: rev (Pathlib.chars dir)))).
  { rewrite Hrev. apply break_at_first. rewrite forallb_app. apply andb_true_iff. split.
    - reflexivity.
    - unfold no_slash in Hslash. rewrite forallb_forall in *.
      intros c Hc. apply Hslash. unfold Pathlib.chars in Hc. now apply in_rev. }
  assert (Hn : Pathlib.name (dir ++ "/" ++ name ++ ".png") = (name ++ ".png")%string).
  { unfold Pathlib.name. rewrite Hbreak. cbn [fst].
    rewrite rev_app_distr, !rev_involutive, unchars_app, !unchars_chars. reflexivity. }
  assert (Hp : Pathlib.parent_prefix (dir ++ "/" ++ name ++ ".png") = (dir ++ "/")%string).
  { unfold Pathlib.parent_prefix. rewrite Hbreak. cbn [snd rev].
    rewrite rev_involutive, unchars_app, unchars_chars. reflexivity. }
  assert (Hs : Pathlib.suffix (dir ++ "/" ++ name ++ ".png") = ".png"%string).
  { unfold Pathlib.suffix. rewrite Hn, chars_app, rev_app_distr.
    destruct name as [|c name]; [contradiction|].
    cbn [Pathlib.chars list_ascii_of_string rev app].
    destruct (rev (list_ascii_of_string name) ++ [c]) as [|x xs] eqn:Hx.
    - destruct (rev (list_ascii_of_string name)); discriminate Hx.
    - reflexivity. }
  unfold Pathlib.with_suffix, Pathlib.stem. rewrite Hp, Hs, Hn.
  rewrite append_length. cbn [String.length].
  replace (String.length name + 4 - 4)%nat with (String.length name) by lia.
  rewrite substring_head, append_assoc. reflexivity.
Qed.

Lemma intermediate_name_eq (i : nat) (sec : string) :
  no_slash sec = true ->
  Pathlib.with_suffix (img_path_of i sec) ".full.png"
  = (OUTPUT_DIR ++ "/" ++ ("tab_" ++ Py.format_0d 2 i ++ "_" ++ sec) ++ ".full.png")%string.
Proof.
  intros Hsec. rewrite (img_path_of_plain i sec Hsec).
  replace ("tab_" ++ Py.format_0d 2 i ++ "_" ++ sec ++ ".png")%string
    with (("tab_" ++ Py.format_0d 2 i ++ "_" ++ sec) ++ ".png")%string
    by (now rewrite !append_assoc).
  apply with_suffix_of_png.
  - now rewrite !no_slash_app, no_slash_format_0d, Hsec.
  - push_append. discriminate.
Qed.

(** X19. For a section identifier without path separator, the intermediate
    capture of the fallback goes to the name of the image with [.full.png] in
    place of [.png], in the output directory; it is not the image file
    itself. *)
Theorem intermediate_capture_name (i : nat) (sec : string) :
  no_slash sec = true ->
  Pathlib.with_suffix (img_path_of i sec) ".full.png"
  = (OUTPUT_DIR ++ "/" ++ ("tab_" ++ Py.format_0d 2 i ++ "_" ++ sec) ++ ".full.png")%string /\
  Pathlib.with_suffix (img_path_of i sec) ".full.png" <> img_path_of i sec.
Proof.
  intros Hsec.
  assert (Heq : Pathlib.with_suffix (img_path_of i sec) ".full.png"
                = (OUTPUT_DIR ++ "/" ++ ("tab_" ++ Py.format_0d 2 i ++ "_" ++ sec)
                   ++ ".full.png")%string).
  { now apply intermediate_name_eq. }
  split; [exact Heq|].
  rewrite Heq, (img_path_of_plain i sec Hsec). intros H.
  do 2 apply append_inv_head in H. rewrite !append_assoc in H.
  do 3 apply append_inv_head in H.
  apply (f_equal String.length) in H. rewrite !append_length in H. cbn in H. lia.
Qed.

Lemma intermediate_capture_name_witness :
  Pathlib.with_suffix (img_path_of 1 "aee1ca53a294adcd19d6") ".full.png"
  = Demo.first_full.
Proof.
  destruct (intermediate_capture_name 1 "aee1ca53a294adcd19d6") as [Heq _].
  - vm_compute. reflexivity.
  - rewrite Heq. reflexivity.
Defined.

Section EarlierImages.
Context {W : Type} (cfg : Config) (env : Browser W).


End EarlierImages.

(** ** These properties on the scripted inputs *)


Lemma nothing_is_written_unless_confirmed_witness :
  files (snd (main Demo.cfg (Demo.browser Demo.declined) Demo.start)) = ∅.
Proof.
  apply (nothing_is_written_unless_confirmed Demo.cfg (Demo.browser Demo.declined)
           tt ∅ ∅ (fst (main Demo.cfg (Demo.browser Demo.declined) Demo.start))).
  - apply surjective_pairing.
  - intros prompt answer Hin. vm_compute in Hin.
    repeat (destruct Hin as [Hin|Hin];
            [first [discriminate Hin
                   |injection Hin as _ <-; vm_compute; intros H; discriminate H]|]).
    destruct Hin.
Defined.

Lemma empty_sections_raise_IndexError_witness :
  fst (main Cases.no_sections (Demo.browser Demo.no_canvas) Demo.start) = Raise IndexError.
Proof.
  unfold Demo.start.
  rewrite (empty_sections_raise_IndexError Cases.no_sections (Demo.browser Demo.no_canvas)
             tt tt tt ∅ ∅).
  - reflexivity.
  - reflexivity.
  - vm_compute. reflexivity.
  - reflexivity.
  - reflexivity.
Defined.


Lemma failed_run_leaves_the_document_witness :
  fst (main Demo.cfg Cases.broken_capture Demo.start) = Raise PWError /\
  files (snd (main Demo.cfg Cases.broken_capture Demo.start)) !! OUTPUT_PDF Demo.cfg = None.
Proof.
  split; [vm_compute; reflexivity|].
  rewrite (failed_run_leaves_the_document Demo.cfg Cases.broken_capture tt ∅ ∅ PWError
             (snd (main Demo.cfg Cases.broken_capture Demo.start))).
  - vm_compute. reflexivity.
  - apply run_result. vm_compute. reflexivity.
Defined.

Lemma assembly_follows_the_browser_witness :
  session (snd (main Demo.cfg (Demo.browser Demo.no_canvas) Demo.start)) = Closed.
Proof.
  destruct (assembly_follows_the_browser Demo.cfg (Demo.browser Demo.no_canvas)
              tt ∅ ∅ (snd (main Demo.cfg (Demo.browser Demo.no_canvas) Demo.start))
              sign_in_prompt "Y") as [Hclosed _].
  - apply run_result. vm_compute. reflexivity.
  - apply (nth_error_In _ 6). vm_compute. reflexivity.
  - vm_compute. reflexivity.
  - exact Hclosed.
Defined.

Lemma operator_is_asked_at_most_once_witness :
  let trace := log (snd (main Demo.cfg (Demo.browser Demo.declined) Demo.start)) in
  forallb quiet trace = true \/
  exists pre answer post,
    trace = pre ++ EvInput sign_in_prompt answer :: post /\
    forallb quiet pre = true /\ forallb quiet post = true.
Proof.
  cbv zeta.
  apply (operator_is_asked_at_most_once Demo.cfg (Demo.browser Demo.declined) tt ∅ ∅
           (fst (main Demo.cfg (Demo.browser Demo.declined) Demo.start))).
  apply surjective_pairing.
Defined.


(** ** The order of loading, waiting and capturing *)

Section Timeline.
Context {W : Type} (cfg : Config) (env : Browser W).

Lemma timeline_app (l k : list Event) : timeline (l ++ k) = timeline l ++ timeline k.
Proof. apply omap_app. Qed.

Lemma timeline_probes (selectors : list string) : timeline (probe_events selectors) = [].
Proof. induction selectors as [|sel rest IH]; [reflexivity|exact IH]. Qed.

(** A capture that returns has taken one screenshot, after its probes. *)
Lemma screenshot_clean_timeline (path : string) (st st' : State W) :
  screenshot_clean cfg env path st = (Ok tt, st') ->
  exists delta, log st' = log st ++ delta /\ timeline delta = [Shot].
Proof.
  unfold screenshot_clean.
  assert (Hfall : forall st1 probes,
            log st1 = log st ++ probes -> timeline probes = [] ->
            full_page_then_crop cfg env path st1 = (Ok tt, st') ->
            exists delta, log st' = log st ++ delta /\ timeline delta = [Shot]).
  { intros st1 probes Hlog Hprobes Hrun.
    destruct (page_screenshot env (world st1)) as [[full|e] w1] eqn:Hshot.
    - destruct (any_margin (CROP_MARGINS cfg)) eqn:Hany.
      + destruct (full_page_then_crop_cropping cfg env path st1 full w1 Hshot Hany)
          as (region & _ & Heq).
        rewrite Heq in Hrun. destruct (PIL.is_empty region); [discriminate Hrun|].
        injection Hrun as <-. cbn [log]. rewrite Hlog.
        eexists. split; [rewrite <- app_assoc; reflexivity|].
        rewrite timeline_app, Hprobes. reflexivity.
      + rewrite (full_page_then_crop_renaming cfg env path st1 full w1 Hshot Hany) in Hrun.
        injection Hrun as <-. cbn [log]. rewrite Hlog.
        eexists. split; [rewrite <- app_assoc; reflexivity|].
        rewrite timeline_app, Hprobes. reflexivity.
    - revert Hrun. unfold full_page_then_crop. monad_unfold. rewrite Hshot. discriminate. }
  destruct (USE_ELEMENT_CAPTURE cfg).
  2:{ apply (Hfall st []); [now rewrite app_nil_r|reflexivity]. }
  unfold bind, find_report_canvas.
  destruct (find_among_outcome env (CANVAS_SELECTORS cfg) st)
    as (found & st1 & probed & rest & Hrun & _ & _ & _ & _ & Hlog & _).
  rewrite Hrun. destruct found as [loc|].
  2:{ apply (Hfall st1 (probe_events probed) Hlog). apply timeline_probes. }
  monad_unfold.
  destruct (locator_screenshot env loc (world st1)) as [[im|e] w1]; [|discriminate].
  cbn [world files dirs session log]. intros H. injection H as <-. cbn [log]. rewrite Hlog.
  eexists. split; [rewrite <- app_assoc; reflexivity|].
  rewrite timeline_app, timeline_probes. reflexivity.
Qed.

(** One tab after the other: load, wait twice, capture. *)
Local Abbreviation tab_steps sec :=
  [Visit (tab_url cfg sec); Wait (AFTER_NAV_WAIT_SEC cfg); Wait (RENDER_BUFFER_SEC cfg); Shot].

Lemma capture_tabs_timeline (total : nat) (secs : list string) :
  forall i shots st out st',
    capture_tabs cfg env total i secs shots st = (Ok out, st') ->
    exists delta,
      log st' = log st ++ delta /\
      timeline delta = flat_map (fun sec => tab_steps sec) secs.
Proof.
  induction secs as [|sec rest IH]; intros i shots st out st' Hrun.
  - cbn in Hrun. unfold ret in Hrun. injection Hrun as _ <-.
    exists []. split; [now rewrite app_nil_r|reflexivity].
  - cbn [capture_tabs] in Hrun.
    apply bind_Ok in Hrun as ([] & st1 & Hprint & Hrun).
    apply bind_Ok in Hrun as ([] & st2 & Hgoto & Hrun).
    apply bind_Ok in Hrun as ([] & st3 & Hwait & Hrun).
    apply bind_Ok in Hrun as ([] & st4 & Hshot & Hrun).
    apply bind_Ok in Hrun as ([] & st5 & Hsaved & Hrun).
    apply IH in Hrun as (delta & Hlog & Hsteps).
    apply screenshot_clean_timeline in Hshot as (shot & Hlog4 & Hshots).
    unfold print, emit in Hprint, Hsaved.
    injection Hprint as <-. injection Hsaved as <-.
    revert Hgoto. monad_unfold.
    destruct (goto env (tab_url cfg sec) (world st)) as [[[]|e] w1]; [|discriminate].
    intros Hgoto. injection Hgoto as <-.
    unfold wait_fixed in Hwait. revert Hwait. monad_unfold.
    intros Hwait. injection Hwait as <-.
    cbn [log] in Hlog4, Hlog. rewrite Hlog, Hlog4.
    eexists. split; [rewrite <- !app_assoc; reflexivity|].
    rewrite !timeline_app, Hsteps, Hshots. reflexivity.
Qed.

Lemma sign_in_timeline (st st1 : State W) (answer : string) :
  sign_in cfg env st = (Ok answer, st1) ->
  exists sec0 delta,
    head (SECTIONS cfg) = Some sec0 /\
    log st1 = log st ++ delta /\
    timeline delta = [Visit (tab_url cfg sec0)].
Proof.
  unfold sign_in, pw_launch, pw_new_page, first_section, py_input. monad_unfold.
  destruct (launch_persistent_context env _ _ _ (world st)) as [[[]|e] w1];
    cbn [world files dirs session log]; [|discriminate].
  destruct (new_page env w1) as [[[]|e] w2]; cbn [world files dirs session log];
    [|discriminate].
  destruct (SECTIONS cfg) as [|sec0 rest]; cbn [world files dirs session log];
    [discriminate|].
  destruct (goto env (tab_url cfg sec0) w2) as [[[]|e] w3];
    cbn [world files dirs session log]; [|discriminate].
  destruct (input env sign_in_prompt w3) as [typed w4].
  cbn [world files dirs session log]. intros H. injection H as _ <-. cbn [log].
  exists sec0. eexists. split; [reflexivity|].
  split; [rewrite <- !app_assoc; reflexivity|]. reflexivity.
Qed.

(** X21. In a run that is confirmed and completes, the browser loads the
    first tab once before the prompt, and then, for each section in order,
    loads its tab, waits AFTER_NAV_WAIT_SEC, waits RENDER_BUFFER_SEC and
    takes one screenshot; it loads, waits and captures nothing else. *)
Theorem run_loads_waits_and_captures_in_order
        (w : W) (fs : gmap string File) (ds : gset string)
        (st' : State W) (prompt resp : string) :
  main cfg env (initial w fs ds) = (Ok tt, st') ->
  In (EvInput prompt resp) (log st') ->
  Py.lower (Py.strip resp) = "y"%string ->
  exists sec0,
    head (SECTIONS cfg) = Some sec0 /\
    timeline (log st')
    = Visit (tab_url cfg sec0) :: flat_map (fun sec => tab_steps sec) (SECTIONS cfg).
Proof.
  intros Hrun Hin Hyes.
  destruct (fs !! OUTPUT_DIR) as [f|] eqn:Hdir.
  { rewrite (main_blocked cfg env w fs ds f Hdir) in Hrun. discriminate. }
  rewrite (main_started cfg env w fs ds Hdir) in Hrun.
  match type of Hrun with
  | context [sign_in cfg env ?st2] =>
      pose proof (sign_in_run cfg env st2) as Hsign;
      pose proof (sign_in_timeline st2) as Hfirst
  end.
  destruct (sign_in cfg env _) as [[answer|e] st3]; [|discriminate].
  destruct Hsign as (_ & _ & pre & Hlog & Hquiet). cbn [log] in Hlog.
  destruct (Hfirst st3 answer eq_refl) as (sec0 & first & Hhead & Hlog3 & Hvisit).
  cbn [log] in Hlog3.
  destruct (String.eqb (Py.lower (Py.strip answer)) "y") eqn:Hanswer.
  2:{ exfalso.
      rewrite (export_or_cancel_declined cfg env answer st3 Hanswer) in Hrun.
      unfold emit in Hrun. cbn [snd world files dirs session log] in Hrun.
      injection Hrun as <-. cbn [log] in Hin. rewrite Hlog in Hin.
      assert (Hsame : EvInput prompt resp = EvInput sign_in_prompt answer).
      { repeat (apply in_app_or in Hin as [Hin|Hin]).
        - cbn in Hin. destruct Hin as [Hin|[Hin|[]]]; discriminate.
        - exfalso. exact (quiet_not_input pre prompt resp Hquiet Hin).
        - cbn in Hin. destruct Hin as [Hin|[]]. now symmetry.
        - cbn in Hin. destruct Hin as [Hin|[Hin|[]]]; discriminate.
        - cbn in Hin. destruct Hin as [Hin|[]]; discriminate. }
      injection Hsame as _ ->. rewrite Hyes in Hanswer. discriminate. }
  rewrite (export_or_cancel_accepted cfg env answer st3 Hanswer) in Hrun.
  destruct (capture_tabs cfg env _ 1 (SECTIONS cfg) [] st3) as [[out|e] st4] eqn:Hloop;
    [|discriminate].
  apply capture_tabs_timeline in Hloop as (delta & Hlog4 & Hsteps).
  apply bind_Ok in Hrun as ([] & st5 & Hmerge & Hprint).
  apply merge_pngs_to_pdf_ok in Hmerge.
  destruct Hmerge as (ims & _ & _ & _ & _ & _ & Hlog5).
  unfold print, emit in Hprint. injection Hprint as <-. cbn [log].
  exists sec0. split; [exact Hhead|].
  rewrite Hlog5. unfold emit. cbn [snd log]. rewrite Hlog4, Hlog3.
  rewrite !timeline_app, Hvisit, Hsteps.
  assert (Hopens : forall l, timeline (map EvImageOpen l) = []).
  { induction l as [|x l IHl]; [reflexivity|exact IHl]. }
  rewrite Hopens. cbn. now rewrite !app_nil_r.
Qed.

End Timeline.

Lemma run_loads_waits_and_captures_in_order_witness :
  length (timeline (log (snd (main Demo.cfg (Demo.browser Demo.no_canvas) Demo.start))))
  = 41%nat.
Proof.
  destruct (run_loads_waits_and_captures_in_order Demo.cfg (Demo.browser Demo.no_canvas)
              tt ∅ ∅ (snd (main Demo.cfg (Demo.browser Demo.no_canvas) Demo.start))
              sign_in_prompt "Y") as (sec0 & _ & Hline).
  - apply run_result. vm_compute. reflexivity.
  - apply (nth_error_In _ 6). vm_compute. reflexivity.
  - vm_compute. reflexivity.
  - rewrite Hline. reflexivity.
Defined.
